(** * Risk-gated trading engine: a shallow embedding of the strategy engine

    The development follows the Python sources under
    [src/backend/src/strategy_engine]: the risk calculator and manager, the
    arbitrage detector and executor, and the grid calculator and manager.

    Numbers.  Python and numpy floats are modelled by exact rationals [Q];
    where the code itself produces or tests an IEEE special value
    ([float('inf')], a numpy division by zero) the extended type [float]
    below is used.  Rounding error of binary64 arithmetic is outside the
    exact model; the module [Binary64] re-evaluates the constant
    computations in binary64 to show that they agree with it.

    Effects.  Python exceptions are the [Raise] case of [res]; a function
    that mutates objects threads the store explicitly; dict objects that
    are shared by reference live in a [heap] indexed by locations.

    Collaborators.  pandas tables, the venue gateway and the methods a
    class calls without defining them are parameters of the sections
    that need them; each may raise.  Everything else is translated from
    the method bodies, statement by statement. *)

From Stdlib Require Import ZArith QArith Qround Qabs Qminmax Lia Lqa Bool List String.
From Stdlib Require Import Floats SpecFloat.
From stdpp Require Import base option gmap strings list fin_maps.
Import ListNotations.

(** A decimal literal denotes the nearest double, as in Python. *)
Set Warnings "-inexact-float".

Open Scope string_scope.

(** ** Python values, exceptions and results *)

Module Py.

(** The exception classes the modelled code raises or catches. *)
Inductive exn : Type :=
| ValueError (msg : string)
| KeyError (key : string)
| TypeError (msg : string)
| IndexError (msg : string)
| ZeroDivisionError
| AttributeError (attr : string).

(** Result of a call: a value, or an exception that propagates. *)
Inductive res (A : Type) : Type :=
| Ok (a : A)
| Raise (e : exn).
Arguments Ok {A} a.
Arguments Raise {A} e.

Definition bind {A B : Type} (m : res A) (k : A -> res B) : res B :=
  match m with
  | Ok a => k a
  | Raise e => Raise e
  end.

(** [range(a, b)] over the integers. *)
Definition range (a b : Z) : list Z :=
  map (fun k => (a + Z.of_nat k)%Z) (seq 0 (Z.to_nat (b - a))).

(** An IEEE double in the exact model: a finite value is a rational. *)
Inductive float : Type :=
| Fin (q : Q)
| PInf
| NInf
| NaN.

End Py.

Export Py.

Notation "'let?' x ':=' m 'in' k" := (Py.bind m (fun x => k))
  (at level 10, x name, m at level 100, k at level 200).

(** ** numpy on exact numbers *)

Module Np.

Local Open Scope Q_scope.

Definition sum (l : list Q) : Q := fold_left Qplus l 0.

(** [np.mean] of a one-dimensional array that is not empty. *)
Definition mean (l : list Q) : Q := sum l / inject_Z (Z.of_nat (length l)).

(** [np.cumsum]. *)
Fixpoint cumsum_from (acc : Q) (l : list Q) : list Q :=
  match l with
  | [] => []
  | x :: r => (acc + x) :: cumsum_from (acc + x) r
  end.

Definition cumsum (l : list Q) : list Q := cumsum_from 0 l.

(** [np.rint]: to the nearest integer, ties to the even one. *)
Definition rint (x : Q) : Z :=
  let f := Qfloor x in
  match Qcompare (x - inject_Z f) (1 # 2) with
  | Lt => f
  | Gt => (f + 1)%Z
  | Eq => if Z.even f then f else (f + 1)%Z
  end.

(** [np.round(x, decimals)] for [decimals >= 0]: scale, [rint], unscale. *)
Definition round (x : Q) (decimals : nat) : Q :=
  let f := inject_Z (10 ^ Z.of_nat decimals) in
  inject_Z (rint (x * f)) / f.

(** Division of numpy scalars: a zero divisor gives an infinity or NaN
    (with a warning), never an exception. *)
Definition div (a b : float) : float :=
  match a, b with
  | NaN, _ | _, NaN => NaN
  | Fin x, Fin y =>
      if Qeq_bool y 0 then
        match Qcompare x 0 with Gt => PInf | Lt => NInf | Eq => NaN end
      else Fin (x / y)
  | Fin _, (PInf | NInf) => Fin 0
  | PInf, Fin y => if Qle_bool 0 y then PInf else NInf
  | NInf, Fin y => if Qle_bool 0 y then NInf else PInf
  | (PInf | NInf), (PInf | NInf) => NaN
  end.

(** Product of numpy scalars. *)
Definition mul (a b : float) : float :=
  match a, b with
  | NaN, _ | _, NaN => NaN
  | Fin x, Fin y => Fin (x * y)
  | Fin x, PInf | PInf, Fin x =>
      match Qcompare x 0 with Gt => PInf | Lt => NInf | Eq => NaN end
  | Fin x, NInf | NInf, Fin x =>
      match Qcompare x 0 with Gt => NInf | Lt => PInf | Eq => NaN end
  | PInf, PInf | NInf, NInf => PInf
  | PInf, NInf | NInf, PInf => NInf
  end.

(** [np.clip(x, lo, hi)] with finite bounds; NaN stays NaN. *)
Definition clip (x : float) (lo hi : Q) : float :=
  match x with
  | NaN => NaN
  | PInf => Fin hi
  | NInf => Fin lo
  | Fin q => Fin (Qmin (Qmax q lo) hi)
  end.

End Np.

(** ** ArbitrageDetector (arbitrage/detector.py) *)

Module ArbitrageDetector.

Local Open Scope Q_scope.

(** [calculate_price_difference(price_a, price_b)], a static method. *)
Definition calculate_price_difference (price_a price_b : Q) : res Q :=
  if Qle_bool price_a 0 || Qle_bool price_b 0 then
    Raise (ValueError "Invalid price values")
  else
    let prices := [price_a; price_b] in
    let diff := Qabs (nth 1 prices 0 - nth 0 prices 0) in
    let avg_price := Np.mean prices in
    let bps_diff := (diff / avg_price) * 10000 in
    Ok (Np.round bps_diff 2).

End ArbitrageDetector.

(** ** The object store

    Python dicts are objects: a variable or a dict entry holds a reference,
    and two references may name one dict.  The store maps a location to
    the dict that lives there. *)

Module Heap.

Definition loc := positive.

(** What a dict entry holds: a number, a reference to another dict
    object, a string, or [None]. *)
Inductive pyval : Type :=
| VNum (q : Q)
| VRef (l : loc)
| VStr (s : string)
| VNone.

Abbreviation pydict := (gmap string pyval).
Abbreviation heap := (gmap loc pydict).

(** [d[k]] for the dict at [l]. *)
Definition getitem (h : heap) (l : loc) (k : string) : res pyval :=
  match h !! l with
  | None => Raise (TypeError "object is not subscriptable")
  | Some d =>
      match d !! k with
      | Some v => Ok v
      | None => Raise (KeyError k)
      end
  end.

(** [d[k] = v] for the dict at [l]: every reference to [l] sees it. *)
Definition setitem (h : heap) (l : loc) (k : string) (v : pyval) : heap :=
  alter (fun d => <[k := v]> d) l h.

(** [k in d] for the dict at [l]. *)
Definition contains (h : heap) (l : loc) (k : string) : res bool :=
  match h !! l with
  | None => Raise (TypeError "argument is not iterable")
  | Some d => Ok (bool_decide (is_Some (d !! k)))
  end.

(** A dict display [{...}]: a new object at a location not in use. *)
Definition new_dict (h : heap) (d : pydict) : loc * heap :=
  let l := fresh (dom h) in (l, <[l := d]> h).

(** [d.copy()]: a new dict object holding the same entries.  The copy is
    shallow: an entry that is a reference still names the same object. *)
Definition copy (h : heap) (l : loc) : res (loc * heap) :=
  match h !! l with
  | None => Raise (AttributeError "copy")
  | Some d => Ok (new_dict h d)
  end.

(** [d.values()] for the dict at [l]. *)
Definition values (h : heap) (l : loc) : res (list pyval) :=
  match h !! l with
  | None => Raise (AttributeError "values")
  | Some d => Ok ((map_to_list d).*2)
  end.

Definition as_ref (v : pyval) : res loc :=
  match v with
  | VRef l => Ok l
  | _ => Raise (TypeError "object is not subscriptable")
  end.

Definition as_num (v : pyval) : res Q :=
  match v with
  | VNum q => Ok q
  | _ => Raise (TypeError "unsupported operand type(s)")
  end.

End Heap.

(** ** State and exceptions

    A method is a function from the state it can touch to a result and the
    state it leaves.  An exception does not roll the state back. *)

Module St.

Definition M (S A : Type) : Type := S -> res A * S.

Definition ret {S A : Type} (a : A) : M S A := fun s => (Ok a, s).

Definition bind {S A B : Type} (m : M S A) (k : A -> M S B) : M S B :=
  fun s =>
    match m s with
    | (Ok a, s') => k a s'
    | (Raise e, s') => (Raise e, s')
    end.

Definition raise {S A : Type} (e : exn) : M S A := fun s => (Raise e, s).

(** A pure step that may raise. *)
Definition lift {S A : Type} (r : res A) : M S A := fun s => (r, s).

Definition get {S : Type} : M S S := fun s => (Ok s, s).

Definition modify {S : Type} (f : S -> S) : M S unit := fun s => (Ok tt, f s).

(** [try: m except Exception as e: handler e]. *)
Definition try_except {S A : Type} (m : M S A) (handler : exn -> M S A)
  : M S A :=
  fun s =>
    match m s with
    | (Ok a, s') => (Ok a, s')
    | (Raise e, s') => handler e s'
    end.

End St.

Notation "'do*' x ':=' m 'in' k" := (St.bind m (fun x => k))
  (at level 10, x name, m at level 100, k at level 200).

Ltac st_unfold :=
  unfold St.try_except, St.bind, St.lift, St.get, St.modify, St.ret, St.raise.

(** [str(e)] of an exception. *)
Definition str_of_exn (e : exn) : string :=
  match e with
  | ValueError msg => msg
  | KeyError k => "'" ++ k ++ "'"
  | TypeError msg => msg
  | IndexError msg => msg
  | ZeroDivisionError => "division by zero"
  | AttributeError a => "object has no attribute '" ++ a ++ "'"
  end.

(** ** Constants of strategy_engine/base.py *)

Module Base.

Definition MAX_POSITION_SIZE_BPS : Q := 5000.
Definition MIN_POSITION_SIZE_BPS : Q := 100.

End Base.

(** ** RiskCalculator (risk/calculator.py) *)

Module RiskCalculator.

Import Heap.
Local Open Scope Q_scope.

Definition MAX_CONCENTRATION_LIMIT : Q := 0.25.
Definition CORRELATION_THRESHOLD : Q := 0.7.
Definition RISK_SCORE_THRESHOLD : Q := 0.8.

(** [self.risk_limits] when the constructor is given none. *)
Definition default_risk_limits : gmap string Q :=
  {[ "max_position_size" := Base.MAX_POSITION_SIZE_BPS;
     "min_position_size" := Base.MIN_POSITION_SIZE_BPS;
     "max_concentration" := MAX_CONCENTRATION_LIMIT;
     "correlation_limit" := CORRELATION_THRESHOLD ]}.

(** The attributes of a calculator that the modelled methods read or
    write. *)
Record calculator : Type := {
  risk_limits : gmap string Q;
  correlation_matrix : list (list Q)
}.

(** The state a method of the calculator can touch: the dict objects it
    is handed references to, and its own attributes. *)
Record world : Type := {
  heap : Heap.heap;
  self : calculator
}.

Definition set_heap (h : Heap.heap) (w : world) : world :=
  {| heap := h; self := self w |}.

Definition set_correlation_matrix (m : list (list Q)) (w : world) : world :=
  {| heap := heap w;
     self := {| risk_limits := risk_limits (self w);
                correlation_matrix := m |} |}.

(** [self.risk_limits[k]]. *)
Definition limit (k : string) : St.M world Q :=
  fun w =>
    match risk_limits (self w) !! k with
    | Some q => (Ok q, w)
    | None => (Raise (KeyError k), w)
    end.

(** The trade handed to [validate_trade]: [size] and [price] are always
    passed, [pair] is left out by one caller (a [KeyError] when read). *)
Record trade_params : Type := {
  pair : option string;
  size : Q;
  price : Q
}.

Definition trade_pair (t : trade_params) : res string :=
  match pair t with
  | Some p => Ok p
  | None => Raise (KeyError "pair")
  end.

Section WithMarketData.

(** pandas is outside the embedding.  What the calculator asks of the
    market data is taken as given: the returns table, its correlation
    matrix, and the statistics computed from the returns alone (stress
    VaR per scenario, Sharpe ratio, drawdown, VaR).  Each may raise. *)
Variable DataFrame : Type.
Variable Scenarios : Type.
Variable ReturnStats : Type.
Variable pct_change_dropna : DataFrame -> res DataFrame.
Variable corr_values : DataFrame -> res (list (list Q)).
Variable return_statistics : DataFrame -> Scenarios -> res ReturnStats.

(** The dict [calculate_portfolio_risk] returns.  [return_stats] stands
    for its entries that do not depend on the portfolio
    ([var_metrics], [stress_test_results], Sharpe ratio, drawdown). *)
Record portfolio_risk : Type := {
  risk_correlation_matrix : list (list Q);
  concentration : Q;
  diversification_score : Q;
  return_stats : ReturnStats
}.

(** [pos['value'] for pos in portfolio_state['positions'].values()]. *)
Definition position_values (h : Heap.heap) (portfolio_state : loc)
  : res (list Q) :=
  let? positions := getitem h portfolio_state "positions" in
  let? lp := as_ref positions in
  let? refs := values h lp in
  (fix each (l : list pyval) : res (list Q) :=
     match l with
     | [] => Ok []
     | pos :: r =>
         let? lpos := as_ref pos in
         let? v := getitem h lpos "value" in
         let? q := as_num v in
         let? qs := each r in
         Ok (q :: qs)
     end) refs.

(** [max(v / portfolio_value for v in values)]: an empty sequence is a
    [ValueError], a zero divisor a [ZeroDivisionError]. *)
Definition max_share (values : list Q) (portfolio_value : Q) : res Q :=
  match values with
  | [] => Raise (ValueError "max() arg is an empty sequence")
  | v :: r =>
      if Qeq_bool portfolio_value 0 then Raise ZeroDivisionError
      else Ok (fold_left Qmax (map (fun x => x / portfolio_value) r)
                 (v / portfolio_value))
  end.

(** The body of [calculate_portfolio_risk], inside its [try]. *)
Definition calculate_portfolio_risk_body (portfolio_state : loc)
    (market_data : DataFrame) (stress_scenarios : Scenarios)
  : St.M world portfolio_risk :=
  do* w := St.get in
  do* vals := St.lift (position_values (heap w) portfolio_state) in
  let portfolio_value := Np.sum vals in
  do* returns := St.lift (pct_change_dropna market_data) in
  do* corr := St.lift (corr_values returns) in
  do* _ := St.modify (set_correlation_matrix corr) in
  do* conc := St.lift (max_share vals portfolio_value) in
  do* stats := St.lift (return_statistics returns stress_scenarios) in
  St.ret {| risk_correlation_matrix := corr;
            concentration := conc;
            diversification_score := 1 - conc;
            return_stats := stats |}.

(** [calculate_portfolio_risk]: any exception is re-raised as a
    [ValueError]. *)
Definition calculate_portfolio_risk (portfolio_state : loc)
    (market_data : DataFrame) (stress_scenarios : Scenarios)
  : St.M world portfolio_risk :=
  St.try_except
    (calculate_portfolio_risk_body portfolio_state market_data stress_scenarios)
    (fun e => St.raise
       (ValueError ("Error calculating portfolio risk: " ++ str_of_exn e))).

(** The three gates of [validate_trade], keyed as in the source. *)
Record validation_results : Type := {
  vr_position_size : bool;
  vr_concentration : bool;
  vr_correlation : bool
}.

(** The second component of a successful [validate_trade].  The only
    numeric entry of a risk dict is its concentration, so [risk_change]
    has that one entry. *)
Record analysis : Type := {
  risk_score : Q;
  results : validation_results;
  pre_trade_risk : portfolio_risk;
  post_trade_risk : portfolio_risk;
  risk_change_concentration : Q
}.

Inductive detail : Type :=
| ErrorDetail (msg : string)
| Analysis (a : analysis).

(** Lines 265-274: the post-trade portfolio.  [portfolio_state.copy()]
    copies the outer dict only; its ["positions"] entry still names the
    caller's positions dict, which the update then writes to. *)
Definition simulate_trade (portfolio_state : loc) (t : trade_params)
  : St.M world loc :=
  do* w := St.get in
  do* cp := St.lift (Heap.copy (heap w) portfolio_state) in
  let simulated_portfolio := cp.1 in
  let h1 := cp.2 in
  do* _ := St.modify (set_heap h1) in
  let trade_value := size t * price t in
  do* p := St.lift (trade_pair t) in
  do* positions := St.lift (getitem h1 simulated_portfolio "positions") in
  do* lp := St.lift (as_ref positions) in
  do* present := St.lift (contains h1 lp p) in
  if present then
    do* pos := St.lift (getitem h1 lp p) in
    do* lpos := St.lift (as_ref pos) in
    do* v := St.lift (getitem h1 lpos "value") in
    do* q := St.lift (as_num v) in
    do* _ := St.modify
               (set_heap (setitem h1 lpos "value" (VNum (q + trade_value)))) in
    St.ret simulated_portfolio
  else
    let fresh_pos := new_dict h1 {[ "value" := VNum trade_value ]} in
    do* _ := St.modify
               (set_heap (setitem fresh_pos.2 lp p (VRef fresh_pos.1))) in
    St.ret simulated_portfolio.

(** [all(corr <= limit for corr in matrix)]: the matrix is a list of
    rows ([tolist()] of a two-dimensional array), so [corr] is a list,
    and a list does not compare with a number: the first row raises a
    [TypeError].  With no row, [all] is true and the limit is not read. *)
Definition correlation_gate (matrix : list (list Q)) : St.M world bool :=
  match matrix with
  | [] => St.ret true
  | _ :: _ =>
      do* _ := limit "correlation_limit" in
      St.raise
        (TypeError "'<=' not supported between instances of 'list' and 'float'")
  end.

Definition weight (b : bool) (w : Q) : Q := if b then 1 * w else 0 * w.

(** [sum(result * risk_weights[metric] for ...)] over the three gates. *)
Definition score (r : validation_results) : Q :=
  Np.sum [ weight (vr_position_size r) 0.3;
           weight (vr_concentration r) 0.3;
           weight (vr_correlation r) 0.4 ].

(** The body of [validate_trade], inside its [try]. *)
Definition validate_trade_body (t : trade_params) (portfolio_state : loc)
    (market_data : DataFrame) (risk_scenarios : Scenarios)
  : St.M world (bool * analysis) :=
  do* pre := calculate_portfolio_risk portfolio_state market_data
               risk_scenarios in
  do* simulated_portfolio := simulate_trade portfolio_state t in
  do* post := calculate_portfolio_risk simulated_portfolio market_data
                risk_scenarios in
  let trade_value := size t * price t in
  do* max_position_size := limit "max_position_size" in
  do* max_concentration := limit "max_concentration" in
  do* corr_ok := correlation_gate (risk_correlation_matrix post) in
  let r := {| vr_position_size := Qle_bool trade_value max_position_size;
              vr_concentration := Qle_bool (concentration post) max_concentration;
              vr_correlation := corr_ok |} in
  St.ret (Qle_bool RISK_SCORE_THRESHOLD (score r),
          {| risk_score := score r;
             results := r;
             pre_trade_risk := pre;
             post_trade_risk := post;
             risk_change_concentration :=
               concentration post - concentration pre |}).

(** [validate_trade]: never raises; an exception becomes
    [(False, {'error': str(e)})]. *)
Definition validate_trade (t : trade_params) (portfolio_state : loc)
    (market_data : DataFrame) (risk_scenarios : Scenarios)
  : world -> (bool * detail) * world :=
  fun w =>
    match validate_trade_body t portfolio_state market_data risk_scenarios w with
    | (Ok (approved, a), w') => ((approved, Analysis a), w')
    | (Raise e, w') => ((false, ErrorDetail (str_of_exn e)), w')
    end.

End WithMarketData.

Arguments concentration {ReturnStats} _.
Arguments risk_correlation_matrix {ReturnStats} _.
Arguments risk_score {ReturnStats} _.
Arguments results {ReturnStats} _.
Arguments post_trade_risk {ReturnStats} _.
Arguments pre_trade_risk {ReturnStats} _.
Arguments Analysis {ReturnStats} _.
Arguments ErrorDetail {ReturnStats} _.

(** A store for the examples: [{'positions': {p: {'value': v}, ...}}]
    with the outer dict at 1, its positions dict at 2 and the position
    dicts from 3 on. *)
Fixpoint add_positions (ps : list (string * Q)) (next : loc)
    (h : Heap.heap) (d : pydict) : Heap.heap * pydict :=
  match ps with
  | [] => (h, d)
  | (p, v) :: r =>
      add_positions r (Pos.succ next)
        (<[next := {[ "value" := VNum v ]}]> h) (<[p := VRef next]> d)
  end.

Definition portfolio_store (ps : list (string * Q)) : Heap.heap :=
  let hd := add_positions ps 3%positive ∅ ∅ in
  <[1%positive := {[ "positions" := VRef 2%positive ]}]>
    (<[2%positive := hd.2]> hd.1).

(** For the examples: a calculator with the default limits over a
    store, and market data whose returns table has no column (its
    correlation matrix has no row). *)
Definition example_world (ps : list (string * Q)) : world :=
  {| heap := portfolio_store ps;
     self := {| risk_limits := default_risk_limits;
                correlation_matrix := [] |} |}.

Definition example_validate_trade (t : trade_params) (w : world)
  : (bool * detail unit) * world :=
  validate_trade unit unit unit (fun d => Ok d) (fun _ => Ok [])
    (fun _ _ => Ok tt) t 1%positive tt tt w.

(** The value of position [p] as the caller's [portfolio_state] reads it:
    [portfolio_state['positions'][p]['value']]. *)
Definition position_value (h : Heap.heap) (portfolio_state : loc)
    (p : string) : res Q :=
  let? positions := getitem h portfolio_state "positions" in
  let? lp := as_ref positions in
  let? pos := getitem h lp p in
  let? lpos := as_ref pos in
  let? v := getitem h lpos "value" in
  as_num v.

End RiskCalculator.

(** ** RiskCalculator: value at risk and the statistics of the returns
    (risk/calculator.py, lines 67-122 and 209-236)

    The statistics [calculate_portfolio_risk] computes from the returns
    alone are written out here and put in the place of the parameter
    [return_statistics] of [RiskCalculator]. *)

Module ValueAtRisk.

Import Heap.
Local Open Scope Q_scope.

Definition VOLATILITY_WINDOW : Z := 20.

(** [stress_scenarios]: a dict from the name of a scenario to a dict of
    numbers, in insertion order. *)
Definition scenarios : Type := list (string * gmap string Q).

(** [vol_adjustment]: the quotient of two Series, or the number 1. *)
Inductive adjustment (Series : Type) : Type :=
| Quotient (s : Series)
| One.
Arguments Quotient {Series} s.
Arguments One {Series}.

Section WithPandas.

(** pandas is outside the embedding.  The frame methods the calculator
    calls are taken as given; each may raise.  On a [DataFrame], [std()]
    and [rolling(n).std().mean()] give a [Series] (one entry per
    column), and comparing a Series with a number gives a Series of
    booleans. *)
Variable DataFrame : Type.
Variable Series : Type.
Variable VarMetrics : Type.
Variable RiskAdjusted : Type.
Variable pct_change_dropna : DataFrame -> res DataFrame.
Variable corr_values : DataFrame -> res (list (list Q)).
Variable dropna : DataFrame -> res DataFrame.
Variable len : DataFrame -> Z.
Variable std : DataFrame -> res Series.
Variable rolling_std_mean : Z -> DataFrame -> res Series.
Variable ne : Series -> Q -> res Series.
Variable truediv : Series -> Series -> res Series.
Variable scale : DataFrame -> Q -> res DataFrame.

(** Lines 93-119: the loop over the time frames, from the cleaned
    returns, their volatility and the adjustment to the dict of VaR
    metrics. *)
Variable var_metrics_of :
  DataFrame -> Series -> adjustment Series -> res VarMetrics.

(** Lines 221-222: Sharpe ratio and maximum drawdown of the returns. *)
Variable risk_adjusted_of : DataFrame -> res RiskAdjusted.

(** The truth value of a Series, as [if] and the conditional expression
    ask for it: pandas refuses, whatever the Series holds. *)
Definition truth_value (s : Series) : res bool :=
  Raise (ValueError
    "The truth value of a Series is ambiguous. Use a.empty, a.bool(), a.item(), a.any() or a.all().").

(** The body of [calculate_value_at_risk], inside its [try];
    [var_type] is ['historical'] at both call sites, and
    [market_conditions] is not read. *)
Definition calculate_value_at_risk_body (lookback_period : Z)
    (portfolio_returns : DataFrame) : res VarMetrics :=
  let? returns := dropna portfolio_returns in
  if (len returns <? lookback_period)%Z then
    Raise (ValueError "Insufficient historical data for VaR calculation")
  else
    let? current_vol := std returns in
    let? historical_vol := rolling_std_mean VOLATILITY_WINDOW returns in
    let? nonzero := ne historical_vol 0 in
    let? condition := truth_value nonzero in
    let? vol_adjustment :=
      if condition then
        let? q := truediv current_vol historical_vol in Ok (Quotient q)
      else Ok One in
    var_metrics_of returns current_vol vol_adjustment.

(** [calculate_value_at_risk]: any exception is re-raised as a
    [ValueError]. *)
Definition calculate_value_at_risk (lookback_period : Z)
    (portfolio_returns : DataFrame) : res VarMetrics :=
  match calculate_value_at_risk_body lookback_period portfolio_returns with
  | Ok v => Ok v
  | Raise e => Raise (ValueError ("Error calculating VaR: " ++ str_of_exn e))
  end.

(** Lines 210-218 of [calculate_portfolio_risk]: the stress loop, one
    VaR per scenario on the returns scaled by its shock factor. *)
Fixpoint stress_test (lookback_period : Z) (returns : DataFrame)
    (stress_scenarios : scenarios) : res (list (string * VarMetrics)) :=
  match stress_scenarios with
  | [] => Ok []
  | (scenario, params) :: rest =>
      let? shocked_returns :=
        scale returns (default 1 (params !! "shock_factor")) in
      let? stress_var := calculate_value_at_risk lookback_period shocked_returns in
      let? stress_results := stress_test lookback_period returns rest in
      Ok ((scenario, stress_var) :: stress_results)
  end.

(** The entries of the risk dict that do not depend on the portfolio. *)
Record return_stats : Type := {
  var_metrics : VarMetrics;
  stress_test_results : list (string * VarMetrics);
  risk_adjusted_metrics : RiskAdjusted
}.

(** Lines 209-227 of [calculate_portfolio_risk]: the stress loop, the
    risk-adjusted metrics, then the VaR of the returns (its argument
    [returns.std()] is evaluated first). *)
Definition return_statistics (lookback_period : Z) (returns : DataFrame)
    (stress_scenarios : scenarios) : res return_stats :=
  let? stress_results := stress_test lookback_period returns stress_scenarios in
  let? risk_adjusted := risk_adjusted_of returns in
  let? volatility := std returns in
  let? var := calculate_value_at_risk lookback_period returns in
  Ok {| var_metrics := var;
        stress_test_results := stress_results;
        risk_adjusted_metrics := risk_adjusted |}.

(** The calculator's methods with these statistics in place;
    [lookback_period] is the calculator's attribute of that name. *)
Definition calculate_portfolio_risk (lookback_period : Z)
    (portfolio_state : loc) (market_data : DataFrame)
    (stress_scenarios : scenarios)
  : St.M RiskCalculator.world (RiskCalculator.portfolio_risk return_stats) :=
  RiskCalculator.calculate_portfolio_risk DataFrame scenarios return_stats
    pct_change_dropna corr_values (return_statistics lookback_period)
    portfolio_state market_data stress_scenarios.

Definition validate_trade (lookback_period : Z)
    (t : RiskCalculator.trade_params) (portfolio_state : loc)
    (market_data : DataFrame) (risk_scenarios : scenarios)
  : RiskCalculator.world
    -> (bool * RiskCalculator.detail return_stats) * RiskCalculator.world :=
  RiskCalculator.validate_trade DataFrame scenarios return_stats
    pct_change_dropna corr_values (return_statistics lookback_period)
    t portfolio_state market_data risk_scenarios.

End WithPandas.

(** The scenarios [RiskManager.validate_trade] and the grid calculator
    pass. *)
Definition normal_and_stress : scenarios :=
  [ ("normal", {[ "shock_factor" := 1 ]});
    ("stress", {[ "shock_factor" := 1.5 ]}) ].

Definition base_scenario : scenarios :=
  [ ("base_scenario", {[ "shock_factor" := 1 ]}) ].

(** For the examples: frames are given by their number of rows, two
    instruments correlated at 0.2, and every pandas call succeeds (also
    the loop over the time frames). *)
Definition example_validate_trade (t : RiskCalculator.trade_params)
    (w : RiskCalculator.world)
  : (bool * RiskCalculator.detail (return_stats unit unit))
    * RiskCalculator.world :=
  validate_trade nat unit unit unit
    (fun rows => Ok (Nat.pred rows)) (fun _ => Ok [[1; 0.2]; [0.2; 1]])
    (fun d => Ok d) (fun rows => Z.of_nat rows) (fun _ => Ok tt)
    (fun _ _ => Ok tt) (fun _ _ => Ok tt) (fun _ _ => Ok tt)
    (fun d _ => Ok d) (fun _ _ _ => Ok tt) (fun _ => Ok tt)
    30 t 1%positive 120%nat normal_and_stress w.

End ValueAtRisk.

(** ** The approval rule in the words of the specification

    [validate_trade] "simulates post-trade portfolio by adding
    trade_value to the relevant position, ... checks three boolean gates
    -- position_size <= max_position_size, post-trade concentration <=
    max_concentration, all pairwise correlations <= correlation_limit --
    weighted {0.3, 0.3, 0.4} into a risk_score; approves iff risk_score
    >= 0.8".  Concentration is the "fraction of portfolio value held in
    the single largest position". *)

Module SpecValidateTrade.

Local Open Scope Q_scope.








End SpecValidateTrade.

(** ** RiskManager (risk/manager.py) *)

Module RiskManager.

(** A [logging] record: level and message. *)
Definition log_record : Type := string * string.

(** What a call of an [async] method (or of a helper it awaits) comes to:
    it returns, it raises, or it never returns.  Each carries the state
    reached. *)
Inductive outcome (W A : Type) : Type :=
| Returned (a : A) (w : W)
| Raised (e : exn) (w : W)
| Hangs (w : W).
Arguments Returned {W A} a w.
Arguments Raised {W A} e w.
Arguments Hangs {W A} w.

Definition world_of {W A : Type} (o : outcome W A) : W :=
  match o with
  | Returned _ w | Raised _ w | Hangs w => w
  end.

Definition raises {W A : Type} (o : outcome W A) : bool :=
  match o with
  | Raised _ _ => true
  | _ => false
  end.

Definition obind {W A B : Type} (m : W -> outcome W A)
    (k : A -> W -> outcome W B) : W -> outcome W B :=
  fun w =>
    match m w with
    | Returned a w' => k a w'
    | Raised e w' => Raised e w'
    | Hangs w' => Hangs w'
    end.

(** [try: m except Exception as e: handler e]. *)
Definition otry {W A : Type} (m : W -> outcome W A)
    (handler : exn -> W -> outcome W A) : W -> outcome W A :=
  fun w =>
    match m w with
    | Raised e w' => handler e w'
    | o => o
    end.

Section WithCollaborators.

(** The calculator's view of pandas, as in [RiskCalculator]. *)
Variable DataFrame : Type.
Variable Scenarios : Type.
Variable ReturnStats : Type.
Variable pct_change_dropna : DataFrame -> res DataFrame.
Variable corr_values : DataFrame -> res (list (list Q)).
Variable return_statistics : DataFrame -> Scenarios -> res ReturnStats.

(** The dict literal passed as [risk_scenarios] by [validate_trade]. *)
Variable normal_and_stress : Scenarios.

(** The manager's attributes. *)
Record manager : Type := {
  emergency_stop : bool;
  portfolio_state : Heap.loc;
  market_data : DataFrame
}.

(** Everything a method of the manager can touch: its own attributes,
    its calculator with the dict objects, and the logger's output. *)
Record world : Type := {
  this : manager;
  calc : RiskCalculator.world;
  log : list log_record
}.

Definition set_emergency_stop (b : bool) (w : world) : world :=
  {| this := {| emergency_stop := b;
                portfolio_state := portfolio_state (this w);
                market_data := market_data (this w) |};
     calc := calc w;
     log := log w |}.

Definition set_calc (c : RiskCalculator.world) (w : world) : world :=
  {| this := this w; calc := c; log := log w |}.

Definition logger (level msg : string) (w : world) : world :=
  {| this := this w; calc := calc w; log := log w ++ [(level, msg)] |}.

(** Methods that [validate_trade] and [emergency_shutdown] call on
    [self] and that the class does not define.  They are taken as
    parameters; as the class stands each is an [AttributeError]. *)
Variable TimingRisk : Type.
Variable MarketImpact : Type.
Variable Event : Type.
Variable Diagnostics : Type.
Variable repr_event : Event -> string.
Variable assess_timing_risk :
  RiskCalculator.trade_params -> St.M world TimingRisk.
Variable calculate_market_impact :
  RiskCalculator.trade_params -> St.M world MarketImpact.
Variable cancel_all_orders : world -> outcome world unit.
Variable secure_portfolio_state : world -> outcome world unit.
Variable send_emergency_notifications : Event -> world -> outcome world unit.
Variable run_system_diagnostics : world -> outcome world Diagnostics.

(** The dict [validate_trade] returns beside its verdict (the
    timestamp left out). *)
Record validation_result : Type := {
  is_valid : bool;
  risk_analysis : RiskCalculator.detail ReturnStats;
  timing_risk : TimingRisk;
  market_impact : MarketImpact
}.

Inductive detail : Type :=
| ErrorDetail (msg : string)
| Validation (v : validation_result).

(** [self.risk_calculator.validate_trade(trade_params,
    self.portfolio_state, self.market_data, risk_scenarios=...)]. *)
Definition calculator_validate_trade (t : RiskCalculator.trade_params)
  : St.M world (bool * RiskCalculator.detail ReturnStats) :=
  fun w =>
    let r := RiskCalculator.validate_trade DataFrame Scenarios ReturnStats
               pct_change_dropna corr_values return_statistics
               t (portfolio_state (this w)) (market_data (this w))
               normal_and_stress (calc w) in
    (Ok r.1, set_calc r.2 w).

(** [validate_trade(trade_params)]. *)
Definition validate_trade (t : RiskCalculator.trade_params)
  : world -> (bool * detail) * world :=
  fun w =>
    if emergency_stop (this w) then
      ((false, ErrorDetail "Trading suspended - Emergency stop active"), w)
    else
      match
        (do* r := calculator_validate_trade t in
         do* timing := assess_timing_risk t in
         do* impact := calculate_market_impact t in
         St.ret (r.1, Validation {| is_valid := r.1;
                                    risk_analysis := r.2;
                                    timing_risk := timing;
                                    market_impact := impact |})) w
      with
      | (Ok r, w') => (r, w')
      | (Raise e, w') =>
          ((false, ErrorDetail (str_of_exn e)),
           logger "ERROR" ("Trade validation error: " ++ str_of_exn e) w')
      end.

(** [_persist_risk_state]: [while True] around a [try] that catches every
    exception, with no [break] and no [return]: awaited, it never
    returns.  It reads the manager and writes a file. *)
Definition persist_risk_state : world -> outcome world unit :=
  fun w => Hangs w.

(** [emergency_shutdown(trigger_event)]. *)
Definition emergency_shutdown (trigger_event : Event)
  : world -> outcome world bool :=
  otry
    (fun w =>
       let w1 := set_emergency_stop true w in
       let w2 := logger "CRITICAL"
                   ("Emergency shutdown triggered: " ++ repr_event trigger_event)
                   w1 in
       obind cancel_all_orders (fun _ =>
       obind secure_portfolio_state (fun _ =>
       obind persist_risk_state (fun _ =>
       obind (send_emergency_notifications trigger_event) (fun _ =>
       obind run_system_diagnostics (fun diagnostics =>
       Returned true))))) w2)
    (fun e w =>
       Returned false
         (logger "ERROR" ("Emergency shutdown error: " ++ str_of_exn e) w)).

End WithCollaborators.

Arguments emergency_stop {DataFrame} _.
Arguments this {DataFrame} _.
Arguments calc {DataFrame} _.
Arguments log {DataFrame} _.
Arguments ErrorDetail {ReturnStats TimingRisk MarketImpact} _.

(** A helper awaited by [emergency_shutdown] does not assign
    [emergency_stop]. *)
Definition keeps_emergency_stop {DataFrame A : Type}
    (f : world DataFrame -> outcome (world DataFrame) A) : Prop :=
  forall w, emergency_stop (this (world_of (f w))) = emergency_stop (this w).

(** Calling a method the class does not define. *)
Definition undefined_method {W A : Type} (name : string) : W -> outcome W A :=
  fun w => Raised (AttributeError name) w.

(** For the examples: a manager over one position, with market data
    that has no column. *)
Definition example_manager (stop : bool) : world unit :=
  {| this := {| emergency_stop := stop;
                portfolio_state := 1%positive;
                market_data := tt |};
     calc := RiskCalculator.example_world [("SOL/USDC", 200000%Q)];
     log := [] |}.

(** [needle in haystack] on strings. *)
Definition mentions (needle haystack : string) : bool :=
  match String.index 0 needle haystack with
  | Some _ => true
  | None => false
  end.

End RiskManager.

(** ** ArbitrageExecutor (arbitrage/executor.py) *)

Module ArbitrageExecutor.

Local Open Scope Q_scope.

Definition MAX_EXECUTION_ATTEMPTS : nat := 3.

(** An order book: each side an array of [price, size] rows. *)
Record orderbook : Type := {
  bids : list (Q * Q);
  asks : list (Q * Q)
}.

(** A row of [self.market_data]. *)
Record tick : Type := {
  dex : string;
  pair : string;
  price : Q;
  book : orderbook
}.

(** An opportunity, also used as [execution_params]; ['size'] is
    optional and read with [get('size', 0)]. *)
Record opportunity : Type := {
  opp_pair : string;
  dex_buy : string;
  dex_sell : string;
  price_difference : Q;
  opp_size : option Q
}.

(** [self.market_data[(dex == d) & (pair == p)]]. *)
Definition select (market_data : list tick) (d p : string) : list tick :=
  filter (fun r => dex r = d /\ pair r = p) market_data.

(** [_calculate_slippage(execution_params)].  The [except] turns the
    [IndexError] of [price_levels[0]] on an empty ask side into
    [float('inf')]. *)
Definition calculate_slippage (market_data : list tick)
    (execution_params : opportunity) : float :=
  match select market_data (dex_buy execution_params)
          (opp_pair execution_params) with
  | [] => PInf
  | row :: _ =>
      let orderbook := book row in
      let trade_size := default 0 (opp_size execution_params) in
      if Qle_bool trade_size 0 then Fin 0
      else
        let cumulative_volume := Np.cumsum (map snd (asks orderbook)) in
        let price_levels := map fst (asks orderbook) in
        let execution_price :=
          Np.sum (zip_with Qmult price_levels
                    (map (Qmin trade_size) cumulative_volume)) / trade_size in
        match price_levels with
        | [] => PInf
        | base_price :: _ =>
            Np.mul (Np.div (Fin (execution_price - base_price)) (Fin base_price))
              (Fin 10000)
        end
  end.

(** [self.execution_stats]. *)
Record execution_stats : Type := {
  total_executions : Z;
  successful_executions : Z;
  failed_executions : Z;
  average_execution_time : Q;
  total_profit_usdc : Q;
  mev_optimization_savings : Q
}.

Definition initial_stats : execution_stats :=
  {| total_executions := 0;
     successful_executions := 0;
     failed_executions := 0;
     average_execution_time := 0;
     total_profit_usdc := 0;
     mev_optimization_savings := 0 |}.

(** What one submitted leg reports. *)
Record trade_result : Type := {
  trade_success : bool;
  realized_profit : Q;
  trade_mev_savings : Q
}.

(** The dict [execute_opportunity] returns (the unused
    [execution_time_ms] entry stays 0.0). *)
Record execution_result : Type := {
  success : bool;
  trades : list trade_result;
  profit_usdc : Q;
  mev_savings : Q;
  errors : list string
}.

Definition add_error (msg : string) (r : execution_result)
  : execution_result :=
  {| success := success r;
     trades := trades r;
     profit_usdc := profit_usdc r;
     mev_savings := mev_savings r;
     errors := errors r ++ [msg] |}.

(** [_update_execution_stats(execution_result, execution_time)]. *)
Definition update_execution_stats (st : execution_stats)
    (r : execution_result) (execution_time : Q) : execution_stats :=
  let total := (total_executions st + 1)%Z in
  {| total_executions := total;
     successful_executions :=
       if success r then (successful_executions st + 1)%Z
       else successful_executions st;
     failed_executions :=
       if success r then failed_executions st
       else (failed_executions st + 1)%Z;
     average_execution_time :=
       (average_execution_time st * inject_Z (total - 1) + execution_time)
       / inject_Z total;
     total_profit_usdc :=
       if success r then total_profit_usdc st + profit_usdc r
       else total_profit_usdc st;
     mev_optimization_savings :=
       if success r then mev_optimization_savings st + mev_savings r
       else mev_optimization_savings st |}.

(** One step of the execution path. *)
Record step : Type := {
  step_dex : string;
  step_size : Q;
  step_price : Q
}.

(** How one attempt to submit the bundle ends. *)
Inductive attempt_outcome : Type :=
| Completed (trade_results : list trade_result)
| TimedOut
| Failed (e : exn).

Fixpoint show_pos (fuel : nat) (n : nat) (acc : string) : string :=
  match fuel with
  | O => acc
  | S fuel' =>
      let d := String (Ascii.ascii_of_nat (48 + n mod 10)) acc in
      if (n / 10 =? 0)%nat then d else show_pos fuel' (n / 10) d
  end.

(** [str(n)] of a natural number. *)
Definition show (n : nat) : string := show_pos (S n) n "".

Section WithCollaborators.

(** The methods [execute_opportunity] calls.  [validate_execution],
    [calculate_execution_path] and the base strategy's [validate_trade]
    catch every exception themselves and always return.  Submitting the
    bundle ([_execute_trade] for each leg under [asyncio.wait_for]) is
    the venue gateway: per attempt it completes, times out or fails. *)
Variable Metrics : Type.
Variable show_metrics : Metrics -> string.
Variable validate_execution : opportunity -> bool * Metrics.
Variable calculate_execution_path : opportunity -> list step.
Variable base_validate_trade : string -> step -> bool * Metrics.
Variable submit : nat -> list (step * Metrics) -> attempt_outcome.
Variable elapsed_ms : Q.

(** The loop that builds the transaction bundle: the first leg the base
    strategy rejects ends the call ([inl] carries its metrics). *)
Fixpoint build_bundle (p : string) (path : list step)
    (bundle : list (step * Metrics)) : Metrics + list (step * Metrics) :=
  match path with
  | [] => inr bundle
  | s :: rest =>
      let v := base_validate_trade p s in
      if v.1 then build_bundle p rest (bundle ++ [(s, v.2)])
      else inl v.2
  end.

(** The retry loop over [range(MAX_EXECUTION_ATTEMPTS)]. *)
Fixpoint retry (attempts : list nat) (bundle : list (step * Metrics))
    (r : execution_result) : execution_result :=
  match attempts with
  | [] => r
  | attempt :: rest =>
      match submit attempt bundle with
      | Completed trade_results =>
          if forallb trade_success trade_results then
            {| success := true;
               trades := trade_results;
               profit_usdc := Np.sum (map realized_profit trade_results);
               mev_savings := Np.sum (map trade_mev_savings trade_results);
               errors := errors r |}
          else retry rest bundle r
      | TimedOut =>
          retry rest bundle
            (add_error ("Execution timeout on attempt " ++ show (attempt + 1)) r)
      | Failed e =>
          retry rest bundle
            (add_error ("Execution error on attempt " ++ show (attempt + 1)
                        ++ ": " ++ str_of_exn e) r)
      end
  end.

(** [execute_opportunity(opportunity)] on the executor's statistics. *)
Definition execute_opportunity (opp : opportunity) (st : execution_stats)
  : execution_result * execution_stats :=
  let execution_result :=
    {| success := false; trades := []; profit_usdc := 0; mev_savings := 0;
       errors := [] |} in
  let v := validate_execution opp in
  if negb v.1 then
    (add_error ("Validation failed: " ++ show_metrics v.2) execution_result, st)
  else
    match calculate_execution_path opp with
    | [] =>
        (add_error "Failed to calculate execution path" execution_result, st)
    | execution_path =>
        match build_bundle (opp_pair opp) execution_path [] with
        | inl risk_metrics =>
            (add_error ("Trade validation failed: " ++ show_metrics risk_metrics)
               execution_result, st)
        | inr transaction_bundle =>
            let r := retry (seq 0 MAX_EXECUTION_ATTEMPTS) transaction_bundle
                       execution_result in
            (r, update_execution_stats st r elapsed_ms)
        end
    end.

(** The call reaches the submission stage: validation passes, the path
    is not empty and the base strategy accepts every leg. *)
Definition reaches_submission (opp : opportunity) : bool :=
  (validate_execution opp).1
  && match calculate_execution_path opp with
     | [] => false
     | path =>
         match build_bundle (opp_pair opp) path [] with
         | inl _ => false
         | inr _ => true
         end
     end.

End WithCollaborators.

End ArbitrageExecutor.

(** ** Slippage in the words of the specification

    "Volume-weighted average execution price across consumed order-book
    levels vs. best price, in basis points; returns +infinity when trade
    size is non-positive ... or book is empty." *)

Module SpecSlippage.

Local Open Scope Q_scope.

(** What a trade consumes of the ask levels, best level first: each
    level gives what is still missing, up to its size. *)
Fixpoint spec_fills (remaining : Q) (asks : list (Q * Q)) : list (Q * Q) :=
  match asks with
  | [] => []
  | (level_price, level_size) :: rest =>
      let taken := Qmin remaining level_size in
      (level_price, taken) :: spec_fills (remaining - taken) rest
  end.

(** The average price over the consumed sizes. *)
Definition spec_execution_price (trade_size : Q) (asks : list (Q * Q)) : Q :=
  let fills := spec_fills trade_size asks in
  Np.sum (map (fun f => f.1 * f.2) fills) / Np.sum (map snd fills).

Definition spec_slippage (asks : list (Q * Q)) (trade_size : Q) : float :=
  if Qle_bool trade_size 0 then PInf
  else
    match asks with
    | [] => PInf
    | (best_price, _) :: _ =>
        Fin ((spec_execution_price trade_size asks - best_price) / best_price
             * 10000)
    end.

End SpecSlippage.

(** ** GridCalculator (grid/calculator.py) *)

Module GridCalculator.

Local Open Scope Q_scope.

Definition MIN_GRID_LEVELS : Z := 3.
Definition MAX_GRID_LEVELS : Z := 20.
Definition VOLATILITY_WINDOW : nat := 24.

(** [int(x)] of a float: truncation toward zero; NaN and the infinities
    raise. *)
Definition py_int (x : float) : res Z :=
  match x with
  | Fin q => Ok (Z.quot (Qnum q) (Zpos (Qden q)))
  | NaN => Raise (ValueError "cannot convert float NaN to integer")
  | PInf | NInf => Raise (ValueError "cannot convert float infinity to integer")
  end.

(** [np.roll(a, -1)]: every entry moves one place to the front, the
    first becomes the last. *)
Definition roll_left (a : list Q) : list Q :=
  match a with
  | [] => []
  | x :: r => (r ++ [x])%list
  end.

(** [a[-1] = v]. *)
Definition set_last (a : list Q) (v : Q) : res (list Q) :=
  match a with
  | [] => Raise (IndexError "index -1 is out of bounds")
  | _ :: _ => Ok (removelast a ++ [v])%list
  end.

(** Lines 123-124: the ring buffer takes the current volatility as its
    newest entry and drops its oldest. *)
Definition update_volatility_history (volatility_history : list Q)
    (current_volatility : Q) : res (list Q) :=
  set_last (roll_left volatility_history) current_volatility.

(** Lines 137-143, on the updated buffer. *)
Definition grid_levels_of (volatility_history : list Q)
    (current_volatility : Q) : res Z :=
  let volatility_factor :=
    Np.div (Fin (Np.mean volatility_history)) (Fin current_volatility) in
  let base_levels := ((MAX_GRID_LEVELS + MIN_GRID_LEVELS) / 2)%Z in
  py_int (Np.clip (Np.mul (Fin (inject_Z base_levels)) volatility_factor)
            (inject_Z MIN_GRID_LEVELS) (inject_Z MAX_GRID_LEVELS)).

(** The dict [optimize_grid_parameters] returns ([risk_metrics] and
    [market_metrics] left out). *)
Record grid_params : Type := {
  grid_levels : Z;
  grid_spacing : Q;
  position_size : Q;
  total_position : Q
}.

Section WithCollaborators.

(** What the optimisation takes from pandas and from its risk
    calculator: the validity of the market data, the standard deviation
    of the returns, the grid spacing, the recommended total size, and
    the verdict on the per-level trade. *)
Variable DataFrame : Type.
Variable validate_market_data : DataFrame -> bool.
Variable returns_std : DataFrame -> res Q.
Variable calculate_grid_spacing : DataFrame -> res Q.
Variable recommended_size : DataFrame -> Q -> res Q.
Variable risk_validate : DataFrame -> Q -> bool.

(** The body of [optimize_grid_parameters], inside its [try]; the state
    is [self.volatility_history]. *)
Definition optimize_grid_parameters_body (market_data : DataFrame)
  : St.M (list Q) grid_params :=
  if negb (validate_market_data market_data) then
    St.raise (ValueError "Invalid market data for grid optimization")
  else
    do* current_volatility := St.lift (returns_std market_data) in
    do* history := St.get in
    do* h := St.lift (update_volatility_history history current_volatility) in
    do* _ := St.modify (fun _ => h) in
    do* spacing := St.lift (calculate_grid_spacing market_data) in
    do* levels := St.lift (grid_levels_of h current_volatility) in
    do* max_position_size :=
      St.lift (recommended_size market_data current_volatility) in
    if (levels =? 0)%Z then St.raise ZeroDivisionError
    else
      let per_grid_size := max_position_size / inject_Z levels in
      if negb (risk_validate market_data per_grid_size) then
        St.raise (ValueError "Grid setup failed risk validation")
      else
        St.ret {| grid_levels := levels;
                  grid_spacing := spacing;
                  position_size := per_grid_size;
                  total_position := max_position_size |}.

(** [optimize_grid_parameters]: any exception is re-raised as a
    [ValueError]. *)
Definition optimize_grid_parameters (market_data : DataFrame)
  : St.M (list Q) grid_params :=
  St.try_except (optimize_grid_parameters_body market_data)
    (fun e => St.raise
       (ValueError ("Error optimizing grid parameters: " ++ str_of_exn e))).

End WithCollaborators.

(** The formula of the specification: clamp of the rounded product. *)
Definition spec_grid_levels (volatility_history : list Q)
    (current_volatility : Q) : Z :=
  let ratio := Np.mean volatility_history / current_volatility in
  let base_levels := ((MAX_GRID_LEVELS + MIN_GRID_LEVELS) / 2)%Z in
  Z.min (Z.max (Np.rint (inject_Z base_levels * ratio)) MIN_GRID_LEVELS)
    MAX_GRID_LEVELS.

End GridCalculator.

(** ** GridStrategyManager (grid/manager.py) *)

Module GridStrategyManager.

Local Open Scope Q_scope.

Inductive side : Type := Buy | Sell.
Inductive status : Type := Pending | Filled | Cancelled.

Record grid_level : Type := {
  level_price : Q;
  level_size : Q;
  level_side : side;
  level_status : status
}.

(** [_initialize_grid_levels(trading_pair, grid_params, current_price)].
    [-num_levels // 2] is the floor of [(-num_levels) / 2]. *)
Definition initialize_grid_levels (trading_pair : string)
    (grid_params : GridCalculator.grid_params) (current_price : Q)
  : list grid_level :=
  let spacing := GridCalculator.grid_spacing grid_params in
  let num_levels := GridCalculator.grid_levels grid_params in
  map (fun i =>
         {| level_price := current_price * (1 + inject_Z i * spacing);
            level_size := GridCalculator.position_size grid_params;
            level_side := if (i <? 0)%Z then Buy else Sell;
            level_status := Pending |})
    (Py.range ((- num_levels) / 2) (num_levels / 2 + 1)).

Section WithCollaborators.

Variable DataFrame : Type.
Variable Conditions : Type.
Variable RiskMetrics : Type.
Variable Performance : Type.

(** The state stored per pair in [self.active_grids]. *)
Record grid_state : Type := {
  levels : list grid_level;
  params : GridCalculator.grid_params;
  risk_metrics : RiskMetrics;
  performance : Performance
}.

Record rebalance_event : Type := {
  event_pair : string;
  event_price : Q
}.

(** The attributes of the manager that [rebalance_grid] reads or
    writes. *)
Record manager : Type := {
  active_grids : gmap string grid_state;
  rebalance_events : list rebalance_event;
  rebalance_failures : Z
}.

(** The calls [rebalance_grid] makes: the grid calculator, the risk
    manager, and two methods of [self] the class does not define
    ([_get_market_data], [_cancel_grid_orders]). *)
Variable get_market_data : string -> res DataFrame.
Variable optimize_grid_parameters :
  DataFrame -> Conditions -> res GridCalculator.grid_params.
Variable validate_trade : string -> Q -> Q -> bool * RiskMetrics.
Variable cancel_grid_orders : string -> res unit.

(** The body of [rebalance_grid], inside its [try]. *)
Definition rebalance_grid_body (trading_pair : string) (current_price : Q)
    (market_conditions : Conditions)
  : St.M manager (list grid_level) :=
  do* m := St.get in
  match active_grids m !! trading_pair with
  | None => St.raise (ValueError ("No active grid for " ++ trading_pair))
  | Some grid =>
      do* data := St.lift (get_market_data trading_pair) in
      do* new_params :=
        St.lift (optimize_grid_parameters data market_conditions) in
      let v := validate_trade trading_pair
                 (GridCalculator.position_size new_params) current_price in
      if negb v.1 then
        St.raise (ValueError "Grid rebalance failed risk validation")
      else
        do* _ := St.lift (cancel_grid_orders trading_pair) in
        let new_levels :=
          initialize_grid_levels trading_pair new_params current_price in
        do* _ := St.modify (fun m =>
          {| active_grids :=
               <[trading_pair := {| levels := new_levels;
                                    params := new_params;
                                    risk_metrics := v.2;
                                    performance := performance grid |}]>
                 (active_grids m);
             rebalance_events :=
               rebalance_events m
               ++ [{| event_pair := trading_pair;
                      event_price := current_price |}];
             rebalance_failures := rebalance_failures m |}) in
        St.ret new_levels
  end.

(** [rebalance_grid]: a failure is counted and re-raised. *)
Definition rebalance_grid (trading_pair : string) (current_price : Q)
    (market_conditions : Conditions)
  : St.M manager (list grid_level) :=
  St.try_except
    (rebalance_grid_body trading_pair current_price market_conditions)
    (fun e =>
       do* _ := St.modify (fun m =>
         {| active_grids := active_grids m;
            rebalance_events := rebalance_events m;
            rebalance_failures := (rebalance_failures m + 1)%Z |}) in
       St.raise e).

End WithCollaborators.

Arguments levels {RiskMetrics Performance} _.
Arguments params {RiskMetrics Performance} _.
Arguments active_grids {RiskMetrics Performance} _.

(** For the examples: parameters with a given level count, and a
    manager holding one grid on SOL/USDC built from them at price 100. *)
Definition example_params (n : Z) (per_level : Q) : GridCalculator.grid_params :=
  {| GridCalculator.grid_levels := n;
     GridCalculator.grid_spacing := 0.01;
     GridCalculator.position_size := per_level;
     GridCalculator.total_position := inject_Z n * per_level |}.

Definition example_manager (old_params : GridCalculator.grid_params)
  : manager unit unit :=
  {| active_grids :=
       {[ "SOL/USDC" :=
            {| levels := initialize_grid_levels "SOL/USDC" old_params 100;
               params := old_params;
               risk_metrics := tt;
               performance := tt |} ]};
     rebalance_events := [];
     rebalance_failures := 0 |}.

End GridStrategyManager.

(** ** Binary64 re-evaluation of the constant computations *)

Module Binary64.

Local Open Scope float_scope.

Definition two52 : PrimFloat.float := 4503599627370496.

(** [rint] on doubles: below 2^52 adding and subtracting 2^52 rounds to
    the nearest integer (ties to even); from 2^52 on every double is an
    integer already. *)
Definition rint (x : PrimFloat.float) : PrimFloat.float :=
  if PrimFloat.ltb (PrimFloat.abs x) two52 then
    if PrimFloat.leb 0 x then (x + two52) - two52 else (x - two52) + two52
  else x.

(** [np.round(x, 2)]: multiply by 100, [rint], divide by 100. *)
Definition round2 (x : PrimFloat.float) : PrimFloat.float :=
  rint (x * 100) / 100.

(** [ArbitrageDetector.calculate_price_difference] on doubles; [None]
    stands for the [ValueError]. *)
Definition calculate_price_difference (price_a price_b : PrimFloat.float)
  : option PrimFloat.float :=
  if PrimFloat.leb price_a 0 || PrimFloat.leb price_b 0 then None
  else
    let diff := PrimFloat.abs (price_b - price_a) in
    let avg_price := (price_a + price_b) / 2 in
    Some (round2 ((diff / avg_price) * 10000)).

(** [sum(result * risk_weights[metric] ...)] of [validate_trade] on
    doubles: [True * w] is [w], [False * w] is [0.0], added from 0 in the
    order of the dict. *)
Definition weight (b : bool) (w : PrimFloat.float) : PrimFloat.float :=
  if b then 1 * w else 0 * w.

Definition score (position_size concentration correlation : bool)
  : PrimFloat.float :=
  ((0 + weight position_size 0.3) + weight concentration 0.3)
  + weight correlation 0.4.

End Binary64.

(** * Further methods *)

(** ** ArbitrageExecutor: the statistics over several calls *)

Module ExecutionLog.

Import ArbitrageExecutor.

(** [_update_execution_stats] applied to the results of successive
    calls, each with its execution time. *)
Definition record_all (st : execution_stats)
    (calls : list (execution_result * Q)) : execution_stats :=
  fold_left (fun s c => update_execution_stats s c.1 c.2) calls st.

End ExecutionLog.

(** ** Doubles compared with a number; the first row of a selection *)

Module PyFloat.

Local Open Scope Q_scope.

Definition Qlt_bool (x y : Q) : bool := negb (Qle_bool y x).

(** [a <= q] and [a < q] for a double [a]: NaN compares false. *)
Definition le (a : float) (q : Q) : bool :=
  match a with
  | Fin x => Qle_bool x q
  | NInf => true
  | PInf | NaN => false
  end.

Definition lt (a : float) (q : Q) : bool :=
  match a with
  | Fin x => Qlt_bool x q
  | NInf => true
  | PInf | NaN => false
  end.

(** [rows.iloc[0]]. *)
Definition iloc0 {A : Type} (rows : list A) : res A :=
  match rows with
  | [] => Raise (IndexError "single positional indexer is out-of-bounds")
  | r :: _ => Ok r
  end.

End PyFloat.

(** ** ArbitrageDetector: liquidity and opportunity validation *)

Module Detector.

Import ArbitrageExecutor PyFloat.
Local Open Scope Q_scope.



(** [np.any(cum >= required_volume)]. *)
Definition reaches (cum : list Q) (required_volume : Q) : bool :=
  existsb (fun v => Qle_bool required_volume v) cum.

(** [validate_liquidity(market_data, required_volume)], a static method
    on an order book.  A side with no row makes [depth[:, 1]] an
    [IndexError], which the [except] turns into [False].  The impacts
    are quotients of numpy scalars: a zero best price gives an infinity
    or NaN, and the comparison is then false. *)
Definition validate_liquidity (market_data : orderbook)
    (required_volume : Q) : bool :=
  match bids market_data, asks market_data with
  | bid0 :: _, ask0 :: _ =>
      let bid_depth := bids market_data in
      let ask_depth := asks market_data in
      let cum_bid_volume := Np.cumsum (map snd bid_depth) in
      let cum_ask_volume := Np.cumsum (map snd ask_depth) in
      let has_bid_liquidity := reaches cum_bid_volume required_volume in
      let has_ask_liquidity := reaches cum_ask_volume required_volume in
      if has_bid_liquidity && has_ask_liquidity then
        let bid_impact :=
          Np.div (Fin (Qabs (bid0.1 - (List.last bid_depth bid0).1))) (Fin bid0.1) in
        let ask_impact :=
          Np.div (Fin (Qabs ((List.last ask_depth ask0).1 - ask0.1))) (Fin ask0.1) in
        lt bid_impact 0.01 && lt ask_impact 0.01
      else false
  | _, _ => false
  end.



(** [self.market_data[(dex == d) & (pair == p)][column].iloc[0]]. *)
Definition first_row (market_data : list tick) (d p : string) : res tick :=
  iloc0 (select market_data d p).

(** [all(validate_liquidity(orderbook of dex, volume) for dex in dexes)];
    the generator stops at the first false answer. *)
Fixpoint all_liquid (market_data : list tick) (p : string)
    (required_volume : Q) (dexes : list string) : res bool :=
  match dexes with
  | [] => Ok true
  | d :: rest =>
      let? row := first_row market_data d p in
      if validate_liquidity (book row) required_volume
      then all_liquid market_data p required_volume rest
      else Ok false
  end.


End Detector.

(** ** BaseStrategy (base.py): the portfolio risk the executor reads *)

Module BaseStrategy.

Local Open Scope Q_scope.

(** A position of [portfolio_state\['positions'\]]. *)
Record position : Type := {
  pos_size : Q;
  pos_value : Q
}.

(** [self.risk_limits]. *)
Record risk_limits : Type := {
  max_position_size_bps : Q;
  min_position_size_bps : Q;
  max_drawdown : Q;
  var_confidence_level : Q
}.

Section WithMarketData.

Variable DataFrame : Type.

(** The attributes [calculate_portfolio_risk] reads or writes;
    [risk_var] and [calculation_error] are the entries ['var'] and
    ['calculation_error'] of [self.risk_metrics]. *)
Record strategy : Type := {
  market_data : option DataFrame;
  positions : gmap string position;
  equity : Q;
  limits : risk_limits;
  risk_var : option float;
  calculation_error : option string
}.

(** The attributes as [__init__] sets them (lines 44-68), for the risk
    limits it reads from the configuration. *)
Definition initial (l : risk_limits) : strategy :=
  {| market_data := None;
     positions := ∅;
     equity := 0;
     limits := l;
     risk_var := None;
     calculation_error := None |}.

(** Lines 140-163, the pandas part inside the [try]: the portfolio VaR
    that is written to [risk_metrics], or the exception. *)
Variable assess :
  DataFrame -> gmap string position -> risk_limits -> res float.

(** [calculate_portfolio_risk()]: returns [self.risk_metrics]; its
    ['var'] entry is what the model returns beside the new state. *)
Definition calculate_portfolio_risk (s : strategy)
  : option float * strategy :=
  match market_data s with
  | None => (risk_var s, s)
  | Some md =>
      if (size (positions s) =? 0)%nat then (risk_var s, s)
      else
        match assess md (positions s) (limits s) with
        | Ok v =>
            (Some v,
             {| market_data := market_data s;
                positions := positions s;
                equity := equity s;
                limits := limits s;
                risk_var := Some v;
                calculation_error := calculation_error s |})
        | Raise e =>
            (risk_var s,
             {| market_data := market_data s;
                positions := positions s;
                equity := equity s;
                limits := limits s;
                risk_var := risk_var s;
                calculation_error := Some (str_of_exn e) |})
        end
  end.

End WithMarketData.

Arguments market_data {DataFrame} _.
Arguments positions {DataFrame} _.
Arguments equity {DataFrame} _.
Arguments limits {DataFrame} _.
Arguments risk_var {DataFrame} _.
Arguments calculation_error {DataFrame} _.

End BaseStrategy.

(** ** ArbitrageExecutor: validation and execution path *)

Module Executor.

Import ArbitrageExecutor PyFloat.
Local Open Scope Q_scope.

Definition MIN_PROFIT_THRESHOLD_BPS : Q := 15.
Definition MAX_SLIPPAGE_BPS : Q := 50.

(** [np.minimum(a, b)] on one-dimensional arrays: elementwise for equal
    lengths, an array of one element is broadcast, other lengths do not
    broadcast. *)
Definition minimum (a b : list Q) : res (list Q) :=
  match a, b with
  | [x], _ => Ok (map (Qmin x) b)
  | _, [y] => Ok (map (fun x => Qmin x y) a)
  | _, _ =>
      if (length a =? length b)%nat then Ok (zip_with Qmin a b)
      else Raise (ValueError "operands could not be broadcast together")
  end.

(** [a.max()]. *)
Definition amax (a : list Q) : res Q :=
  match a with
  | [] => Raise (ValueError "zero-size array to reduction operation maximum")
  | x :: r => Ok (fold_left Qmax r x)
  end.

(** [calculate_execution_path(opportunity)]: the [except] turns every
    exception into the empty path.  (The ['type'] entry of a step, which
    nothing reads, is left out.) *)
Definition calculate_execution_path (market_data : list tick)
    (opportunity : opportunity) : list step :=
  match
    (let? buy := Detector.first_row market_data (dex_buy opportunity)
                   (opp_pair opportunity) in
     let? sell := Detector.first_row market_data (dex_sell opportunity)
                    (opp_pair opportunity) in
     let buy_liquidity := asks (book buy) in
     let sell_liquidity := bids (book sell) in
     match buy_liquidity, sell_liquidity with
     | buy0 :: _, sell0 :: _ =>
         let? sizes :=
           minimum (Np.cumsum (map snd buy_liquidity))
             (Np.cumsum (map snd sell_liquidity)) in
         let? max_buy_size := amax sizes in
         if Qlt_bool 0 max_buy_size then
           Ok [ {| step_dex := dex_buy opportunity;
                   step_size := max_buy_size;
                   step_price := buy0.1 |};
                {| step_dex := dex_sell opportunity;
                   step_size := max_buy_size;
                   step_price := sell0.1 |} ]
         else Ok []
     | _, _ => Raise (IndexError "too many indices for array")
     end)
  with
  | Ok path => path
  | Raise _ => []
  end.

(** The dict [validate_execution] returns beside its verdict. *)
Record checks : Type := {
  price_difference_valid : bool;
  slippage_within_limits : bool;
  sufficient_liquidity : bool;
  risk_limits_satisfied : bool
}.

Inductive metrics : Type :=
| ErrorMetrics (msg : string)
| Checks (c : checks).

Section WithBaseStrategy.

Variable DataFrame : Type.
Variable assess :
  DataFrame -> gmap string BaseStrategy.position -> BaseStrategy.risk_limits
  -> res float.

(** [validate_execution(execution_params)] on the executor's market
    data and its base strategy. *)
Definition validate_execution (market_data : list tick)
    (base_strategy : BaseStrategy.strategy DataFrame)
    (execution_params : opportunity)
  : (bool * metrics) * BaseStrategy.strategy DataFrame :=
  match
    (let? buy := Detector.first_row market_data (dex_buy execution_params)
                   (opp_pair execution_params) in
     let? sell := Detector.first_row market_data (dex_sell execution_params)
                    (opp_pair execution_params) in
     let? current_price_diff :=
       ArbitrageDetector.calculate_price_difference (price buy) (price sell) in
     let estimated_slippage := calculate_slippage market_data execution_params in
     let? liquid :=
       Detector.all_liquid market_data (opp_pair execution_params)
         (default 0 (opp_size execution_params))
         [dex_buy execution_params; dex_sell execution_params] in
     Ok (current_price_diff, estimated_slippage, liquid))
  with
  | Raise e => ((false, ErrorMetrics (str_of_exn e)), base_strategy)
  | Ok (current_price_diff, estimated_slippage, liquid) =>
      let portfolio_risk :=
        BaseStrategy.calculate_portfolio_risk DataFrame assess base_strategy in
      let c :=
        {| price_difference_valid :=
             Qle_bool MIN_PROFIT_THRESHOLD_BPS current_price_diff;
           slippage_within_limits := le estimated_slippage MAX_SLIPPAGE_BPS;
           sufficient_liquidity := liquid;
           risk_limits_satisfied :=
             match portfolio_risk.1 with
             | None => false
             | Some var =>
                 le var (BaseStrategy.max_drawdown
                           (BaseStrategy.limits portfolio_risk.2))
             end |} in
      ((price_difference_valid c && slippage_within_limits c
        && sufficient_liquidity c && risk_limits_satisfied c, Checks c),
       portfolio_risk.2)
  end.

End WithBaseStrategy.

(** For the examples: two venues quoting SOL/USDC half a percent apart,
    each with two levels a side. *)
Definition example_book (mid : Q) : orderbook :=
  {| bids := [(mid - 0.1, 20); (mid - 0.2, 30)];
     asks := [(mid + 0.1, 20); (mid + 0.2, 30)] |}.

Definition example_market : list tick :=
  [ {| dex := "jupiter"; pair := "SOL/USDC"; price := 100;
       book := example_book 100 |};
    {| dex := "pump_fun"; pair := "SOL/USDC"; price := 100.5;
       book := example_book 100.5 |} ].

Definition example_opportunity : opportunity :=
  {| opp_pair := "SOL/USDC"; dex_buy := "jupiter"; dex_sell := "pump_fun";
     price_difference := 49.88; opp_size := Some 10 |}.

End Executor.

(** ** RiskCalculator: position sizing *)

Module PositionSizing.

Local Open Scope Q_scope.

(** [self._market_params] when the constructor is given none. *)
Definition default_market_params : gmap string Q :=
  {[ "impact_coefficient" := 0.1;
     "volatility_adjustment" := 1.5;
     "liquidity_factor" := 0.8 ]}.

(** [d[k]] on a dict of numbers. *)
Definition item (d : gmap string Q) (k : string) : res Q :=
  match d !! k with
  | Some q => Ok q
  | None => Raise (KeyError k)
  end.

(** [a / b] on Python floats: a zero divisor raises. *)
Definition truediv (a b : Q) : res Q :=
  if Qeq_bool b 0 then Raise ZeroDivisionError else Ok (a / b).

(** [sum(pos['value'] for pos in existing_positions.values())]. *)
Fixpoint total_value (positions : list (gmap string Q)) (acc : Q) : res Q :=
  match positions with
  | [] => Ok acc
  | pos :: rest =>
      let? v := item pos "value" in
      total_value rest (acc + v)
  end.

(** The dict [calculate_position_size] returns, with the entries of its
    ['risk_metrics'] beside ['recommended_size']. *)
Record sizing : Type := {
  recommended_size : Q;
  volatility_adjustment : Q;
  market_impact : Q;
  concentration : Q;
  liquidity_score : Q
}.

(** The body of [calculate_position_size], inside its [try].  The
    numbers are Python floats. *)
Definition calculate_position_size_body
    (risk_limits market_params : gmap string Q)
    (market_data : gmap string Q) (portfolio_value : Q)
    (existing_positions : list (gmap string Q))
    (market_impact_params : gmap string Q) : res sizing :=
  let volatility := default 0 (market_data !! "volatility") in
  let? adjustment := item market_params "volatility_adjustment" in
  let? damping := truediv 1 (1 + volatility * adjustment) in
  let vol_adjusted_size :=
    (Base.MAX_POSITION_SIZE_BPS / 10000) * portfolio_value * damping in
  let avg_volume := default 0 (market_data !! "average_volume") in
  let? per_volume := truediv vol_adjusted_size avg_volume in
  let? own_coefficient := item market_params "impact_coefficient" in
  let market_impact :=
    per_volume
    * default own_coefficient (market_impact_params !! "impact_coefficient") in
  let? liquidity_factor := item market_params "liquidity_factor" in
  let liquidity_adjusted_size :=
    vol_adjusted_size * (1 - market_impact * liquidity_factor) in
  let? total_exposure := total_value existing_positions 0 in
  let? max_concentration := item risk_limits "max_concentration" in
  let concentration_limit :=
    Qmin (max_concentration * portfolio_value - total_exposure)
      liquidity_adjusted_size in
  let final_size :=
    Qmax (Qmin concentration_limit liquidity_adjusted_size)
      (Base.MIN_POSITION_SIZE_BPS / 10000 * portfolio_value) in
  let? adjustment' := item market_params "volatility_adjustment" in
  let? share := truediv final_size portfolio_value in
  Ok {| recommended_size := final_size;
        volatility_adjustment := volatility * adjustment';
        market_impact := market_impact;
        concentration := share;
        liquidity_score := 1 - market_impact |}.

(** [calculate_position_size]: any exception is re-raised as a
    [ValueError]. *)
Definition calculate_position_size
    (risk_limits market_params : gmap string Q)
    (market_data : gmap string Q) (portfolio_value : Q)
    (existing_positions : list (gmap string Q))
    (market_impact_params : gmap string Q) : res sizing :=
  match calculate_position_size_body risk_limits market_params market_data
          portfolio_value existing_positions market_impact_params with
  | Ok s => Ok s
  | Raise e =>
      Raise (ValueError ("Error calculating position size: " ++ str_of_exn e))
  end.

End PositionSizing.

(** ** GridCalculator: the risk validation of the grid setup *)

Module GridRisk.

Import Heap RiskCalculator.
Local Open Scope Q_scope.

(** The dict display [{'positions': {}}]: two new dict objects, the
    outer one holding a reference to the inner one. *)
Definition empty_portfolio (h : Heap.heap) : loc * Heap.heap :=
  let inner := new_dict h ∅ in
  new_dict inner.2 {[ "positions" := VRef inner.1 ]}.

Section WithMarketData.

Variable DataFrame : Type.
Variable Scenarios : Type.
Variable ReturnStats : Type.
Variable pct_change_dropna : DataFrame -> res DataFrame.
Variable corr_values : DataFrame -> res (list (list Q)).
Variable return_statistics : DataFrame -> Scenarios -> res ReturnStats.

(** [{'base_scenario': {'shock_factor': 1.0}}] and
    [market_data\['price'\].iloc[-1]]. *)
Variable base_scenario : Scenarios.
Variable last_price : DataFrame -> Q.

(** Lines 161-169 of grid/calculator.py: what the grid calculator asks
    of its risk calculator, a trade with no ['pair'] against a portfolio
    with no position. *)
Definition risk_validation (market_data : DataFrame) (per_grid_size : Q)
    (w : world) : (bool * detail ReturnStats) * world :=
  let portfolio := empty_portfolio (heap w) in
  validate_trade DataFrame Scenarios ReturnStats pct_change_dropna corr_values
    return_statistics
    {| pair := None; size := per_grid_size; price := last_price market_data |}
    portfolio.1 market_data base_scenario (set_heap portfolio.2 w).

End WithMarketData.

End GridRisk.

(** ** The grid calculator and manager with their collaborators in place

    [optimize_grid_parameters] validates the per-level trade with the
    risk calculator of [GridRisk]; [rebalance_grid] calls that
    [optimize_grid_parameters]. *)

Module GridEngine.

Import Heap.
Local Open Scope Q_scope.

Section WithCollaborators.

(** pandas, as in [RiskCalculator], [GridRisk] and [GridCalculator]. *)
Variable DataFrame : Type.
Variable Scenarios : Type.
Variable ReturnStats : Type.
Variable pct_change_dropna : DataFrame -> res DataFrame.
Variable corr_values : DataFrame -> res (list (list Q)).
Variable return_statistics : DataFrame -> Scenarios -> res ReturnStats.
Variable base_scenario : Scenarios.
Variable last_price : DataFrame -> Q.
Variable validate_market_data : DataFrame -> bool.
Variable returns_std : DataFrame -> res Q.
Variable calculate_grid_spacing : DataFrame -> res Q.
Variable recommended_size : DataFrame -> Q -> res Q.

(** [risk_validation[0]] of lines 161-171, for the state [w] of the grid
    calculator's risk calculator. *)
Definition risk_validate (w : RiskCalculator.world) (market_data : DataFrame)
    (per_grid_size : Q) : bool :=
  (GridRisk.risk_validation DataFrame Scenarios ReturnStats pct_change_dropna
     corr_values return_statistics base_scenario last_price
     market_data per_grid_size w).1.1.

(** [GridCalculator.optimize_grid_parameters] on its volatility
    buffer. *)
Definition optimize_grid_parameters (w : RiskCalculator.world)
    (market_data : DataFrame)
  : St.M (list Q) GridCalculator.grid_params :=
  GridCalculator.optimize_grid_parameters DataFrame validate_market_data
    returns_std calculate_grid_spacing recommended_size (risk_validate w)
    market_data.

(** The manager's side: the risk manager's verdict, and the two methods
    of [self] the class does not define. *)
Variable Conditions : Type.
Variable RiskMetrics : Type.
Variable Performance : Type.
Variable get_market_data : string -> res DataFrame.
Variable validate_trade : string -> Q -> Q -> bool * RiskMetrics.
Variable cancel_grid_orders : string -> res unit.

(** [GridStrategyManager.rebalance_grid], for a grid calculator whose
    risk calculator is in state [w] and whose volatility buffer is
    [volatility_history]; [market_conditions] is passed on and not
    read. *)
Definition rebalance_grid (w : RiskCalculator.world)
    (volatility_history : list Q) (trading_pair : string) (current_price : Q)
    (market_conditions : Conditions)
  : St.M (GridStrategyManager.manager RiskMetrics Performance)
      (list GridStrategyManager.grid_level) :=
  GridStrategyManager.rebalance_grid DataFrame Conditions RiskMetrics
    Performance get_market_data
    (fun market_data _ =>
       (optimize_grid_parameters w market_data volatility_history).1)
    validate_trade cancel_grid_orders
    trading_pair current_price market_conditions.

End WithCollaborators.

(** For the examples: market data whose returns have a standard
    deviation of 0.01, a spacing of 0.01 and a recommended total size of
    1000; every pandas call of the risk calculator succeeds. *)
Definition example_optimize_grid_parameters (volatility_history : list Q)
  : res GridCalculator.grid_params * list Q :=
  optimize_grid_parameters unit unit unit (fun d => Ok d) (fun _ => Ok [])
    (fun _ _ => Ok tt) tt (fun _ => 100) (fun _ => true) (fun _ => Ok 0.01)
    (fun _ => Ok 0.01) (fun _ _ => Ok 1000) (RiskCalculator.example_world [])
    tt volatility_history.


End GridEngine.

(** ** GridStrategyManager: deviation from the grid *)

Module GridMonitoring.

Import GridStrategyManager.
Local Open Scope Q_scope.

(** [min(rest, key=key)] continued from [best]: a later element
    replaces the current one only when its key is strictly smaller. *)
Fixpoint min_by (key : Q -> Q) (best : Q) (rest : list Q) : Q :=
  match rest with
  | [] => best
  | x :: r =>
      min_by key (if PyFloat.Qlt_bool (key x) (key best) then x else best) r
  end.

(** [_calculate_grid_deviation(grid_levels, current_price)], on Python
    floats.  The method has no [try]: an empty grid is a [ValueError],
    a closest level of zero a [ZeroDivisionError]. *)
Definition calculate_grid_deviation (grid_levels : list grid_level)
    (current_price : Q) : res Q :=
  let level_prices := map level_price grid_levels in
  match level_prices with
  | [] => Raise (ValueError "min() arg is an empty sequence")
  | x :: r =>
      let closest_level := min_by (fun x => Qabs (x - current_price)) x r in
      PositionSizing.truediv (current_price - closest_level) closest_level
  end.

End GridMonitoring.

(** ** Grid spacing (grid/calculator.py) *)

Module GridSpacing.

Local Open Scope Q_scope.

Definition MIN_GRID_SPACING : Q := 0.001.
Definition MAX_GRID_SPACING : Q := 0.05.
Definition RISK_ADJUSTMENT_FACTOR : Q := 0.8.
Definition MARKET_IMPACT_THRESHOLD : Q := 0.01.

(** Sum and difference of doubles. *)
Definition add (a b : float) : float :=
  match a, b with
  | NaN, _ | _, NaN => NaN
  | Fin x, Fin y => Fin (x + y)
  | PInf, NInf | NInf, PInf => NaN
  | PInf, _ | _, PInf => PInf
  | NInf, _ | _, NInf => NInf
  end.

Definition opp (a : float) : float :=
  match a with
  | Fin x => Fin (- x)
  | PInf => NInf
  | NInf => PInf
  | NaN => NaN
  end.

Definition sub (a b : float) : float := add a (opp b).

(** [x < y] on doubles; NaN compares false. *)
Definition ltb (x y : float) : bool :=
  match x, y with
  | NaN, _ | _, NaN => false
  | Fin a, Fin b => PyFloat.Qlt_bool a b
  | NInf, NInf | PInf, _ => false
  | NInf, _ => true
  | Fin _, PInf => true
  | Fin _, NInf => false
  end.

(** Python's [min(a, b)] and [max(a, b)]: the second argument is taken
    only when it is strictly smaller (larger); with a NaN second
    argument the first is returned. *)
Definition py_min (a b : float) : float := if ltb b a then b else a.
Definition py_max (a b : float) : float := if ltb a b then b else a.

(** Lines 49-61 of [calculate_grid_spacing]: from the volatility that
    pandas computed (line 45), the target profit and the volume profile
    to the spacing.  [sqrt_window] stands for
    [np.sqrt(VOLATILITY_WINDOW)]. *)
Definition calculate_grid_spacing (sqrt_window : Q) (volatility : float)
    (target_profit : Q) (volume_profile : float) : float :=
  let volume_profile_factor :=
    py_min (Fin 1) (Np.div volume_profile (Fin MARKET_IMPACT_THRESHOLD)) in
  let base_spacing :=
    Np.mul (Np.mul volatility (Fin sqrt_window)) (Fin RISK_ADJUSTMENT_FACTOR) in
  let adjusted_spacing :=
    Np.mul base_spacing (add (Fin 1) (sub (Fin 1) volume_profile_factor)) in
  let profit_adjusted_spacing := py_max (Fin target_profit) adjusted_spacing in
  Np.clip profit_adjusted_spacing MIN_GRID_SPACING MAX_GRID_SPACING.

End GridSpacing.

(** ** RiskManager: drawdown, history and breach handling *)

Module RiskMonitoring.

Import RiskManager.
Local Open Scope Q_scope.


Section WithValues.

(** What the entries of a risk-metrics dict hold. *)
Variable Value : Type.

(** [self.risk_metrics_history] as [__init__] sets it. *)
Definition initial_history : gmap string (list Value) :=
  {[ "var" := []; "drawdown" := []; "concentration" := []; "alerts" := [] ]}.

(** [_update_risk_history(risk_metrics)]: every history key that is
    also a key of [risk_metrics] gets the value appended (the timestamp
    stored with it is left out). *)
Definition update_risk_history (history : gmap string (list Value))
    (risk_metrics : gmap string Value) : gmap string (list Value) :=
  map_imap
    (fun metric_type entries =>
       Some (match risk_metrics !! metric_type with
             | Some v => (entries ++ [v])%list
             | None => entries
             end))
    history.

(** The dict [handle_risk_breach] passes to [_update_risk_history]. *)
Definition breach_record (breach_event severity actions timestamp : Value)
  : gmap string Value :=
  {[ "breach_event" := breach_event;
     "severity" := severity;
     "actions" := actions;
     "timestamp" := timestamp ]}.

(** The dict [assess_portfolio_risk] passes to [_update_risk_history]:
    the five entries of the calculator's risk dict and the five the
    manager adds. *)
Definition comprehensive_risk
    (var_metrics correlation_matrix concentration stress_test_results
     risk_adjusted_metrics current_drawdown liquidity_risk correlation_risk
     emergency_stop timestamp : Value) : gmap string Value :=
  <[ "current_drawdown" := current_drawdown ]>
  (<[ "liquidity_risk" := liquidity_risk ]>
  (<[ "correlation_risk" := correlation_risk ]>
  (<[ "emergency_stop" := emergency_stop ]>
  (<[ "timestamp" := timestamp ]>
  {[ "var_metrics" := var_metrics;
     "correlation_matrix" := correlation_matrix;
     "concentration" := concentration;
     "stress_test_results" := stress_test_results;
     "risk_adjusted_metrics" := risk_adjusted_metrics ]})))).

End WithValues.

Definition WARNING : Q := 0.7.
Definition CRITICAL : Q := 0.9.

(** What [handle_risk_breach] returns. *)
Inductive breach_response : Type :=
| Handled (severity : Q) (actions_taken : list string)
| BreachError (msg : string).

Section WithCollaborators.

Variable DataFrame : Type.
Variable Event : Type.
Variable Trigger : Type.
Variable Diagnostics : Type.
Variable Value : Type.
Variable repr_trigger : Trigger -> string.
Variable show_severity : Q -> string.

(** The manager's state with its risk-metrics history. *)
Record state : Type := {
  mgr : world DataFrame;
  history : gmap string (list Value)
}.

Definition on_manager {A : Type}
    (f : world DataFrame -> outcome (world DataFrame) A)
  : state -> outcome state A :=
  fun s =>
    match f (mgr s) with
    | Returned a w => Returned a {| mgr := w; history := history s |}
    | Raised e w => Raised e {| mgr := w; history := history s |}
    | Hangs w => Hangs {| mgr := w; history := history s |}
    end.

(** The dict [{'trigger': 'risk_breach', 'severity': ..., 'event': ...}]
    handed to [emergency_shutdown], and the values stored in the record
    for the history. *)
Variable breach_trigger : Q -> Event -> Trigger.
Variable event_value : Event -> Value.
Variable severity_value : Q -> Value.
Variable actions_value : list string -> Value.
Variable timestamp_value : Value.

(** Methods called on [self] that the class does not define
    ([_assess_breach_severity], [_reduce_risk_exposure]) and the helpers
    of [emergency_shutdown]. *)
Variable assess_breach_severity :
  Event -> world DataFrame -> outcome (world DataFrame) Q.
Variable reduce_risk_exposure :
  world DataFrame -> outcome (world DataFrame) unit.
Variable cancel_all_orders : world DataFrame -> outcome (world DataFrame) unit.
Variable secure_portfolio_state :
  world DataFrame -> outcome (world DataFrame) unit.
Variable send_emergency_notifications :
  Trigger -> world DataFrame -> outcome (world DataFrame) unit.
Variable run_system_diagnostics :
  world DataFrame -> outcome (world DataFrame) Diagnostics.

(** The graduated response, lines 230-242. *)
Definition respond (severity : Q) (risk_event : Event)
  : world DataFrame -> outcome (world DataFrame) (list string) :=
  if Qle_bool CRITICAL severity then
    obind
      (emergency_shutdown DataFrame Trigger Diagnostics repr_trigger
         cancel_all_orders secure_portfolio_state send_emergency_notifications
         run_system_diagnostics (breach_trigger severity risk_event))
      (fun _ => Returned ["emergency_shutdown"])
  else if Qle_bool WARNING severity then
    obind reduce_risk_exposure
      (fun _ => Returned ["reduce_exposure"; "increase_monitoring"])
  else Returned [].

(** [handle_risk_breach(risk_event)]. *)
Definition handle_risk_breach (risk_event : Event)
  : state -> outcome state breach_response :=
  otry
    (obind (on_manager (assess_breach_severity risk_event)) (fun severity =>
     obind (on_manager (respond severity risk_event)) (fun response_actions =>
     fun s =>
       let w := logger DataFrame "WARNING"
                  ("Risk breach handled - Severity: " ++ show_severity severity)
                  (mgr s) in
       Returned (Handled severity response_actions)
         {| mgr := w;
            history :=
              update_risk_history Value (history s)
                (breach_record Value (event_value risk_event)
                   (severity_value severity) (actions_value response_actions)
                   timestamp_value) |})))
    (fun e s =>
       Returned (BreachError (str_of_exn e))
         {| mgr := logger DataFrame "ERROR"
                     ("Error handling risk breach: " ++ str_of_exn e) (mgr s);
            history := history s |}).

End WithCollaborators.

End RiskMonitoring.

(** ** ArbitrageExecutor: the trade placeholder *)

Module TradePlaceholder.

Import ArbitrageExecutor.
Local Open Scope Q_scope.

(** [_execute_trade(trade)] as written: it reports success with no
    profit and no saving, whatever the trade. *)
Definition execute_trade {Metrics : Type} (trade : step * Metrics)
  : trade_result :=
  {| trade_success := true; realized_profit := 0; trade_mev_savings := 0 |}.

(** [asyncio.gather] over the legs of the bundle, when all of them
    complete within the timeout. *)
Definition gather {Metrics : Type} (attempt : nat)
    (bundle : list (step * Metrics)) : attempt_outcome :=
  Completed (map execute_trade bundle).

End TradePlaceholder.

(** ** ArbitrageDetector: market data updates *)

Module DetectorData.

Local Open Scope Q_scope.

Definition MAX_DETECTION_LATENCY_MS : Q := 100.

(** [l[-n:]] for [n > 0]. *)
Definition last_n {A : Type} (n : nat) (l : list A) : list A :=
  skipn (length l - n) l.

Section WithFrames.

Variable DataFrame : Type.

(** The two things read off the new frame: whether it has the required
    columns, and the age in milliseconds of its newest timestamp (which
    may raise). *)
Variable has_columns : DataFrame -> bool.
Variable latency_ms : DataFrame -> res Q.

(** The attributes [update_market_data] writes. *)
Record detector : Type := {
  market_data : DataFrame;
  detection_latency : list Q
}.

(** [update_market_data(new_data)]. *)
Definition update_market_data (new_data : DataFrame) (d : detector)
  : bool * detector :=
  if negb (has_columns new_data) then (false, d)
  else
    let d1 := {| market_data := new_data;
                 detection_latency := detection_latency d |} in
    match latency_ms new_data with
    | Raise _ => (false, d1)
    | Ok update_latency =>
        let appended := (detection_latency d ++ [update_latency])%list in
        let kept :=
          if (1000 <? length appended)%nat then last_n 1000 appended
          else appended in
        (Qle_bool update_latency MAX_DETECTION_LATENCY_MS,
         {| market_data := new_data; detection_latency := kept |})
    end.

End WithFrames.

Arguments market_data {DataFrame} _.
Arguments detection_latency {DataFrame} _.

End DetectorData.

(** * Theorems *)

(** ** Exact arithmetic helpers *)

Section Exact.

Local Open Scope Q_scope.

Lemma rint_comp (x y : Q) : x == y -> Np.rint x = Np.rint y.
Proof.
  intros H. unfold Np.rint.
  rewrite (Qfloor_comp _ _ H).
  assert (Hc : Qcompare (x - inject_Z (Qfloor y)) (1 # 2)
               = Qcompare (y - inject_Z (Qfloor y)) (1 # 2)).
  { apply Qcompare_comp; [ rewrite H | ]; reflexivity. }
  rewrite Hc. reflexivity.
Qed.

Lemma round_comp (x y : Q) (d : nat) : x == y -> Np.round x d = Np.round y d.
Proof.
  intros H. unfold Np.round.
  set (f := inject_Z (10 ^ Z.of_nat d)).
  rewrite (rint_comp (x * f) (y * f)); [ reflexivity | ].
  rewrite H. reflexivity.
Qed.

Lemma Qle_bool_false_lt (x y : Q) : y < x -> Qle_bool x y = false.
Proof.
  intros H. destruct (Qle_bool x y) eqn:E; [ | reflexivity ].
  apply Qle_bool_iff in E. exfalso. apply (Qlt_not_le _ _ H E).
Qed.

End Exact.

(** ** Binary64 arithmetic

    Addition of doubles is commutative and |x - y| = |y - x|, from the
    specification of the operations on [spec_float]. *)

Section SpecFloatFacts.

Variables prec emax : Z.

Lemma SFadd_comm (x y : spec_float) :
  SFadd prec emax x y = SFadd prec emax y x.
Proof.
  destruct x as [sx | sx | | sx mx ex], y as [sy | sy | | sy my ey];
    try reflexivity; try (destruct sx, sy; reflexivity).
  simpl. rewrite (Z.min_comm ey ex). f_equal. apply Z.add_comm.
Qed.

Lemma SFabs_binary_round_aux (sx : bool) (mx ex : Z) (lx : location) :
  SFabs (binary_round_aux prec emax sx mx ex lx)
  = SFabs (binary_round_aux prec emax false mx ex lx).
Proof.
  unfold binary_round_aux.
  destruct (shr_fexp prec emax mx ex lx) as [mrs' e'].
  destruct (shr_fexp prec emax _ e' loc_Exact) as [mrs'' e''].
  destruct (shr_m mrs''); try reflexivity.
  destruct (Z.leb e'' (emax - prec)); reflexivity.
Qed.

Lemma SFabs_binary_normalize_opp (m e : Z) (sz : bool) :
  SFabs (binary_normalize prec emax (- m) e sz)
  = SFabs (binary_normalize prec emax m e sz).
Proof.
  destruct m as [ | p | p ]; simpl; try reflexivity; unfold binary_round;
    destruct (shl_align _ _ _) as [mz ez];
    rewrite (SFabs_binary_round_aux true); reflexivity.
Qed.

Lemma SFabs_sub_comm (x y : spec_float) :
  SFabs (SFsub prec emax x y) = SFabs (SFsub prec emax y x).
Proof.
  destruct x as [sx | sx | | sx mx ex], y as [sy | sy | | sy my ey];
    try reflexivity; try (destruct sx, sy; reflexivity).
  simpl. rewrite (Z.min_comm ey ex).
  rewrite <- SFabs_binary_normalize_opp. f_equal. f_equal.
  rewrite Z.opp_sub_distr, Z.add_comm. reflexivity.
Qed.

End SpecFloatFacts.

Section Binary64Facts.

Local Open Scope float_scope.

Lemma double_add_comm (x y : PrimFloat.float) : x + y = y + x.
Proof. apply Prim2SF_inj. rewrite !add_spec. apply SFadd_comm. Qed.

Lemma double_abs_sub_comm (x y : PrimFloat.float) :
  PrimFloat.abs (x - y) = PrimFloat.abs (y - x).
Proof.
  apply Prim2SF_inj. rewrite !abs_spec, !sub_spec. apply SFabs_sub_comm.
Qed.

Lemma binary64_price_difference_symmetric (x y : PrimFloat.float) :
  Binary64.calculate_price_difference x y
  = Binary64.calculate_price_difference y x.
Proof.
  unfold Binary64.calculate_price_difference.
  rewrite (orb_comm (PrimFloat.leb y 0)).
  rewrite (double_abs_sub_comm x y), (double_add_comm y x).
  reflexivity.
Qed.

(** The verdict of the risk score in binary64: the sum reaches 0.8
    exactly when the three gates hold, as in the exact model. *)
Lemma binary64_score_threshold (b1 b2 b3 : bool) :
  PrimFloat.leb 0.8 (Binary64.score b1 b2 b3) = b1 && b2 && b3.
Proof. destruct b1, b2, b3; vm_compute; reflexivity. Qed.

End Binary64Facts.

(** ** ArbitrageDetector *)

Section DetectorFacts.

Import ArbitrageDetector.
Local Open Scope Q_scope.

(** C9.  For strictly positive prices [calculate_price_difference] takes
    the same value whichever price comes first, and it does return a
    value.  In binary64 too the two calls compute the same double, for
    all arguments. *)
Theorem price_difference_symmetric (price_a price_b : Q) :
  0 < price_a -> 0 < price_b ->
  calculate_price_difference price_a price_b
  = calculate_price_difference price_b price_a
  /\ (exists bps, calculate_price_difference price_a price_b = Ok bps)
  /\ (forall x y : PrimFloat.float,
        Binary64.calculate_price_difference x y
        = Binary64.calculate_price_difference y x).
Proof.
  intros Ha Hb. unfold calculate_price_difference.
  rewrite (Qle_bool_false_lt _ _ Ha), (Qle_bool_false_lt _ _ Hb). simpl.
  split; [ | split; [ eexists; reflexivity
                    | exact binary64_price_difference_symmetric ] ].
  f_equal. apply round_comp.
  assert (Hd : Qabs (price_b - price_a) == Qabs (price_a - price_b)).
  { rewrite <- (Qabs_opp (price_a - price_b)). apply Qabs_wd. ring. }
  assert (Hm : Np.mean [price_a; price_b] == Np.mean [price_b; price_a]).
  { unfold Np.mean, Np.sum. simpl. apply Qmult_comp; [ ring | reflexivity ]. }
  rewrite Hd, Hm. reflexivity.
Qed.

Lemma price_difference_symmetric_witness :
  calculate_price_difference 100 100.5 = calculate_price_difference 100.5 100
  /\ exists bps, calculate_price_difference 100 100.5 = Ok bps.
Proof.
  destruct (price_difference_symmetric 100 100.5) as (Hsym & Hret & _);
    [ reflexivity | reflexivity | ].
  split; [ exact Hsym | exact Hret ].
Defined.

(** C8, as stated: the result for prices 100 and 100.5 is not within a
    tenth of a basis point of 49.75. *)
Lemma price_difference_scenario_is_not_49_75 :
  ~ exists bps, calculate_price_difference 100 100.5 = Ok bps
                /\ Qabs (bps - 49.75) <= 0.1.
Proof.
  intros [bps [H Hclose]].
  vm_compute in H. injection H as <-.
  vm_compute in Hclose. apply Hclose. reflexivity.
Qed.

(** C8, amended.  [calculate_price_difference(100, 100.5)] returns 49.88:
    |100 - 100.5| / mean(100, 100.5) * 10000 = 49.8753..., rounded to two
    decimals; binary64 arithmetic gives the double nearest to 49.88. *)
Theorem price_difference_scenario :
  calculate_price_difference 100 100.5 = Ok 49.88
  /\ 49.875 < Qabs (100.5 - 100) / Np.mean [100; 100.5] * 10000 < 49.876
  /\ Binary64.calculate_price_difference 100 100.5 = Some 49.88%float.
Proof.
  split; [ | split ].
  - vm_compute. reflexivity.
  - split; vm_compute; reflexivity.
  - vm_compute. reflexivity.
Qed.

End DetectorFacts.

(** ** The object store *)

Section HeapFacts.

Import Heap.

Lemma getitem_setitem_eq (h : heap) (l : loc) (k : string) (v : pyval) :
  is_Some (h !! l) -> getitem (setitem h l k v) l k = Ok v.
Proof.
  intros [d Hd]. unfold getitem, setitem.
  rewrite lookup_alter_eq, Hd. simpl. rewrite lookup_insert_eq. reflexivity.
Qed.

Lemma getitem_setitem_ne (h : heap) (l l' : loc) (k k' : string) (v : pyval) :
  l <> l' \/ k <> k' -> getitem (setitem h l k v) l' k' = getitem h l' k'.
Proof.
  intros Hne. unfold getitem, setitem.
  destruct (decide (l = l')) as [<- | Hl].
  - rewrite lookup_alter_eq. destruct (h !! l) as [d | ]; simpl; [ | reflexivity ].
    rewrite lookup_insert_ne; [ reflexivity | ]. destruct Hne; congruence.
  - rewrite lookup_alter_ne by exact Hl. reflexivity.
Qed.

Lemma getitem_new_dict (h : heap) (d : pydict) (l : loc) (k : string) :
  is_Some (h !! l) -> getitem (new_dict h d).2 l k = getitem h l k.
Proof.
  intros Hl. unfold getitem, new_dict. simpl.
  rewrite lookup_insert_ne; [ reflexivity | ].
  intros E. apply (is_fresh (dom h)). rewrite E. apply elem_of_dom. exact Hl.
Qed.

Lemma getitem_is_Some (h : heap) (l : loc) (k : string) (v : pyval) :
  getitem h l k = Ok v -> is_Some (h !! l).
Proof.
  unfold getitem. destruct (h !! l) as [d | ]; [ eauto | discriminate ].
Qed.

End HeapFacts.

(** ** RiskCalculator: the simulated portfolio shares the caller's
    positions *)

Section AliasFacts.

Import Heap RiskCalculator.
Local Open Scope Q_scope.

Variable DataFrame : Type.
Variable Scenarios : Type.
Variable ReturnStats : Type.
Variable pct_change_dropna : DataFrame -> res DataFrame.
Variable corr_values : DataFrame -> res (list (list Q)).
Variable return_statistics : DataFrame -> Scenarios -> res ReturnStats.

Lemma calculate_portfolio_risk_heap (ps : Heap.loc) (md : DataFrame)
    (sc : Scenarios) (w w' : world) (r : res (portfolio_risk ReturnStats)) :
  calculate_portfolio_risk DataFrame Scenarios ReturnStats pct_change_dropna
    corr_values return_statistics ps md sc w = (r, w') ->
  heap w' = heap w.
Proof.
  unfold calculate_portfolio_risk, calculate_portfolio_risk_body. st_unfold.
  intros H. repeat case_match; simplify_eq; reflexivity.
Qed.

(** The simulation step on a pair the portfolio holds: the write lands
    in the position dict that the caller's [portfolio_state] reaches. *)
Lemma simulate_trade_existing (ps : Heap.loc) (t : trade_params) (w : world)
    (p : string) (lp lpos : Heap.loc) (v : Q) :
  pair t = Some p ->
  getitem (heap w) ps "positions" = Ok (VRef lp) ->
  getitem (heap w) lp p = Ok (VRef lpos) ->
  getitem (heap w) lpos "value" = Ok (VNum v) ->
  exists sim w',
    simulate_trade ps t w = (Ok sim, w')
    /\ self w' = self w
    /\ position_value (heap w') ps p = Ok (v + size t * price t).
Proof.
  intros Hpair Hpos Hp Hv.
  pose proof (getitem_is_Some _ _ _ _ Hpos) as [d Hd].
  pose proof (getitem_is_Some _ _ _ _ Hp) as Slp.
  pose proof (getitem_is_Some _ _ _ _ Hv) as Slpos.
  set (h1 := (new_dict (heap w) d).2).
  set (sim := (new_dict (heap w) d).1).
  assert (Hsim : getitem h1 sim "positions" = Ok (VRef lp)).
  { unfold getitem, h1, sim, new_dict. simpl. rewrite lookup_insert_eq.
    unfold getitem in Hpos. rewrite Hd in Hpos. exact Hpos. }
  assert (Hp1 : getitem h1 lp p = Ok (VRef lpos))
    by (unfold h1; rewrite getitem_new_dict; assumption).
  assert (Hv1 : getitem h1 lpos "value" = Ok (VNum v))
    by (unfold h1; rewrite getitem_new_dict; assumption).
  assert (Hin : contains h1 lp p = Ok true).
  { unfold contains. unfold getitem in Hp1.
    destruct (h1 !! lp) as [dp | ]; [ | discriminate ].
    destruct (dp !! p) as [x | ] eqn:E; [ | discriminate ].
    rewrite bool_decide_eq_true_2 by eauto. reflexivity. }
  exists sim. eexists. split; [ | split ].
  - unfold simulate_trade. st_unfold.
    unfold Heap.copy. rewrite Hd. simpl.
    unfold trade_pair. rewrite Hpair.
    change (<[fresh (dom (heap w)):=d]> (heap w)) with h1.
    change (fresh (dom (heap w))) with sim.
    rewrite Hsim. simpl. rewrite Hin, Hp1. simpl.
    rewrite Hv1. simpl. reflexivity.
  - reflexivity.
  - simpl. unfold position_value.
    assert (S1 : is_Some (h1 !! lpos)) by (eapply getitem_is_Some; exact Hv1).
    rewrite getitem_setitem_ne by (right; discriminate).
    unfold h1 at 1. rewrite getitem_new_dict by eauto. rewrite Hpos. simpl.
    rewrite getitem_setitem_ne.
    + rewrite Hp1. simpl. rewrite getitem_setitem_eq by exact S1. reflexivity.
    + destruct (decide (lpos = lp)) as [-> | Hne]; [ right | left; exact Hne ].
      intros E. rewrite <- E, Hv1 in Hp1. discriminate Hp1.
Qed.

(** Nothing after the simulation step writes to the store. *)
Lemma validate_trade_heap_after_simulation (t : trade_params) (ps : Heap.loc)
    (md : DataFrame) (sc : Scenarios) (w w1 w2 : world)
    (pre : portfolio_risk ReturnStats) (sim : Heap.loc) :
  calculate_portfolio_risk DataFrame Scenarios ReturnStats pct_change_dropna
    corr_values return_statistics ps md sc w = (Ok pre, w1) ->
  simulate_trade ps t w1 = (Ok sim, w2) ->
  heap (validate_trade DataFrame Scenarios ReturnStats pct_change_dropna
          corr_values return_statistics t ps md sc w).2 = heap w2.
Proof.
  intros Hpre Hsim. unfold validate_trade, validate_trade_body.
  unfold St.bind at 1. rewrite Hpre.
  unfold St.bind at 1. rewrite Hsim.
  unfold St.bind at 1.
  destruct (calculate_portfolio_risk _ _ _ _ _ _ sim md sc w2)
    as [[post | e] w3] eqn:Hpost;
    apply calculate_portfolio_risk_heap in Hpost; [ | exact Hpost ].
  unfold correlation_gate. unfold limit, St.bind, St.ret, St.raise.
  repeat case_match; simplify_eq; simpl; exact Hpost.
Qed.

(** When the pre-trade assessment raises, the call ends in the error
    entry before the copy is made: the store is as before. *)
Lemma validate_trade_keeps_store_on_early_error (t : trade_params)
    (ps : Heap.loc) (md : DataFrame) (sc : Scenarios) (w w1 : world)
    (e : exn) :
  calculate_portfolio_risk DataFrame Scenarios ReturnStats pct_change_dropna
    corr_values return_statistics ps md sc w = (Raise e, w1) ->
  validate_trade DataFrame Scenarios ReturnStats pct_change_dropna
    corr_values return_statistics t ps md sc w
  = ((false, ErrorDetail (str_of_exn e)), w1)
  /\ heap w1 = heap w.
Proof.
  intros Hpre. split.
  - unfold validate_trade, validate_trade_body.
    unfold St.bind at 1. rewrite Hpre. reflexivity.
  - apply (calculate_portfolio_risk_heap _ _ _ _ _ _ Hpre).
Qed.

End AliasFacts.


(** ** RiskCalculator *)

Section CalculatorFacts.

Import RiskCalculator.
Local Open Scope Q_scope.

Variable DataFrame : Type.
Variable Scenarios : Type.
Variable ReturnStats : Type.
Variable pct_change_dropna : DataFrame -> res DataFrame.
Variable corr_values : DataFrame -> res (list (list Q)).
Variable return_statistics : DataFrame -> Scenarios -> res ReturnStats.

Lemma bind_ok {S A B : Type} (m : St.M S A) (k : A -> St.M S B)
    (s s' : S) (b : B) :
  St.bind m k s = (Ok b, s') ->
  exists a s1, m s = (Ok a, s1) /\ k a s1 = (Ok b, s').
Proof.
  unfold St.bind. destruct (m s) as [[a | e] s1]; intros H.
  - exists a, s1. split; [ reflexivity | exact H ].
  - discriminate H.
Qed.

Lemma lift_ok {S A : Type} (r : res A) (s s' : S) (a : A) :
  St.lift r s = (Ok a, s') -> r = Ok a /\ s' = s.
Proof. unfold St.lift. intros H. injection H as -> ->. split; reflexivity. Qed.

Lemma limit_ok (k : string) (w w' : world) (q : Q) :
  limit k w = (Ok q, w') -> risk_limits (self w) !! k = Some q /\ w' = w.
Proof.
  unfold limit. destruct (risk_limits (self w) !! k) as [q0 | ]; intros H.
  - injection H as -> ->. split; reflexivity.
  - discriminate H.
Qed.

Lemma correlation_gate_ok (m : list (list Q)) (w w' : world) (b : bool) :
  correlation_gate m w = (Ok b, w') -> m = [] /\ b = true /\ w' = w.
Proof.
  destruct m as [ | row rest ]; simpl; intros H.
  - injection H as <- <-. repeat split.
  - unfold St.bind, St.raise in H.
    destruct (limit "correlation_limit" w) as [[q | e] w1]; discriminate H.
Qed.

Lemma score_cases (r : validation_results) :
  score r == (if vr_position_size r then 0.3 else 0)
             + (if vr_concentration r then 0.3 else 0)
             + (if vr_correlation r then 0.4 else 0).
Proof.
  destruct r as [[ | ] [ | ] [ | ]]; vm_compute; reflexivity.
Qed.

Lemma score_threshold (r : validation_results) :
  Qle_bool RISK_SCORE_THRESHOLD (score r)
  = vr_position_size r && vr_concentration r && vr_correlation r.
Proof.
  destruct r as [[ | ] [ | ] [ | ]]; vm_compute; reflexivity.
Qed.

Lemma calculate_portfolio_risk_limits (ps : Heap.loc) (md : DataFrame)
    (sc : Scenarios) (w w' : world) (r : res (portfolio_risk ReturnStats)) :
  calculate_portfolio_risk DataFrame Scenarios ReturnStats pct_change_dropna
    corr_values return_statistics ps md sc w = (r, w') ->
  risk_limits (self w') = risk_limits (self w).
Proof.
  unfold calculate_portfolio_risk, calculate_portfolio_risk_body. st_unfold.
  intros H. repeat case_match; simplify_eq; reflexivity.
Qed.

Lemma simulate_trade_limits (ps : Heap.loc) (t : trade_params)
    (w w' : world) (r : res Heap.loc) :
  simulate_trade ps t w = (r, w') ->
  risk_limits (self w') = risk_limits (self w).
Proof.
  unfold simulate_trade. st_unfold.
  intros H. repeat case_match; simplify_eq; reflexivity.
Qed.

(** What a successful run of the body of [validate_trade] has done. *)
Lemma validate_trade_body_ok (t : trade_params) (ps : Heap.loc)
    (md : DataFrame) (sc : Scenarios) (w w' : world) (approved : bool)
    (a : analysis ReturnStats) :
  validate_trade_body DataFrame Scenarios ReturnStats pct_change_dropna
    corr_values return_statistics t ps md sc w = (Ok (approved, a), w') ->
  exists max_position_size max_concentration w2 simulated_portfolio,
    risk_limits (self w) !! "max_position_size" = Some max_position_size
    /\ risk_limits (self w) !! "max_concentration" = Some max_concentration
    /\ calculate_portfolio_risk DataFrame Scenarios ReturnStats
         pct_change_dropna corr_values return_statistics simulated_portfolio
         md sc w2 = (Ok (post_trade_risk a), w')
    /\ risk_correlation_matrix (post_trade_risk a) = []
    /\ results a
       = {| vr_position_size := Qle_bool (size t * price t) max_position_size;
            vr_concentration :=
              Qle_bool (concentration (post_trade_risk a)) max_concentration;
            vr_correlation := true |}
    /\ risk_score a = score (results a)
    /\ approved = Qle_bool RISK_SCORE_THRESHOLD (risk_score a).
Proof.
  unfold validate_trade_body. intros Hbody.
  apply bind_ok in Hbody as (pre & w1 & Hpre & Hbody).
  apply bind_ok in Hbody as (sim & w2 & Hsim & Hbody).
  apply bind_ok in Hbody as (post & w3 & Hpost & Hbody).
  apply bind_ok in Hbody as (mps & w4 & Hmps & Hbody).
  apply bind_ok in Hbody as (mc & w5 & Hmc & Hbody).
  apply bind_ok in Hbody as (corr_ok & w6 & Hcorr & Hbody).
  apply limit_ok in Hmps as [Hmps ->].
  apply limit_ok in Hmc as [Hmc ->].
  apply correlation_gate_ok in Hcorr as (Hmatrix & -> & ->).
  pose proof (calculate_portfolio_risk_limits _ _ _ _ _ _ Hpre) as L1.
  pose proof (simulate_trade_limits _ _ _ _ _ Hsim) as L2.
  pose proof (calculate_portfolio_risk_limits _ _ _ _ _ _ Hpost) as L3.
  assert (Hlim : risk_limits (self w3) = risk_limits (self w))
    by congruence.
  rewrite Hlim in Hmps, Hmc.
  unfold St.ret in Hbody. injection Hbody as <- <- <-. simpl.
  exists mps, mc, w2, sim. repeat split; assumption.
Qed.

(** The matrix in a risk dict is the one pandas computed. *)
Lemma calculate_portfolio_risk_matrix (ps : Heap.loc) (md : DataFrame)
    (sc : Scenarios) (w w' : world) (r : portfolio_risk ReturnStats) :
  calculate_portfolio_risk DataFrame Scenarios ReturnStats pct_change_dropna
    corr_values return_statistics ps md sc w = (Ok r, w') ->
  exists returns,
    pct_change_dropna md = Ok returns
    /\ corr_values returns = Ok (risk_correlation_matrix r).
Proof.
  unfold calculate_portfolio_risk, calculate_portfolio_risk_body. st_unfold.
  intros H. repeat case_match; simplify_eq.
  eexists. split; [ reflexivity | ]. simpl. assumption.
Qed.

(** On market data whose correlation matrix has a row, the correlation
    gate compares a list with a number: every call ends in the error
    entry, whatever the trade. *)
Lemma validate_trade_error_on_correlation_rows (t : trade_params)
    (ps : Heap.loc) (md : DataFrame) (sc : Scenarios) (w : world) :
  (forall returns m, corr_values returns = Ok m -> m <> []) ->
  exists msg,
    (validate_trade DataFrame Scenarios ReturnStats pct_change_dropna
       corr_values return_statistics t ps md sc w).1
    = (false, ErrorDetail msg).
Proof.
  intros Hrows. unfold validate_trade.
  destruct (validate_trade_body _ _ _ _ _ _ t ps md sc w)
    as [[[approved a] | e] w'] eqn:Hbody.
  - exfalso.
    apply validate_trade_body_ok in Hbody
      as (mps & mc & w2 & sim & _ & _ & Hpost & Hmatrix & _).
    apply calculate_portfolio_risk_matrix in Hpost as (returns & _ & Hcorr).
    apply (Hrows returns _ Hcorr). exact Hmatrix.
  - eexists. reflexivity.
Qed.

End CalculatorFacts.

(** ** RiskCalculator: value at risk, and what follows for every
    assessment and every validation *)

Section ValueAtRiskFacts.

Import Heap RiskCalculator.
Local Open Scope Q_scope.

Variable DataFrame : Type.
Variable Series : Type.
Variable VarMetrics : Type.
Variable RiskAdjusted : Type.
Variable pct_change_dropna : DataFrame -> res DataFrame.
Variable corr_values : DataFrame -> res (list (list Q)).
Variable dropna : DataFrame -> res DataFrame.
Variable len : DataFrame -> Z.
Variable std : DataFrame -> res Series.
Variable rolling_std_mean : Z -> DataFrame -> res Series.
Variable ne : Series -> Q -> res Series.
Variable truediv : Series -> Series -> res Series.
Variable scale : DataFrame -> Q -> res DataFrame.
Variable var_metrics_of :
  DataFrame -> Series -> ValueAtRisk.adjustment Series -> res VarMetrics.
Variable risk_adjusted_of : DataFrame -> res RiskAdjusted.
Variable lookback_period : Z.

Local Abbreviation value_at_risk :=
  (ValueAtRisk.calculate_value_at_risk DataFrame Series VarMetrics dropna len
     std rolling_std_mean ne truediv var_metrics_of lookback_period).

Local Abbreviation return_statistics :=
  (ValueAtRisk.return_statistics DataFrame Series VarMetrics RiskAdjusted
     dropna len std rolling_std_mean ne truediv scale var_metrics_of
     risk_adjusted_of lookback_period).

Local Abbreviation portfolio_risk_of :=
  (ValueAtRisk.calculate_portfolio_risk DataFrame Series VarMetrics
     RiskAdjusted pct_change_dropna corr_values dropna len std
     rolling_std_mean ne truediv scale var_metrics_of risk_adjusted_of
     lookback_period).

Local Abbreviation validate :=
  (ValueAtRisk.validate_trade DataFrame Series VarMetrics RiskAdjusted
     pct_change_dropna corr_values dropna len std rolling_std_mean ne truediv
     scale var_metrics_of risk_adjusted_of lookback_period).

(** The volatility adjustment asks for the truth value of a Series:
    whatever the returns, the call ends in a [ValueError], that one or an
    earlier one. *)
Lemma calculate_value_at_risk_raises (returns : DataFrame) :
  exists msg,
    value_at_risk returns = Raise (ValueError ("Error calculating VaR: " ++ msg)).
Proof.
  unfold ValueAtRisk.calculate_value_at_risk,
    ValueAtRisk.calculate_value_at_risk_body, ValueAtRisk.truth_value.
  destruct (dropna returns) as [r | e]; cbn [Py.bind];
    [ | eexists; reflexivity ].
  destruct (len r <? lookback_period)%Z; [ eexists; reflexivity | ].
  destruct (std r) as [current_vol | e]; cbn [Py.bind];
    [ | eexists; reflexivity ].
  destruct (rolling_std_mean ValueAtRisk.VOLATILITY_WINDOW r)
    as [historical_vol | e]; cbn [Py.bind]; [ | eexists; reflexivity ].
  destruct (ne historical_vol 0) as [nonzero | e]; cbn [Py.bind];
    eexists; reflexivity.
Qed.

Lemma return_statistics_raises (returns : DataFrame)
    (sc : ValueAtRisk.scenarios) :
  exists e, return_statistics returns sc = Raise e.
Proof.
  unfold ValueAtRisk.return_statistics.
  destruct sc as [ | [scenario params] rest ].
  - cbn [ValueAtRisk.stress_test Py.bind].
    destruct (risk_adjusted_of returns) as [ra | e]; cbn [Py.bind];
      [ | eexists; reflexivity ].
    destruct (std returns) as [v | e]; cbn [Py.bind];
      [ | eexists; reflexivity ].
    destruct (calculate_value_at_risk_raises returns) as [msg ->].
    eexists; reflexivity.
  - cbn [ValueAtRisk.stress_test].
    destruct (scale returns (default 1 (params !! "shock_factor")))
      as [shocked | e]; cbn [Py.bind]; [ | eexists; reflexivity ].
    destruct (calculate_value_at_risk_raises shocked) as [msg ->].
    eexists; reflexivity.
Qed.

Lemma calculate_portfolio_risk_raises (ps : Heap.loc) (md : DataFrame)
    (sc : ValueAtRisk.scenarios) (w : world) :
  exists msg w',
    portfolio_risk_of ps md sc w
    = (Raise (ValueError ("Error calculating portfolio risk: " ++ msg)), w')
    /\ heap w' = heap w.
Proof.
  unfold ValueAtRisk.calculate_portfolio_risk, calculate_portfolio_risk,
    calculate_portfolio_risk_body.
  st_unfold.
  destruct (position_values (heap w) ps) as [vals | e];
    [ | eexists; eexists; split; reflexivity ].
  destruct (pct_change_dropna md) as [returns | e];
    [ | eexists; eexists; split; reflexivity ].
  destruct (corr_values returns) as [corr | e];
    [ | eexists; eexists; split; reflexivity ].
  cbn [heap set_correlation_matrix].
  destruct (max_share vals (Np.sum vals)) as [conc | e];
    [ | eexists; eexists; split; reflexivity ].
  destruct (return_statistics_raises returns sc) as [e ->].
  eexists; eexists; split; reflexivity.
Qed.

(** Every call of [validate_trade] ends in the error entry, at the
    pre-trade assessment: before the copy of line 266 is made. *)
Lemma validate_trade_error (t : trade_params) (ps : Heap.loc)
    (md : DataFrame) (sc : ValueAtRisk.scenarios) (w : world) :
  exists msg w',
    validate t ps md sc w
    = ((false, ErrorDetail ("Error calculating portfolio risk: " ++ msg)), w')
    /\ heap w' = heap w.
Proof.
  destruct (calculate_portfolio_risk_raises ps md sc w)
    as (msg & w' & Hrisk & Hheap).
  exists msg, w'.
  unfold ValueAtRisk.validate_trade.
  unfold ValueAtRisk.calculate_portfolio_risk in Hrisk.
  exact (validate_trade_keeps_store_on_early_error _ _ _ _ _ _ t ps md sc w w'
           _ Hrisk).
Qed.

(** X12.  [calculate_value_at_risk] raises a [ValueError] on every
    returns table: the volatility adjustment tests [historical_vol != 0],
    a Series, for its truth value.  So [calculate_portfolio_risk] raises
    a [ValueError] for every portfolio, market data and scenarios, and
    leaves every dict as it was. *)
Theorem calculate_portfolio_risk_always_raises :
  (forall returns : DataFrame,
     exists msg,
       value_at_risk returns
       = Raise (ValueError ("Error calculating VaR: " ++ msg)))
  /\ (forall (ps : Heap.loc) (md : DataFrame) (sc : ValueAtRisk.scenarios)
        (w : world),
        exists msg w',
          portfolio_risk_of ps md sc w
          = (Raise (ValueError ("Error calculating portfolio risk: " ++ msg)),
             w')
          /\ heap w' = heap w).
Proof.
  split.
  - apply calculate_value_at_risk_raises.
  - apply calculate_portfolio_risk_raises.
Qed.

(** C1.  [validate_trade] leaves the caller's [portfolio_state] as it
    was: for every trade, portfolio, market data and scenarios no dict
    object is written, so every position reads the same value after the
    call as before it.  The call ends at the pre-trade assessment with
    the error entry; the copy of line 266 and the update after it are
    not reached. *)
Theorem validate_trade_leaves_portfolio_state_unchanged (t : trade_params)
    (ps : Heap.loc) (md : DataFrame) (sc : ValueAtRisk.scenarios)
    (w : world) :
  let out := validate t ps md sc w in
  heap out.2 = heap w
  /\ (forall p : string,
        position_value (heap out.2) ps p = position_value (heap w) ps p)
  /\ position_values (heap out.2) ps = position_values (heap w) ps
  /\ (exists msg,
        out.1
        = (false, ErrorDetail ("Error calculating portfolio risk: " ++ msg))).
Proof.
  cbv zeta.
  destruct (validate_trade_error t ps md sc w) as (msg & w' & -> & Hheap).
  cbn [fst snd]. rewrite Hheap. repeat split. exists msg. reflexivity.
Qed.


End ValueAtRiskFacts.

Section ValueAtRiskExamples.

Import Heap RiskCalculator SpecValidateTrade.
Local Open Scope Q_scope.

(** A position of 200000 and a trade of 1000 at 100 on the same pair:
    the position reads 200000 after the call. *)
Lemma validate_trade_leaves_portfolio_state_unchanged_witness :
  let w := example_world [("SOL/USDC", 200000)] in
  let t := {| pair := Some "SOL/USDC"; size := 1000; price := 100 |} in
  position_value (heap (ValueAtRisk.example_validate_trade t w).2) 1%positive
    "SOL/USDC"
  = Ok 200000.
Proof.
  cbv zeta. unfold ValueAtRisk.example_validate_trade.
  rewrite (proj1 (proj2 (validate_trade_leaves_portfolio_state_unchanged
                           nat unit unit unit _ _ _ _ _ _ _ _ _ _ _ 30
                           {| pair := Some "SOL/USDC"; size := 1000;
                              price := 100 |}
                           1%positive 120%nat ValueAtRisk.normal_and_stress
                           (example_world [("SOL/USDC", 200000)])))).
  vm_compute. reflexivity.
Defined.


End ValueAtRiskExamples.

(** ** RiskManager *)

Section ManagerFacts.

Import RiskManager.

Variable DataFrame : Type.
Variable Scenarios : Type.
Variable ReturnStats : Type.
Variable pct_change_dropna : DataFrame -> res DataFrame.
Variable corr_values : DataFrame -> res (list (list Q)).
Variable return_statistics : DataFrame -> Scenarios -> res ReturnStats.
Variable normal_and_stress : Scenarios.
Variable TimingRisk : Type.
Variable MarketImpact : Type.
Variable Event : Type.
Variable Diagnostics : Type.
Variable repr_event : Event -> string.
Variable assess_timing_risk :
  RiskCalculator.trade_params -> St.M (world DataFrame) TimingRisk.
Variable calculate_market_impact :
  RiskCalculator.trade_params -> St.M (world DataFrame) MarketImpact.
Variable cancel_all_orders : world DataFrame -> outcome (world DataFrame) unit.
Variable secure_portfolio_state :
  world DataFrame -> outcome (world DataFrame) unit.
Variable send_emergency_notifications :
  Event -> world DataFrame -> outcome (world DataFrame) unit.
Variable run_system_diagnostics :
  world DataFrame -> outcome (world DataFrame) Diagnostics.

Local Abbreviation validate_trade :=
  (RiskManager.validate_trade DataFrame Scenarios ReturnStats pct_change_dropna
     corr_values return_statistics normal_and_stress TimingRisk MarketImpact
     assess_timing_risk calculate_market_impact).

Local Abbreviation emergency_shutdown :=
  (RiskManager.emergency_shutdown DataFrame Event Diagnostics repr_event
     cancel_all_orders secure_portfolio_state send_emergency_notifications
     run_system_diagnostics).

(** C3.  With the emergency stop set, [validate_trade] rejects every
    trade with an ['error'] entry that mentions the emergency stop; the
    answer does not depend on the calculator or on any helper, and the
    manager, its calculator, the dict objects and the log are as
    before. *)
Theorem validate_trade_emergency_stop (t : RiskCalculator.trade_params)
    (w : world DataFrame) :
  emergency_stop (this w) = true ->
  exists msg,
    validate_trade t w = ((false, ErrorDetail msg), w)
    /\ mentions "Emergency stop" msg = true.
Proof.
  intros Hstop. unfold RiskManager.validate_trade.
  rewrite Hstop.
  exists "Trading suspended - Emergency stop active".
  split; reflexivity.
Qed.

Hypothesis cancel_keeps : keeps_emergency_stop cancel_all_orders.
Hypothesis secure_keeps : keeps_emergency_stop secure_portfolio_state.

Lemma emergency_shutdown_sets_stop (ev : Event) (w : world DataFrame) :
  raises (emergency_shutdown ev w) = false
  /\ emergency_stop (this (world_of (emergency_shutdown ev w))) = true.
Proof.
  unfold RiskManager.emergency_shutdown, otry, obind.
  set (w2 := logger _ _ _ (set_emergency_stop _ true w)).
  assert (H2 : emergency_stop (this w2) = true) by reflexivity.
  pose proof (cancel_keeps w2) as Hc.
  destruct (cancel_all_orders w2) as [[] w3 | e w3 | w3]; simpl in Hc;
    [ | split; [ reflexivity | simpl; congruence ] .. ].
  pose proof (secure_keeps w3) as Hs.
  destruct (secure_portfolio_state w3) as [[] w4 | e w4 | w4]; simpl in Hs;
    split; try reflexivity; simpl; congruence.
Qed.

(** C4.  [emergency_shutdown] never raises and leaves [emergency_stop]
    set, whatever the trigger; so does a second call made after the
    first has returned; and a call that starts with the flag set and
    returns false leaves it set. *)
Theorem emergency_shutdown_idempotent_fail_safe (ev1 ev2 : Event)
    (w : world DataFrame) :
  let first := emergency_shutdown ev1 w in
  raises first = false
  /\ emergency_stop (this (world_of first)) = true
  /\ (forall b w1, first = Returned b w1 ->
        let second := emergency_shutdown ev2 w1 in
        raises second = false
        /\ emergency_stop (this (world_of second)) = true)
  /\ (emergency_stop (this w) = true ->
      forall w1, first = Returned false w1 ->
        emergency_stop (this w1) = true).
Proof.
  cbv zeta.
  destruct (emergency_shutdown_sets_stop ev1 w) as [Hr Hs].
  split; [ exact Hr | split; [ exact Hs | split ] ].
  - intros b w1 _. apply emergency_shutdown_sets_stop.
  - intros _ w1 Hret. rewrite Hret in Hs. exact Hs.
Qed.

End ManagerFacts.

Section ManagerExamples.

Import RiskManager.

Lemma validate_trade_emergency_stop_witness :
  exists msg,
    RiskManager.validate_trade unit unit unit (fun d => Ok d) (fun _ => Ok [])
      (fun _ _ => Ok tt) tt unit unit
      (fun _ => St.raise (AttributeError "_assess_timing_risk"))
      (fun _ => St.raise (AttributeError "_calculate_market_impact"))
      {| RiskCalculator.pair := Some "SOL/USDC";
         RiskCalculator.size := 1000%Q;
         RiskCalculator.price := 100%Q |}
      (example_manager true)
    = ((false, ErrorDetail msg), example_manager true)
    /\ mentions "Emergency stop" msg = true.
Proof.
  apply (validate_trade_emergency_stop unit unit unit (fun d => Ok d)
           (fun _ => Ok []) (fun _ _ => Ok tt) tt unit unit).
  reflexivity.
Defined.

Lemma emergency_shutdown_idempotent_fail_safe_witness :
  let shutdown :=
    RiskManager.emergency_shutdown unit string unit (fun ev => ev)
      (undefined_method "_cancel_all_orders")
      (undefined_method "_secure_portfolio_state")
      (fun _ => undefined_method "_send_emergency_notifications")
      (undefined_method "_run_system_diagnostics") in
  raises (shutdown "market_crash" (example_manager false)) = false
  /\ emergency_stop
       (this (world_of (shutdown "market_crash" (example_manager false))))
     = true.
Proof.
  cbv zeta.
  pose proof (emergency_shutdown_idempotent_fail_safe unit string unit
                (fun ev => ev)
                (undefined_method "_cancel_all_orders")
                (undefined_method "_secure_portfolio_state")
                (fun _ => undefined_method "_send_emergency_notifications")
                (undefined_method "_run_system_diagnostics")
                (fun w => eq_refl) (fun w => eq_refl)
                "market_crash" "risk_breach" (example_manager false)) as T.
  cbv zeta in T. destruct T as (Hr & Hs & _).
  split; [ exact Hr | exact Hs ].
Defined.

End ManagerExamples.

(** ** ArbitrageExecutor *)

Section ExecutorFacts.

Import ArbitrageExecutor.
Local Open Scope Q_scope.

(** With matching market data present, a trade size of zero gives 0.0,
    not +infinity. *)
Lemma calculate_slippage_zero_size_is_not_inf :
  let market_data :=
    [ {| dex := "jupiter"; pair := "SOL/USDC"; price := 100;
         book := {| bids := [(99, 1000); (98, 2000)];
                    asks := [(101, 1000); (102, 2000)] |} |} ] in
  let execution_params :=
    {| opp_pair := "SOL/USDC"; dex_buy := "jupiter"; dex_sell := "pump_fun";
       price_difference := 25; opp_size := Some 0 |} in
  calculate_slippage market_data execution_params = Fin 0
  /\ calculate_slippage market_data execution_params <> PInf.
Proof.
  cbv zeta. split.
  - vm_compute. reflexivity.
  - vm_compute. discriminate.
Qed.

(** The execution-price estimate on the two-level book of the tests
    for a trade of 500, which the best level alone fills: each level
    counts with the full trade size, the estimate is 101 + 102 = 203 and
    the result 10099 basis points; a volume-weighted average would give
    101 and no slippage. *)
Lemma calculate_slippage_within_best_level :
  exists bps,
    calculate_slippage
      [ {| dex := "jupiter"; pair := "SOL/USDC"; price := 100;
           book := {| bids := [(99, 1000); (98, 2000)];
                      asks := [(101, 1000); (102, 2000)] |} |} ]
      {| opp_pair := "SOL/USDC"; dex_buy := "jupiter"; dex_sell := "pump_fun";
         price_difference := 25; opp_size := Some 500 |}
    = Fin bps
    /\ bps == (203 - 101) / 101 * 10000.
Proof.
  eexists. split.
  - vm_compute. reflexivity.
  - vm_compute. reflexivity.
Qed.

Variable Metrics : Type.
Variable show_metrics : Metrics -> string.
Variable validate_execution : opportunity -> bool * Metrics.
Variable calculate_execution_path : opportunity -> list step.
Variable base_validate_trade : string -> step -> bool * Metrics.
Variable submit : nat -> list (step * Metrics) -> attempt_outcome.
Variable elapsed_ms : Q.

Lemma update_execution_stats_once (st : execution_stats)
    (r : execution_result) (ms : Q) :
  let st' := update_execution_stats st r ms in
  total_executions st' = (total_executions st + 1)%Z
  /\ (success r = true ->
      successful_executions st' = (successful_executions st + 1)%Z
      /\ failed_executions st' = failed_executions st)
  /\ (success r = false ->
      successful_executions st' = successful_executions st
      /\ failed_executions st' = (failed_executions st + 1)%Z).
Proof.
  cbv zeta. unfold update_execution_stats. simpl.
  split; [ reflexivity | ].
  split; intros ->; split; reflexivity.
Qed.

(** C5, amended.  A call that reaches the submission stage (validation
    passed, a non-empty path, every leg accepted by the base strategy)
    updates the statistics exactly once, whether the retries end in
    success or are exhausted: [total_executions] grows by one and
    exactly one of [successful_executions] and [failed_executions]
    grows by one, matching the reported outcome.  A call that ends
    before that stage leaves the statistics as they were. *)
Theorem execute_opportunity_statistics (opp : opportunity)
    (st : execution_stats) :
  let out := execute_opportunity Metrics show_metrics validate_execution
               calculate_execution_path base_validate_trade submit elapsed_ms
               opp st in
  let reached := reaches_submission Metrics validate_execution
                   calculate_execution_path base_validate_trade opp in
  (reached = true ->
     total_executions out.2 = (total_executions st + 1)%Z
     /\ ((success out.1 = true
          /\ successful_executions out.2 = (successful_executions st + 1)%Z
          /\ failed_executions out.2 = failed_executions st)
         \/ (success out.1 = false
             /\ successful_executions out.2 = successful_executions st
             /\ failed_executions out.2 = (failed_executions st + 1)%Z)))
  /\ (reached = false -> success out.1 = false /\ out.2 = st).
Proof.
  cbv zeta. unfold execute_opportunity, reaches_submission.
  destruct (validate_execution opp) as [valid metrics]. cbn [fst snd].
  destruct valid; cbn [negb andb]; [ | split; [ discriminate | auto ] ].
  destruct (calculate_execution_path opp) as [ | s path ];
    [ split; [ discriminate | auto ] | ].
  destruct (build_bundle _ _ _ _ _) as [ rejected | bundle ];
    [ split; [ discriminate | auto ] | ].
  split; [ intros _ | discriminate ].
  set (r := retry _ _ _ _ _).
  destruct (update_execution_stats_once st r elapsed_ms) as (Ht & Hs & Hf).
  split; [ exact Ht | ].
  destruct (success r) eqn:E; [ left | right ]; auto.
Qed.

End ExecutorFacts.

Section ExecutorExamples.

Import ArbitrageExecutor.
Local Open Scope Q_scope.

(** C5, as stated: a call that ends in a validation failure does not
    touch the statistics; [total_executions] stays 0. *)
Lemma execute_opportunity_validation_failure_counts_nothing :
  let opp := {| opp_pair := "SOL/USDC"; dex_buy := "jupiter";
                dex_sell := "pump_fun"; price_difference := 25;
                opp_size := None |} in
  let out := execute_opportunity unit (fun _ => "{}")
               (fun _ => (false, tt)) (fun _ => []) (fun _ _ => (true, tt))
               (fun _ _ => Completed []) 1 opp initial_stats in
  success out.1 = false
  /\ total_executions out.2 = 0%Z
  /\ total_executions out.2 <> (total_executions initial_stats + 1)%Z
  /\ failed_executions out.2 = failed_executions initial_stats.
Proof.
  cbv zeta. vm_compute.
  split; [ reflexivity | split; [ reflexivity | split ] ];
    [ discriminate | reflexivity ].
Qed.

Lemma execute_opportunity_statistics_witness :
  let opp := {| opp_pair := "SOL/USDC"; dex_buy := "jupiter";
                dex_sell := "pump_fun"; price_difference := 25;
                opp_size := None |} in
  let path := [ {| step_dex := "jupiter"; step_size := 1000; step_price := 101 |};
                {| step_dex := "pump_fun"; step_size := 1000; step_price := 102 |} ] in
  let out := execute_opportunity unit (fun _ => "{}")
               (fun _ => (true, tt)) (fun _ => path) (fun _ _ => (true, tt))
               (fun _ _ => TimedOut) 1 opp initial_stats in
  total_executions out.2 = 1%Z.
Proof.
  cbv zeta.
  apply (execute_opportunity_statistics unit (fun _ => "{}")
           (fun _ => (true, tt)) _ (fun _ _ => (true, tt))
           (fun _ _ => TimedOut) 1 _ initial_stats).
  reflexivity.
Defined.

End ExecutorExamples.

(** ** GridCalculator *)

Section GridCalculatorFacts.

Import GridCalculator.
Local Open Scope Q_scope.

Lemma update_volatility_history_cons (x : Q) (h : list Q) (c : Q) :
  update_volatility_history (x :: h) c = Ok (h ++ [c])%list.
Proof.
  unfold update_volatility_history, roll_left, set_last.
  destruct (h ++ [x])%list as [ | y l ] eqn:E.
  - destruct h; discriminate E.
  - rewrite <- E, removelast_last. reflexivity.
Qed.

Lemma sum_from_nonneg (l : list Q) (acc : Q) :
  Forall (Qle 0) l -> 0 <= acc -> 0 <= fold_left Qplus l acc.
Proof.
  intros Hl. revert acc.
  induction Hl as [ | x l Hx _ IH ]; intros acc Hacc; simpl.
  - exact Hacc.
  - apply IH. lra.
Qed.

Lemma sum_snoc (l : list Q) (c : Q) : Np.sum (l ++ [c]) = Np.sum l + c.
Proof. unfold Np.sum. rewrite fold_left_app. reflexivity. Qed.

End GridCalculatorFacts.

(** ** GridStrategyManager *)

Section GridManagerFacts.

Import GridStrategyManager.
Local Open Scope Q_scope.

Lemma range_length (a b : Z) : length (Py.range a b) = Z.to_nat (b - a).
Proof. unfold Py.range. rewrite length_map, length_seq. reflexivity. Qed.

(** [range(-n // 2, n // 2 + 1)] has [n + 1] elements. *)
Lemma level_index_count (n : Z) :
  (0 <= n)%Z ->
  length (Py.range ((- n) / 2) (n / 2 + 1)) = Z.to_nat (n + 1).
Proof.
  intros Hn. rewrite range_length. f_equal.
  pose proof (Z.div_mod n 2) as E1. pose proof (Z.mod_pos_bound n 2) as B1.
  pose proof (Z.div_mod (- n) 2) as E2.
  pose proof (Z.mod_pos_bound (- n) 2) as B2.
  lia.
Qed.

(** X14.  [_initialize_grid_levels] lays one level more than
    [grid_levels]: for [grid_levels = n >= 0] the indices run over
    [range(-n // 2, n // 2 + 1)], which has [n + 1] elements. *)
Theorem initialize_grid_levels_count (trading_pair : string)
    (grid_params : GridCalculator.grid_params) (current_price : Q) :
  (0 <= GridCalculator.grid_levels grid_params)%Z ->
  length (initialize_grid_levels trading_pair grid_params current_price)
  = Z.to_nat (GridCalculator.grid_levels grid_params + 1).
Proof.
  intros Hn. unfold initialize_grid_levels.
  rewrite length_map. apply level_index_count. exact Hn.
Qed.

End GridManagerFacts.

Section GridManagerExamples.

Import GridStrategyManager.
Local Open Scope Q_scope.

(** Parameters with [grid_levels = 10] give eleven levels. *)
Lemma initialize_grid_levels_count_witness :
  length (initialize_grid_levels "SOL/USDC" (example_params 10 2) 105)
  = 11%nat.
Proof.
  apply (initialize_grid_levels_count "SOL/USDC" (example_params 10 2) 105).
  discriminate.
Defined.

End GridManagerExamples.

(** * Further properties *)

(** ** ArbitrageExecutor: statistics and retries *)

Section ExecutorStatistics.

Import ArbitrageExecutor ExecutionLog.
Local Open Scope Q_scope.

Variable Metrics : Type.
Variable show_metrics : Metrics -> string.
Variable validate_execution : opportunity -> bool * Metrics.
Variable calculate_execution_path : opportunity -> list step.
Variable base_validate_trade : string -> step -> bool * Metrics.
Variable submit : nat -> list (step * Metrics) -> attempt_outcome.
Variable elapsed_ms : Q.

Local Abbreviation execute :=
  (execute_opportunity Metrics show_metrics validate_execution
     calculate_execution_path base_validate_trade submit elapsed_ms).

(** X1.  [execute_opportunity] keeps the counters consistent: when
    [total_executions] is the sum of the successful and the failed
    executions before a call, it is so after it, and no counter ever
    decreases. *)
Theorem execute_opportunity_keeps_counters (opp : opportunity)
    (st : execution_stats) :
  total_executions st
  = (successful_executions st + failed_executions st)%Z ->
  let st' := (execute opp st).2 in
  total_executions st'
  = (successful_executions st' + failed_executions st')%Z
  /\ (total_executions st <= total_executions st' <= total_executions st + 1)%Z
  /\ (successful_executions st <= successful_executions st')%Z
  /\ (failed_executions st <= failed_executions st')%Z.
Proof.
  intros Hinv. cbv zeta. unfold execute_opportunity.
  destruct (validate_execution opp) as [valid metrics]. cbn [fst snd].
  destruct valid; cbn [negb]; [ | cbn [snd]; lia ].
  destruct (calculate_execution_path opp) as [ | s path ]; [ cbn [snd]; lia | ].
  destruct (build_bundle _ _ _ _ _) as [ rejected | bundle ];
    [ cbn [snd]; lia | ].
  cbn [snd]. unfold update_execution_stats. cbn.
  destruct (success _); lia.
Qed.

Lemma inject_Z_nonzero (z : Z) : z <> 0%Z -> ~ inject_Z z == 0.
Proof. intros Hz E. unfold Qeq in E. simpl in E. lia. Qed.

Lemma sum_from_acc (l : list Q) (acc : Q) :
  fold_left Qplus l acc == acc + Np.sum l.
Proof.
  unfold Np.sum. revert acc.
  induction l as [ | x l IH ]; intros acc; simpl.
  - ring.
  - rewrite (IH (acc + x)), (IH (0 + x)). ring.
Qed.

Lemma sum_cons (x : Q) (l : list Q) : Np.sum (x :: l) == x + Np.sum l.
Proof. unfold Np.sum at 1. simpl. rewrite sum_from_acc. ring. Qed.

Lemma record_all_invariant (calls : list (execution_result * Q)) :
  forall st,
    (0 <= total_executions st)%Z ->
    total_executions (record_all st calls)
    = (total_executions st + Z.of_nat (length calls))%Z
    /\ average_execution_time (record_all st calls)
       * inject_Z (total_executions (record_all st calls))
       == average_execution_time st * inject_Z (total_executions st)
          + Np.sum (map snd calls).
Proof.
  induction calls as [ | [r ms] calls IH ]; intros st Hpos.
  - simpl. split; [ lia | ]. unfold Np.sum. simpl. ring.
  - change (record_all st ((r, ms) :: calls))
      with (record_all (update_execution_stats st r ms) calls).
    destruct (IH (update_execution_stats st r ms)) as [Ht Ha].
    { simpl. lia. }
    split.
    + rewrite Ht. simpl total_executions. simpl length. lia.
    + rewrite Ha. simpl map. rewrite sum_cons.
      simpl average_execution_time. simpl total_executions.
      set (n := total_executions st) in *.
      assert (Hn : ~ inject_Z (n + 1) == 0).
      { apply inject_Z_nonzero. lia. }
      replace (n + 1 - 1)%Z with n by lia.
      field. exact Hn.
Qed.

(** X2.  After any sequence of calls of [_update_execution_stats] from
    the initial statistics, [total_executions] is the number of calls
    and [average_execution_time] is the mean of the execution times
    recorded. *)
Theorem average_execution_time_is_mean (calls : list (execution_result * Q)) :
  let st := record_all initial_stats calls in
  let n := Z.of_nat (length calls) in
  total_executions st = n
  /\ average_execution_time st * inject_Z n == Np.sum (map snd calls)
  /\ (calls <> [] -> average_execution_time st == Np.mean (map snd calls)).
Proof.
  cbv zeta.
  destruct (record_all_invariant calls initial_stats) as [Ht Ha];
    [ simpl; lia | ].
  simpl in Ht. rewrite Ht in Ha.
  split; [ exact Ht | ].
  assert (Hs : average_execution_time (record_all initial_stats calls)
               * inject_Z (Z.of_nat (length calls))
               == Np.sum (map snd calls)).
  { rewrite Ha. simpl. ring. }
  split; [ exact Hs | ].
  intros Hne. unfold Np.mean. rewrite length_map, <- Hs.
  field. apply inject_Z_nonzero.
  destruct calls; [ congruence | simpl; lia ].
Qed.

Lemma retry_result (attempts : list nat) (bundle : list (step * Metrics)) :
  forall r,
    success r = false -> trades r = [] ->
    profit_usdc r = 0 -> mev_savings r = 0 ->
    let r' := retry Metrics submit attempts bundle r in
    (if success r'
     then forallb trade_success (trades r') = true
          /\ profit_usdc r' = Np.sum (map realized_profit (trades r'))
          /\ mev_savings r' = Np.sum (map trade_mev_savings (trades r'))
          /\ (length (errors r') < length (errors r) + length attempts)%nat
     else trades r' = [] /\ profit_usdc r' = 0 /\ mev_savings r' = 0
          /\ (length (errors r') <= length (errors r) + length attempts)%nat).
Proof.
  induction attempts as [ | a attempts IH ]; intros r Hs Ht Hp Hm; cbv zeta.
  - simpl. rewrite Hs. repeat split; try assumption. lia.
  - simpl retry. destruct (submit a bundle) as [ results | | e ].
    + destruct (forallb trade_success results) eqn:Hall.
      * simpl. repeat split; try assumption. lia.
      * specialize (IH r Hs Ht Hp Hm). cbv zeta in IH.
        destruct (success (retry Metrics submit attempts bundle r));
          simpl length; intuition lia.
    + match goal with |- context [retry _ _ _ _ ?r1] =>
        specialize (IH r1 Hs Ht Hp Hm); cbv zeta in IH;
        destruct (success (retry Metrics submit attempts bundle r1))
      end; simpl length in *; rewrite ?length_app in *; simpl length in *;
        intuition lia.
    + match goal with |- context [retry _ _ _ _ ?r1] =>
        specialize (IH r1 Hs Ht Hp Hm); cbv zeta in IH;
        destruct (success (retry Metrics submit attempts bundle r1))
      end; simpl length in *; rewrite ?length_app in *; simpl length in *;
        intuition lia.
Qed.

(** X3.  The dict [execute_opportunity] returns is consistent.  When it
    reports success the call reached the submission stage, every leg in
    [trades] succeeded, [profit_usdc] and [mev_savings] are the sums
    over those legs, and at most two attempts had failed before.  When
    it reports failure it carries no trade, no profit and no saving,
    and at most three error messages. *)
Theorem execute_opportunity_result_consistent (opp : opportunity)
    (st : execution_stats) :
  let r := (execute opp st).1 in
  if success r
  then reaches_submission Metrics validate_execution calculate_execution_path
         base_validate_trade opp = true
       /\ forallb trade_success (trades r) = true
       /\ profit_usdc r = Np.sum (map realized_profit (trades r))
       /\ mev_savings r = Np.sum (map trade_mev_savings (trades r))
       /\ (length (errors r) <= 2)%nat
  else trades r = [] /\ profit_usdc r = 0 /\ mev_savings r = 0
       /\ (length (errors r) <= 3)%nat.
Proof.
  cbv zeta. unfold execute_opportunity, reaches_submission.
  destruct (validate_execution opp) as [valid metrics]. cbn [fst snd].
  destruct valid; cbn [negb andb];
    [ | simpl; repeat split; lia ].
  destruct (calculate_execution_path opp) as [ | s path ];
    [ simpl; repeat split; lia | ].
  destruct (build_bundle _ _ _ _ _) as [ rejected | bundle ];
    [ simpl; repeat split; lia | ].
  cbn [fst].
  match goal with |- context [retry _ _ ?a ?b ?r0] =>
    pose proof (retry_result a b r0 eq_refl eq_refl eq_refl eq_refl) as H;
    cbv zeta in H;
    destruct (success (retry Metrics submit a b r0))
  end.
  - destruct H as (H1 & H2 & H3 & H4). repeat split; try assumption.
    change (length (seq 0 MAX_EXECUTION_ATTEMPTS)) with 3%nat in H4.
    cbn [errors length] in H4. lia.
  - destruct H as (H1 & H2 & H3 & H4). repeat split; assumption.
Qed.

End ExecutorStatistics.

(** ** Order-book depth *)

Section DepthFacts.

Local Open Scope Q_scope.

Lemma Qlt_bool_true (x y : Q) : PyFloat.Qlt_bool x y = true <-> x < y.
Proof.
  unfold PyFloat.Qlt_bool. split.
  - intros H. apply negb_true_iff in H.
    destruct (Qlt_le_dec x y) as [Hlt | Hle]; [ exact Hlt | ].
    apply Qle_bool_iff in Hle. congruence.
  - intros H. apply negb_true_iff. apply Qle_bool_false_lt. exact H.
Qed.

Lemma Qlt_bool_false (x y : Q) : PyFloat.Qlt_bool x y = false <-> y <= x.
Proof.
  unfold PyFloat.Qlt_bool. rewrite negb_false_iff. apply Qle_bool_iff.
Qed.

Lemma cumsum_from_bounds (l : list Q) :
  forall acc,
    Forall (Qle 0) l ->
    Forall (fun c => acc <= c /\ c <= acc + Np.sum l) (Np.cumsum_from acc l).
Proof.
  induction l as [ | x l IH ]; intros acc Hpos; simpl; [ constructor | ].
  inversion Hpos as [ | ? ? Hx Hl ]; subst.
  assert (Hs : 0 <= Np.sum l).
  { unfold Np.sum. apply sum_from_nonneg; [ exact Hl | apply Qle_refl ]. }
  constructor.
  - split.
    + rewrite <- (Qplus_0_r acc) at 1. apply Qplus_le_r. exact Hx.
    + rewrite sum_cons, Qplus_assoc.
      rewrite <- (Qplus_0_r (acc + x)) at 1. apply Qplus_le_r. exact Hs.
  - specialize (IH (acc + x) Hl).
    eapply List.Forall_impl; [ | exact IH ].
    intros c [H1 H2]. cbv beta. split.
    + apply Qle_trans with (acc + x); [ | exact H1 ].
      rewrite <- (Qplus_0_r acc) at 1. apply Qplus_le_r. exact Hx.
    + rewrite sum_cons, Qplus_assoc. exact H2.
Qed.

(** With sizes that are not negative, no cumulative volume exceeds the
    total. *)
Lemma cumsum_le_total (l : list Q) (c : Q) :
  Forall (Qle 0) l -> In c (Np.cumsum l) -> c <= Np.sum l.
Proof.
  intros Hpos Hin. unfold Np.cumsum in Hin.
  pose proof (cumsum_from_bounds l 0 Hpos) as H.
  rewrite List.Forall_forall in H. destruct (H c Hin) as [_ Hc].
  rewrite Qplus_0_l in Hc. exact Hc.
Qed.

Lemma reaches_spec (cum : list Q) (v : Q) :
  Detector.reaches cum v = true <-> exists c, In c cum /\ v <= c.
Proof.
  unfold Detector.reaches. rewrite existsb_exists.
  split; intros [c [Hin Hc]]; exists c; (split; [ exact Hin | ]);
    apply Qle_bool_iff; exact Hc.
Qed.

Lemma amax_in (a : list Q) (m : Q) : Executor.amax a = Ok m -> In m a.
Proof.
  destruct a as [ | x r ]; simpl; [ discriminate | ].
  intros H. injection H as <-. revert x.
  induction r as [ | y r IH ]; intros x; simpl; [ left; reflexivity | ].
  destruct (IH (Qmax x y)) as [E | Hin].
  - unfold Qmax in E at 1. unfold GenericMinMax.gmax in E at 1.
    destruct (Qcompare x y); [ left | right; left | left ]; exact E.
  - right. right. exact Hin.
Qed.

Lemma zip_with_min_bounded (a b : list Q) (s : Q) :
  In s (zip_with Qmin a b) ->
  (exists x, In x a /\ s <= x) /\ (exists y, In y b /\ s <= y).
Proof.
  revert b. induction a as [ | x a IH ]; intros b Hin; simpl in Hin;
    [ contradiction | ].
  destruct b as [ | y b ]; [ contradiction | ].
  destruct Hin as [<- | Hin].
  - split; [ exists x | exists y ]; (split; [ left; reflexivity | ]).
    + apply Q.le_min_l.
    + apply Q.le_min_r.
  - destruct (IH b Hin) as [[x' [Hx Hsx]] [y' [Hy Hsy]]].
    split; [ exists x' | exists y' ]; (split; [ right; assumption | assumption ]).
Qed.

Lemma minimum_bounded (a b m : list Q) (s : Q) :
  Executor.minimum a b = Ok m -> In s m ->
  (exists x, In x a /\ s <= x) /\ (exists y, In y b /\ s <= y).
Proof.
  assert (Hleft : forall x, In s (map (Qmin x) b) ->
            (exists x', In x' [x] /\ s <= x') /\ (exists y, In y b /\ s <= y)).
  { intros x Hin. apply in_map_iff in Hin. destruct Hin as [y [<- Hy]].
    split; [ exists x | exists y ]; (split; [ simpl; auto | ]).
    - apply Q.le_min_l.
    - apply Q.le_min_r. }
  assert (Hright : forall y, In s (map (fun x => Qmin x y) a) ->
            (exists x, In x a /\ s <= x) /\ (exists y', In y' [y] /\ s <= y')).
  { intros y Hin. apply in_map_iff in Hin. destruct Hin as [x [<- Hx]].
    split; [ exists x | exists y ]; (split; [ simpl; auto | ]).
    - apply Q.le_min_l.
    - apply Q.le_min_r. }
  assert (Hzip : (if (length a =? length b)%nat then Ok (zip_with Qmin a b)
                  else Raise (ValueError "operands could not be broadcast together"))
                 = Ok m -> In s m ->
                 (exists x, In x a /\ s <= x) /\ (exists y, In y b /\ s <= y)).
  { destruct (length a =? length b)%nat; [ | discriminate ].
    intros E Hin. injection E as <-. apply zip_with_min_bounded. exact Hin. }
  unfold Executor.minimum.
  destruct a as [ | x [ | x2 a ] ].
  - destruct b as [ | y [ | y2 b ] ].
    + exact Hzip.
    + intros E Hin. injection E as <-. apply Hright. exact Hin.
    + exact Hzip.
  - intros E Hin. injection E as <-. apply Hleft. exact Hin.
  - destruct b as [ | y [ | y2 b ] ].
    + exact Hzip.
    + intros E Hin. injection E as <-. apply Hright. exact Hin.
    + exact Hzip.
Qed.

End DepthFacts.

(** ** ArbitrageDetector: liquidity and opportunities *)

Section DetectorLiquidity.

Import ArbitrageExecutor Detector.
Local Open Scope Q_scope.

(** X4.  [validate_liquidity] is antitone in the volume asked for: a
    book that is liquid for a volume is liquid for every smaller one. *)
Theorem validate_liquidity_antitone (book : orderbook) (v v' : Q) :
  v' <= v ->
  validate_liquidity book v = true ->
  validate_liquidity book v' = true.
Proof.
  intros Hle. unfold validate_liquidity.
  destruct (bids book) as [ | bid0 bid_rest ]; [ discriminate | ].
  destruct (asks book) as [ | ask0 ask_rest ]; [ discriminate | ].
  cbv zeta.
  assert (Hmono : forall cum, reaches cum v = true -> reaches cum v' = true).
  { intros cum H. apply reaches_spec in H. apply reaches_spec.
    destruct H as [c [Hin Hc]]. exists c. split; [ exact Hin | ].
    apply Qle_trans with v; assumption. }
  destruct (reaches (Np.cumsum (map snd (bid0 :: bid_rest))) v) eqn:Hb;
    [ | discriminate ].
  destruct (reaches (Np.cumsum (map snd (ask0 :: ask_rest))) v) eqn:Ha;
    [ | discriminate ].
  rewrite (Hmono _ Hb), (Hmono _ Ha). cbn [andb]. trivial.
Qed.

(** X5.  [validate_liquidity] never accepts a book that cannot fill the
    volume: with sizes that are not negative, a side whose total size is
    below the required volume gives [False], and so does a side with no
    row. *)
Theorem validate_liquidity_needs_depth (book : orderbook) (v : Q) :
  Forall (fun row => 0 <= row.2) (bids book) ->
  Forall (fun row => 0 <= row.2) (asks book) ->
  validate_liquidity book v = true ->
  bids book <> [] /\ asks book <> []
  /\ v <= Np.sum (map snd (bids book))
  /\ v <= Np.sum (map snd (asks book)).
Proof.
  intros Hb Ha. unfold validate_liquidity.
  destruct (bids book) as [ | bid0 bid_rest ]; [ discriminate | ].
  destruct (asks book) as [ | ask0 ask_rest ]; [ discriminate | ].
  cbv zeta.
  destruct (reaches (Np.cumsum (map snd (bid0 :: bid_rest))) v) eqn:Eb;
    [ | discriminate ].
  destruct (reaches (Np.cumsum (map snd (ask0 :: ask_rest))) v) eqn:Ea;
    [ | discriminate ].
  intros _.
  assert (Htot : forall rows : list (Q * Q),
            Forall (fun row => 0 <= row.2) rows ->
            reaches (Np.cumsum (map snd rows)) v = true ->
            v <= Np.sum (map snd rows)).
  { intros rows Hpos H. apply reaches_spec in H. destruct H as [c [Hin Hc]].
    apply Qle_trans with c; [ exact Hc | ].
    apply cumsum_le_total; [ | exact Hin ].
    apply List.Forall_forall. intros x Hx. apply in_map_iff in Hx.
    destruct Hx as [row [<- Hrow]].
    rewrite List.Forall_forall in Hpos. apply (Hpos row Hrow). }
  repeat split; try discriminate.
  - apply Htot; assumption.
  - apply Htot; assumption.
Qed.

End DetectorLiquidity.

Section DetectorOpportunities.

Import ArbitrageExecutor Detector.
Local Open Scope Q_scope.



End DetectorOpportunities.

(** ** ArbitrageExecutor: path and validation *)

Section ExecutorPath.

Import ArbitrageExecutor Executor.
Local Open Scope Q_scope.

(** X7.  [calculate_execution_path] returns either no step, or exactly
    a buy step on [dex_buy] followed by a sell step on [dex_sell], both
    of one strictly positive size, priced at the best ask of the buy
    venue and the best bid of the sell venue. *)
Theorem calculate_execution_path_shape (market_data : list tick)
    (o : opportunity) :
  calculate_execution_path market_data o = []
  \/ exists buy sell ask0 asks' bid0 bids' size,
       Detector.first_row market_data (dex_buy o) (opp_pair o) = Ok buy
       /\ Detector.first_row market_data (dex_sell o) (opp_pair o) = Ok sell
       /\ asks (book buy) = ask0 :: asks'
       /\ bids (book sell) = bid0 :: bids'
       /\ 0 < size
       /\ calculate_execution_path market_data o
          = [ {| step_dex := dex_buy o; step_size := size;
                 step_price := ask0.1 |};
              {| step_dex := dex_sell o; step_size := size;
                 step_price := bid0.1 |} ].
Proof.
  unfold calculate_execution_path.
  destruct (Detector.first_row market_data (dex_buy o) (opp_pair o))
    as [buy | e]; [ | left; reflexivity ].
  destruct (Detector.first_row market_data (dex_sell o) (opp_pair o))
    as [sell | e]; [ | left; reflexivity ].
  cbn [Py.bind].
  destruct (asks (book buy)) as [ | ask0 asks' ] eqn:Ea; [ left; reflexivity | ].
  destruct (bids (book sell)) as [ | bid0 bids' ] eqn:Eb;
    [ left; reflexivity | ].
  destruct (minimum _ _) as [sizes | e]; [ | left; reflexivity ].
  cbn [Py.bind].
  destruct (amax sizes) as [size | e]; [ | left; reflexivity ].
  cbn [Py.bind].
  destruct (PyFloat.Qlt_bool 0 size) eqn:Hs; [ | left; reflexivity ].
  right. exists buy, sell, ask0, asks', bid0, bids', size.
  apply Qlt_bool_true in Hs. repeat split; try reflexivity; assumption.
Qed.

(** X8.  The path never asks for more than the books hold: with sizes
    that are not negative, the size of every step is strictly positive
    and at most the total ask size of the buy venue and the total bid
    size of the sell venue. *)
Theorem calculate_execution_path_within_depth (market_data : list tick)
    (o : opportunity) (buy sell : tick) (s : step) :
  Detector.first_row market_data (dex_buy o) (opp_pair o) = Ok buy ->
  Detector.first_row market_data (dex_sell o) (opp_pair o) = Ok sell ->
  Forall (fun row => 0 <= row.2) (asks (book buy)) ->
  Forall (fun row => 0 <= row.2) (bids (book sell)) ->
  In s (calculate_execution_path market_data o) ->
  0 < step_size s
  /\ step_size s <= Np.sum (map snd (asks (book buy)))
  /\ step_size s <= Np.sum (map snd (bids (book sell))).
Proof.
  intros Hbuy Hsell Hasks Hbids. unfold calculate_execution_path.
  rewrite Hbuy, Hsell. cbn [Py.bind].
  destruct (asks (book buy)) as [ | ask0 asks' ] eqn:Ea; [ contradiction | ].
  destruct (bids (book sell)) as [ | bid0 bids' ] eqn:Eb; [ contradiction | ].
  destruct (minimum _ _) as [sizes | e] eqn:Em; [ | contradiction ].
  cbn [Py.bind].
  destruct (amax sizes) as [size | e] eqn:Ex; [ | contradiction ].
  cbn [Py.bind].
  destruct (PyFloat.Qlt_bool 0 size) eqn:Hs; [ | contradiction ].
  apply Qlt_bool_true in Hs.
  assert (Hsize : size <= Np.sum (map snd (ask0 :: asks'))
                  /\ size <= Np.sum (map snd (bid0 :: bids'))).
  { destruct (minimum_bounded _ _ _ size Em (amax_in _ _ Ex))
      as [[x [Hx Hsx]] [y [Hy Hsy]]].
    assert (Hnn : forall rows : list (Q * Q),
              Forall (fun row => 0 <= row.2) rows -> Forall (Qle 0) (map snd rows)).
    { intros rows H. apply List.Forall_forall. intros v Hv.
      apply in_map_iff in Hv. destruct Hv as [row [<- Hrow]].
      rewrite List.Forall_forall in H. apply (H row Hrow). }
    split.
    - apply Qle_trans with x; [ exact Hsx | ].
      apply cumsum_le_total; [ apply Hnn; exact Hasks | exact Hx ].
    - apply Qle_trans with y; [ exact Hsy | ].
      apply cumsum_le_total; [ apply Hnn; exact Hbids | exact Hy ]. }
  intros [<- | [<- | []]]; cbn [step_size];
    (split; [ exact Hs | exact Hsize ]).
Qed.

End ExecutorPath.

Section ExecutorValidation.

Import ArbitrageExecutor Executor.
Local Open Scope Q_scope.

Variable DataFrame : Type.
Variable assess :
  DataFrame -> gmap string BaseStrategy.position -> BaseStrategy.risk_limits
  -> res float.

Lemma validate_execution_without_var (market_data : list tick)
    (base : BaseStrategy.strategy DataFrame) (o : opportunity) :
  BaseStrategy.market_data base = None ->
  BaseStrategy.risk_var base = None ->
  (validate_execution DataFrame assess market_data base o).1.1 = false.
Proof.
  intros Hmd Hvar. unfold validate_execution.
  destruct (let? buy := Detector.first_row _ _ _ in _) as [[[d s] l] | e];
    [ | reflexivity ].
  unfold BaseStrategy.calculate_portfolio_risk. rewrite Hmd, Hvar.
  cbn [fst snd risk_limits_satisfied price_difference_valid
       slippage_within_limits sufficient_liquidity].
  rewrite andb_false_r. reflexivity.
Qed.

(** X9.  While the base strategy has no market data and no VaR, as its
    constructor leaves it, [validate_execution] returns [False] for
    every opportunity and every market data, and leaves the base
    strategy as it was. *)
Theorem validate_execution_needs_var (market_data : list tick)
    (base : BaseStrategy.strategy DataFrame) (o : opportunity) :
  BaseStrategy.market_data base = None ->
  BaseStrategy.risk_var base = None ->
  let out := validate_execution DataFrame assess market_data base o in
  out.1.1 = false /\ out.2 = base.
Proof.
  intros Hmd Hvar. cbv zeta. unfold validate_execution.
  destruct (let? buy := Detector.first_row _ _ _ in _) as [[[d s] l] | e];
    [ | split; reflexivity ].
  unfold BaseStrategy.calculate_portfolio_risk. rewrite Hmd, Hvar.
  cbn [fst snd risk_limits_satisfied price_difference_valid
       slippage_within_limits sufficient_liquidity].
  split; [ | reflexivity ].
  rewrite andb_false_r. reflexivity.
Qed.

Variable show_metrics : metrics -> string.
Variable base_validate_trade : string -> step -> bool * metrics.
Variable submit : nat -> list (step * metrics) -> attempt_outcome.
Variable elapsed_ms : Q.

(** X10.  An executor whose base strategy has no market data and no VaR
    executes nothing: [execute_opportunity], run with the executor's own
    [validate_execution] and [calculate_execution_path], fails at the
    validation step with one error, submits no trade and leaves the
    statistics untouched. *)
Theorem execute_opportunity_blocked_without_var (market_data : list tick)
    (base : BaseStrategy.strategy DataFrame) (o : opportunity)
    (st : execution_stats) :
  BaseStrategy.market_data base = None ->
  BaseStrategy.risk_var base = None ->
  let out :=
    execute_opportunity metrics show_metrics
      (fun p => (validate_execution DataFrame assess market_data base p).1)
      (calculate_execution_path market_data) base_validate_trade submit
      elapsed_ms o st in
  success out.1 = false
  /\ trades out.1 = []
  /\ out.2 = st
  /\ exists m, errors out.1 = ["Validation failed: " ++ show_metrics m].
Proof.
  intros Hmd Hvar. cbv zeta. unfold execute_opportunity.
  pose proof (validate_execution_without_var market_data base o Hmd Hvar)
    as Hfalse.
  destruct (validate_execution DataFrame assess market_data base o)
    as [[valid m] base'].
  cbn [fst snd] in *. subst valid. cbn [negb fst snd].
  repeat split. exists m. reflexivity.
Qed.

End ExecutorValidation.

Section ExecutorWitnesses.

Import ArbitrageExecutor Detector Executor.
Local Open Scope Q_scope.

Lemma execute_opportunity_keeps_counters_witness :
  let path := [ {| step_dex := "jupiter"; step_size := 20; step_price := 100.1 |};
                {| step_dex := "pump_fun"; step_size := 20; step_price := 100.4 |} ] in
  let out := execute_opportunity unit (fun _ => "{}")
               (fun _ => (true, tt)) (fun _ => path) (fun _ _ => (true, tt))
               (fun _ _ => TimedOut) 1 example_opportunity initial_stats in
  total_executions out.2
  = (successful_executions out.2 + failed_executions out.2)%Z.
Proof.
  cbv zeta.
  apply (execute_opportunity_keeps_counters unit (fun _ => "{}")
           (fun _ => (true, tt)) _ (fun _ _ => (true, tt))
           (fun _ _ => TimedOut) 1 example_opportunity initial_stats).
  reflexivity.
Defined.

Lemma validate_liquidity_antitone_witness :
  validate_liquidity (example_book 100) 5 = true.
Proof.
  apply (validate_liquidity_antitone (example_book 100) 10 5).
  - unfold Qle. simpl. lia.
  - vm_compute. reflexivity.
Defined.

Lemma validate_liquidity_needs_depth_witness :
  10 <= Np.sum (map snd (bids (example_book 100))).
Proof.
  apply (validate_liquidity_needs_depth (example_book 100) 10).
  - repeat (apply List.Forall_cons; [ unfold Qle; simpl; lia | ]); apply List.Forall_nil.
  - repeat (apply List.Forall_cons; [ unfold Qle; simpl; lia | ]); apply List.Forall_nil.
  - vm_compute. reflexivity.
Defined.


Lemma calculate_execution_path_within_depth_witness :
  Forall (fun s => 0 < step_size s /\ step_size s <= 50)
    (calculate_execution_path example_market example_opportunity).
Proof.
  apply List.Forall_forall. intros s Hs.
  destruct (calculate_execution_path_within_depth example_market
              example_opportunity
              {| dex := "jupiter"; pair := "SOL/USDC"; price := 100;
                 book := example_book 100 |}
              {| dex := "pump_fun"; pair := "SOL/USDC"; price := 100.5;
                 book := example_book 100.5 |} s)
    as (Hpos & Hask & _).
  - vm_compute. reflexivity.
  - vm_compute. reflexivity.
  - repeat (apply List.Forall_cons; [ unfold Qle; simpl; lia | ]); apply List.Forall_nil.
  - repeat (apply List.Forall_cons; [ unfold Qle; simpl; lia | ]); apply List.Forall_nil.
  - exact Hs.
  - split; [ exact Hpos | ].
    apply Qle_trans with (1 := Hask). unfold Qle. simpl. lia.
Defined.

Lemma validate_execution_needs_var_witness :
  (validate_execution unit (fun _ _ _ => Ok (Fin 0.01)) example_market
     (BaseStrategy.initial unit
        {| BaseStrategy.max_position_size_bps := 5000;
           BaseStrategy.min_position_size_bps := 100;
           BaseStrategy.max_drawdown := 0.15;
           BaseStrategy.var_confidence_level := 0.95 |})
     example_opportunity).1.1 = false.
Proof.
  refine (proj1 (validate_execution_needs_var unit _ example_market _
                   example_opportunity _ _)); reflexivity.
Defined.

Lemma execute_opportunity_blocked_without_var_witness :
  let base :=
    BaseStrategy.initial unit
      {| BaseStrategy.max_position_size_bps := 5000;
         BaseStrategy.min_position_size_bps := 100;
         BaseStrategy.max_drawdown := 0.15;
         BaseStrategy.var_confidence_level := 0.95 |} in
  let out :=
    execute_opportunity metrics (fun _ => "{}")
      (fun p => (validate_execution unit (fun _ _ _ => Ok (Fin 0.01))
                   example_market base p).1)
      (calculate_execution_path example_market)
      (fun _ _ => (true, ErrorMetrics ""))
      (fun _ bundle => Completed (map (fun _ =>
         {| trade_success := true; realized_profit := 0;
            trade_mev_savings := 0 |}) bundle))
      1 example_opportunity initial_stats in
  success out.1 = false /\ out.2 = initial_stats.
Proof.
  cbv zeta.
  destruct (execute_opportunity_blocked_without_var unit
              (fun _ _ _ => Ok (Fin 0.01)) (fun _ => "{}")
              (fun _ _ => (true, ErrorMetrics ""))
              (fun _ bundle => Completed (map (fun _ =>
                 {| trade_success := true; realized_profit := 0;
                    trade_mev_savings := 0 |}) bundle))
              1 example_market
              (BaseStrategy.initial unit
                 {| BaseStrategy.max_position_size_bps := 5000;
                    BaseStrategy.min_position_size_bps := 100;
                    BaseStrategy.max_drawdown := 0.15;
                    BaseStrategy.var_confidence_level := 0.95 |})
              example_opportunity initial_stats eq_refl eq_refl)
    as (Hs & _ & Hst & _).
  split; [ exact Hs | exact Hst ].
Defined.

End ExecutorWitnesses.

(** ** RiskCalculator: position sizing *)

Section PositionSizingFacts.

Import PositionSizing.
Local Open Scope Q_scope.

Lemma truediv_ok (a b q : Q) :
  truediv a b = Ok q -> ~ b == 0 /\ q = a / b.
Proof.
  unfold truediv. destruct (Qeq_bool b 0) eqn:E; [ discriminate | ].
  intros H. injection H as <-. split; [ | reflexivity ].
  intros Hb. apply Qeq_bool_iff in Hb. congruence.
Qed.

Lemma item_ok (d : gmap string Q) (k : string) (q : Q) :
  item d k = Ok q -> d !! k = Some q.
Proof.
  unfold item. destruct (d !! k); [ | discriminate ].
  intros H. injection H as ->. reflexivity.
Qed.

(** X11.  Whenever [calculate_position_size] returns, the size it
    recommends is at least [MIN_POSITION_SIZE_BPS] (1%) of the portfolio
    value, and the reported concentration is that size over the
    portfolio value.  The floor wins over the concentration limit: when
    the existing exposure already reaches [max_concentration] times the
    portfolio value, the recommendation is still 1% of the portfolio
    value. *)
Theorem calculate_position_size_floor
    (risk_limits market_params market_data : gmap string Q)
    (portfolio_value : Q) (existing_positions : list (gmap string Q))
    (market_impact_params : gmap string Q) (s : sizing) :
  calculate_position_size risk_limits market_params market_data
    portfolio_value existing_positions market_impact_params = Ok s ->
  portfolio_value / 100 <= recommended_size s
  /\ concentration s * portfolio_value == recommended_size s
  /\ exists max_concentration total_exposure,
       risk_limits !! "max_concentration" = Some max_concentration
       /\ total_value existing_positions 0 = Ok total_exposure
       /\ (0 <= portfolio_value ->
           max_concentration * portfolio_value <= total_exposure ->
           recommended_size s == portfolio_value / 100).
Proof.
  unfold calculate_position_size, calculate_position_size_body.
  destruct (item market_params "volatility_adjustment") as [va | e];
    [ | discriminate ].
  cbn [Py.bind].
  destruct (truediv 1 _) as [damping | e]; [ | discriminate ].
  cbn [Py.bind].
  destruct (truediv _ (default 0 (market_data !! "average_volume")))
    as [per_volume | e]; [ | discriminate ].
  cbn [Py.bind].
  destruct (item market_params "impact_coefficient") as [own | e];
    [ | discriminate ].
  cbn [Py.bind].
  destruct (item market_params "liquidity_factor") as [lf | e];
    [ | discriminate ].
  cbn [Py.bind].
  destruct (total_value existing_positions 0) as [exposure | e] eqn:Hex;
    [ | discriminate ].
  cbn [Py.bind].
  destruct (item risk_limits "max_concentration") as [mc | e] eqn:Hmc;
    [ | discriminate ].
  cbn [Py.bind].
  destruct (truediv _ portfolio_value) as [share | e] eqn:Hshare;
    [ | discriminate ].
  cbn [Py.bind]. intros H. injection H as <-.
  cbn [recommended_size concentration].
  apply truediv_ok in Hshare as [Hpv ->].
  set (floor := Base.MIN_POSITION_SIZE_BPS / 10000 * portfolio_value).
  assert (Hfloor : floor == portfolio_value / 100).
  { unfold floor, Base.MIN_POSITION_SIZE_BPS. field. }
  split; [ rewrite <- Hfloor; apply Q.le_max_r | ].
  split; [ field; exact Hpv | ].
  exists mc, exposure.
  split; [ apply item_ok; exact Hmc | ].
  split; [ reflexivity | ].
  intros Hpos Hfull. rewrite <- Hfloor. apply Q.max_r.
  eapply Qle_trans; [ apply Q.le_min_l | ].
  eapply Qle_trans; [ apply Q.le_min_l | ].
  apply Qle_trans with 0.
  - apply (Qplus_le_l _ _ exposure). ring_simplify. exact Hfull.
  - rewrite Hfloor. apply Qle_shift_div_l; [ reflexivity | ].
    rewrite Qmult_0_l. exact Hpos.
Qed.

Lemma calculate_position_size_floor_witness :
  exists s,
    calculate_position_size RiskCalculator.default_risk_limits
      default_market_params
      {[ "volatility" := 0.02; "average_volume" := 1000000 ]}
      100000 [ {[ "value" := 30000 ]} ] ∅ = Ok s
    /\ 100000 / 100 <= recommended_size s.
Proof.
  eexists. split.
  - vm_compute. reflexivity.
  - refine (proj1 (calculate_position_size_floor
                     RiskCalculator.default_risk_limits default_market_params
                     {[ "volatility" := 0.02; "average_volume" := 1000000 ]}
                     100000 [ {[ "value" := 30000 ]} ] ∅ _ _)).
    vm_compute. reflexivity.
Defined.

End PositionSizingFacts.

(** ** RiskCalculator: concentration *)

Section ConcentrationFacts.

Import Heap RiskCalculator.
Local Open Scope Q_scope.




Variable DataFrame : Type.
Variable Scenarios : Type.
Variable ReturnStats : Type.
Variable pct_change_dropna : DataFrame -> res DataFrame.
Variable corr_values : DataFrame -> res (list (list Q)).
Variable return_statistics : DataFrame -> Scenarios -> res ReturnStats.

Local Abbreviation portfolio_risk_of :=
  (calculate_portfolio_risk DataFrame Scenarios ReturnStats pct_change_dropna
     corr_values return_statistics).

Local Abbreviation validate :=
  (validate_trade DataFrame Scenarios ReturnStats pct_change_dropna
     corr_values return_statistics).

Lemma position_values_empty (h : Heap.heap) (ps lp : Heap.loc) :
  getitem h ps "positions" = Ok (VRef lp) ->
  h !! lp = Some ∅ ->
  position_values h ps = Ok [].
Proof.
  intros Hpos Hlp. unfold position_values. rewrite Hpos. simpl.
  unfold values. rewrite Hlp. simpl. rewrite map_to_list_empty. reflexivity.
Qed.

Lemma calculate_portfolio_risk_empty (ps : Heap.loc) (md : DataFrame)
    (sc : Scenarios) (w : world) :
  position_values (heap w) ps = Ok [] ->
  exists msg w',
    portfolio_risk_of ps md sc w = (Raise (ValueError msg), w')
    /\ heap w' = heap w.
Proof.
  intros Hvals.
  unfold calculate_portfolio_risk, calculate_portfolio_risk_body. st_unfold.
  rewrite Hvals.
  destruct (pct_change_dropna md) as [returns | e];
    [ | eexists; eexists; split; reflexivity ].
  destruct (corr_values returns) as [corr | e];
    [ | eexists; eexists; split; reflexivity ].
  simpl. eexists; eexists; split; reflexivity.
Qed.

(** X13.  On a portfolio with no position [validate_trade] rejects
    every trade: the pre-trade assessment takes the maximum of an empty
    sequence, and the call returns [False] with an ['error'] entry,
    before anything is written to the portfolio. *)
Theorem validate_trade_rejects_on_empty_portfolio (t : trade_params)
    (ps lp : Heap.loc) (md : DataFrame) (sc : Scenarios) (w : world) :
  getitem (heap w) ps "positions" = Ok (VRef lp) ->
  heap w !! lp = Some ∅ ->
  exists msg w',
    validate t ps md sc w = ((false, ErrorDetail msg), w')
    /\ heap w' = heap w.
Proof.
  intros Hpos Hlp.
  destruct (calculate_portfolio_risk_empty ps md sc w
              (position_values_empty _ _ _ Hpos Hlp))
    as (msg & w' & Hrisk & Hheap).
  exists msg, w'. split; [ | exact Hheap ].
  unfold validate_trade, validate_trade_body.
  unfold St.bind at 1. rewrite Hrisk. reflexivity.
Qed.

End ConcentrationFacts.

Section ConcentrationExamples.

Import Heap RiskCalculator.
Local Open Scope Q_scope.

Lemma validate_trade_rejects_on_empty_portfolio_witness :
  exists msg w',
    example_validate_trade
      {| pair := Some "SOL/USDC"; size := 1; price := 100 |}
      (example_world [])
    = ((false, ErrorDetail msg), w').
Proof.
  destruct (validate_trade_rejects_on_empty_portfolio unit unit unit
              (fun d => Ok d) (fun _ => Ok []) (fun _ _ => Ok tt)
              {| pair := Some "SOL/USDC"; size := 1; price := 100 |}
              1%positive 2%positive tt tt (example_world []))
    as (msg & w' & H & _).
  - vm_compute. reflexivity.
  - vm_compute. reflexivity.
  - exists msg, w'. exact H.
Defined.

End ConcentrationExamples.

(** ** GridCalculator: optimisation and its risk validation *)

Section GridRiskFacts.

Import Heap RiskCalculator GridCalculator.
Local Open Scope Q_scope.

Variable DataFrame : Type.
Variable Scenarios : Type.
Variable ReturnStats : Type.
Variable pct_change_dropna : DataFrame -> res DataFrame.
Variable corr_values : DataFrame -> res (list (list Q)).
Variable return_statistics : DataFrame -> Scenarios -> res ReturnStats.
Variable base_scenario : Scenarios.
Variable last_price : DataFrame -> Q.

Variable validate_market_data : DataFrame -> bool.
Variable returns_std : DataFrame -> res Q.
Variable calculate_grid_spacing : DataFrame -> res Q.
Variable recommended_size : DataFrame -> Q -> res Q.

Local Abbreviation risk_validation :=
  (GridRisk.risk_validation DataFrame Scenarios ReturnStats pct_change_dropna
     corr_values return_statistics base_scenario last_price).

Lemma empty_portfolio_positions (h : Heap.heap) :
  let p := GridRisk.empty_portfolio h in
  getitem p.2 p.1 "positions" = Ok (VRef (fresh (dom h)))
  /\ p.2 !! fresh (dom h) = Some ∅.
Proof.
  cbv zeta. unfold GridRisk.empty_portfolio, new_dict. cbn [fst snd].
  set (l1 := fresh (dom h)). set (h1 := <[l1 := ∅]> h).
  assert (Hne : fresh (dom h1) <> l1).
  { intros E. apply (is_fresh (dom h1)). rewrite E.
    apply elem_of_dom. unfold h1. rewrite lookup_insert_eq. eauto. }
  split.
  - unfold getitem. rewrite lookup_insert_eq. rewrite lookup_singleton_eq.
    reflexivity.
  - rewrite lookup_insert_ne by exact Hne. unfold h1.
    apply lookup_insert_eq.
Qed.

(** The risk calculator rejects the per-level trade whatever its size:
    the portfolio it is validated against has no position. *)
Lemma risk_validation_rejects (md : DataFrame) (per_grid_size : Q)
    (w : world) :
  (risk_validation md per_grid_size w).1.1 = false.
Proof.
  unfold GridRisk.risk_validation.
  destruct (empty_portfolio_positions (heap w)) as [Hpos Hlp].
  set (p := GridRisk.empty_portfolio (heap w)) in *.
  destruct (calculate_portfolio_risk_empty DataFrame Scenarios ReturnStats
              pct_change_dropna corr_values return_statistics
              p.1 md base_scenario (set_heap p.2 w)
              (position_values_empty _ _ _ Hpos Hlp))
    as (msg & w' & Hrisk & _).
  unfold validate_trade, validate_trade_body.
  unfold St.bind at 1. rewrite Hrisk. reflexivity.
Qed.

(** X15.  [optimize_grid_parameters] never returns parameters: the grid
    setup is validated against [{'positions': {}}], the risk calculator
    rejects every trade on a portfolio with no position, and the
    optimisation ends in a [ValueError], for every market data, every
    volatility history and every state of the risk calculator. *)
Theorem optimize_grid_parameters_never_returns (w : world)
    (md : DataFrame) (history : list Q) :
  exists msg history',
    optimize_grid_parameters DataFrame validate_market_data returns_std
      calculate_grid_spacing recommended_size
      (fun d per_grid_size => (risk_validation d per_grid_size w).1.1)
      md history
    = (Raise (ValueError msg), history').
Proof.
  unfold optimize_grid_parameters, optimize_grid_parameters_body.
  st_unfold.
  destruct (validate_market_data md); cbn [negb];
    [ | eexists; eexists; reflexivity ].
  destruct (returns_std md) as [c | e]; [ | eexists; eexists; reflexivity ].
  destruct (update_volatility_history history c) as [h | e];
    [ | eexists; eexists; reflexivity ].
  destruct (calculate_grid_spacing md) as [spacing | e];
    [ | eexists; eexists; reflexivity ].
  destruct (grid_levels_of h c) as [levels | e];
    [ | eexists; eexists; reflexivity ].
  destruct (recommended_size md c) as [total | e];
    [ | eexists; eexists; reflexivity ].
  destruct (levels =? 0)%Z; [ eexists; eexists; reflexivity | ].
  rewrite risk_validation_rejects. cbn [negb].
  eexists; eexists; reflexivity.
Qed.

Variable risk_validate : DataFrame -> Q -> bool.

(** X16.  The volatility buffer is written before anything can fail
    after it: once the market data are valid and their volatility is
    computed, a call of [optimize_grid_parameters] leaves the buffer
    shifted by one place with the current volatility last, whether the
    call returns or raises.  A call that fails before that leaves the
    buffer as it was. *)
Theorem optimize_grid_parameters_buffer (md : DataFrame) (history : list Q)
    (r : res grid_params) (history' : list Q) :
  optimize_grid_parameters DataFrame validate_market_data returns_std
    calculate_grid_spacing recommended_size risk_validate md history
  = (r, history') ->
  length history' = length history
  /\ match validate_market_data md, returns_std md, history with
     | true, Ok c, oldest :: rest => history' = (rest ++ [c])%list
     | _, _, _ => history' = history
     end.
Proof.
  unfold optimize_grid_parameters, optimize_grid_parameters_body.
  st_unfold.
  destruct (validate_market_data md); cbn [negb];
    [ | intros H; injection H as <- <-; split; reflexivity ].
  destruct (returns_std md) as [c | e];
    [ | intros H; injection H as <- <-; split; reflexivity ].
  destruct history as [ | oldest rest ].
  - simpl. intros H; injection H as <- <-; split; reflexivity.
  - rewrite update_volatility_history_cons.
    assert (Hlen : length (rest ++ [c])%list = length (oldest :: rest)).
    { rewrite length_app. simpl. lia. }
    intros H. repeat case_match; simplify_eq; split; first [ exact Hlen | reflexivity ].
Qed.

End GridRiskFacts.

Section GridRiskExamples.

Import GridCalculator.
Local Open Scope Q_scope.

Lemma optimize_grid_parameters_buffer_witness :
  (optimize_grid_parameters unit (fun _ => true) (fun _ => Ok 0.02)
     (fun _ => Ok 0.01) (fun _ _ => Ok 1000) (fun _ _ => false) tt
     [0.01; 0.03]).2
  = [0.03; 0.02].
Proof.
  exact (proj2 (optimize_grid_parameters_buffer unit (fun _ => true)
                  (fun _ => Ok 0.02) (fun _ => Ok 0.01) (fun _ _ => Ok 1000)
                  (fun _ _ => false) tt [0.01; 0.03] _ _
                  (surjective_pairing _))).
Defined.

End GridRiskExamples.

(** ** GridStrategyManager: levels, rebalancing and deviation *)

Section GridLevelFacts.

Import GridStrategyManager GridMonitoring.
Local Open Scope Q_scope.







Lemma min_by_in (key : Q -> Q) (l : list Q) (best : Q) :
  In (min_by key best l) (best :: l).
Proof.
  revert best. induction l as [ | x l IH ]; intros best; simpl;
    [ left; reflexivity | ].
  destruct (IH (if PyFloat.Qlt_bool (key x) (key best) then x else best))
    as [E | Hin].
  - destruct (PyFloat.Qlt_bool (key x) (key best));
      [ right; left | left ]; exact E.
  - right. right. exact Hin.
Qed.

Lemma min_by_le_best (key : Q -> Q) (l : list Q) (best : Q) :
  key (min_by key best l) <= key best.
Proof.
  revert best. induction l as [ | x l IH ]; intros best; simpl;
    [ apply Qle_refl | ].
  eapply Qle_trans; [ apply IH | ].
  destruct (PyFloat.Qlt_bool (key x) (key best)) eqn:E; [ | apply Qle_refl ].
  apply Qlt_bool_true in E. apply Qlt_le_weak, E.
Qed.

Lemma min_by_le (key : Q -> Q) (l : list Q) (best y : Q) :
  In y (best :: l) -> key (min_by key best l) <= key y.
Proof.
  revert best. induction l as [ | x l IH ]; intros best Hin.
  - destruct Hin as [<- | []]. apply Qle_refl.
  - simpl. destruct Hin as [<- | [<- | Hin]].
    + eapply Qle_trans; [ apply min_by_le_best | ].
      destruct (PyFloat.Qlt_bool (key x) (key best)) eqn:E; [ | apply Qle_refl ].
      apply Qlt_bool_true in E. apply Qlt_le_weak, E.
    + eapply Qle_trans; [ apply min_by_le_best | ].
      destruct (PyFloat.Qlt_bool (key x) (key best)) eqn:E; [ apply Qle_refl | ].
      apply Qlt_bool_false in E. exact E.
    + apply IH. right. exact Hin.
Qed.

(** X18.  [_calculate_grid_deviation] measures the distance to a level
    closest to the current price: when it returns, the deviation is
    [(current_price - closest) / closest] for a level price [closest]
    of the grid that no other level beats.  An empty grid is a
    [ValueError]. *)
Theorem calculate_grid_deviation_closest (grid_levels : list grid_level)
    (current_price : Q) :
  match calculate_grid_deviation grid_levels current_price with
  | Ok deviation =>
      exists closest,
        In closest (map level_price grid_levels)
        /\ ~ closest == 0
        /\ deviation = (current_price - closest) / closest
        /\ Forall (fun l => Qabs (closest - current_price)
                            <= Qabs (level_price l - current_price))
             grid_levels
  | Raise e =>
      (grid_levels = []
       /\ e = ValueError "min() arg is an empty sequence")
      \/ (grid_levels <> [] /\ e = ZeroDivisionError)
  end.
Proof.
  unfold calculate_grid_deviation.
  destruct grid_levels as [ | l0 rest ]; [ left; split; reflexivity | ].
  cbn [map].
  set (key := fun x => Qabs (x - current_price)).
  set (closest := min_by key (level_price l0) (map level_price rest)).
  destruct (PositionSizing.truediv (current_price - closest) closest)
    as [d | e] eqn:E.
  - apply truediv_ok in E as [Hz ->].
    exists closest. split; [ apply min_by_in | ].
    split; [ exact Hz | ]. split; [ reflexivity | ].
    apply List.Forall_forall. intros l Hl.
    apply (min_by_le key (map level_price rest) (level_price l0) (level_price l)).
    change (In (level_price l) (map level_price (l0 :: rest))).
    apply in_map. exact Hl.
  - right. split; [ discriminate | ].
    unfold PositionSizing.truediv in E.
    destruct (Qeq_bool closest 0); [ | discriminate ].
    injection E as <-. reflexivity.
Qed.

Lemma calculate_grid_deviation_zero_level (grid_levels : list grid_level)
    (current_price level : Q) :
  0 < current_price ->
  In level (map level_price grid_levels) ->
  level == current_price ->
  exists deviation,
    calculate_grid_deviation grid_levels current_price = Ok deviation
    /\ deviation == 0.
Proof.
  intros Hp Hin Heq. unfold calculate_grid_deviation.
  destruct grid_levels as [ | l0 rest ]; [ contradiction | ].
  cbn [map] in *.
  set (key := fun x => Qabs (x - current_price)).
  set (closest := min_by key (level_price l0) (map level_price rest)).
  assert (Hkey : key closest <= key level) by (apply min_by_le; exact Hin).
  assert (Hc : closest == current_price).
  { unfold key in Hkey.
    assert (E : level - current_price == 0) by (rewrite Heq; ring).
    rewrite E in Hkey. change (Qabs 0) with 0 in Hkey.
    apply Qabs_Qle_condition in Hkey. lra. }
  unfold PositionSizing.truediv.
  destruct (Qeq_bool closest 0) eqn:Ez.
  - apply Qeq_bool_iff in Ez. rewrite Hc in Ez. lra.
  - eexists. split; [ reflexivity | ].
    rewrite Hc. field. lra.
Qed.

(** X19.  Right after the levels are laid around a positive price, the
    deviation at that price is zero: the grid has a level at the
    current price itself (for a level count that is not negative), so
    the monitor finds nothing to rebalance. *)
Theorem calculate_grid_deviation_after_initialize (trading_pair : string)
    (params : GridCalculator.grid_params) (current_price : Q) :
  0 < current_price ->
  (0 <= GridCalculator.grid_levels params)%Z ->
  exists deviation,
    calculate_grid_deviation
      (initialize_grid_levels trading_pair params current_price)
      current_price
    = Ok deviation
    /\ deviation == 0.
Proof.
  intros Hp Hn.
  set (levels := initialize_grid_levels trading_pair params current_price).
  set (s := GridCalculator.grid_spacing params).
  assert (Hzero : In (current_price * (1 + inject_Z 0 * s))
                    (map level_price levels)).
  { unfold levels, initialize_grid_levels. rewrite map_map. cbn [level_price].
    apply in_map_iff. exists 0%Z. split; [ reflexivity | ].
    unfold Py.range. apply in_map_iff.
    set (n := GridCalculator.grid_levels params) in *.
    exists (Z.to_nat (- ((- n) / 2))). split.
    - pose proof (Z.div_le_upper_bound (- n) 2 0 ltac:(lia) ltac:(lia)). lia.
    - apply in_seq.
      pose proof (Z.div_le_upper_bound (- n) 2 0 ltac:(lia) ltac:(lia)).
      pose proof (Z.div_pos n 2 Hn ltac:(lia)). lia. }
  pose proof (calculate_grid_deviation_zero_level levels current_price
                (current_price * (1 + inject_Z 0 * s)) Hp Hzero) as H.
  apply H. ring.
Qed.

End GridLevelFacts.

Section GridLevelExamples.

Import GridStrategyManager GridMonitoring.
Local Open Scope Q_scope.


Lemma calculate_grid_deviation_after_initialize_witness :
  exists deviation,
    calculate_grid_deviation
      (initialize_grid_levels "SOL/USDC" (example_params 5 10) 100) 100
    = Ok deviation
    /\ deviation == 0.
Proof.
  apply (calculate_grid_deviation_after_initialize "SOL/USDC"
           (example_params 5 10) 100).
  - reflexivity.
  - simpl. lia.
Defined.

End GridLevelExamples.

Section RebalanceFacts.

Import GridStrategyManager.
Local Open Scope Q_scope.

Variable DataFrame : Type.
Variable Conditions : Type.
Variable RiskMetrics : Type.
Variable Performance : Type.
Variable get_market_data : string -> res DataFrame.
Variable optimize_grid_parameters :
  DataFrame -> Conditions -> res GridCalculator.grid_params.
Variable validate_trade : string -> Q -> Q -> bool * RiskMetrics.
Variable cancel_grid_orders : string -> res unit.

Local Abbreviation rebalance :=
  (rebalance_grid DataFrame Conditions RiskMetrics Performance get_market_data
     optimize_grid_parameters validate_trade cancel_grid_orders).

(** X20.  [rebalance_grid] is all or nothing.  When it raises, the
    grids and the rebalance events are as before and
    [rebalance_failures] has grown by one.  When it returns, the failure
    count is as before, one event for this pair and price is appended,
    the grids of all other pairs are untouched, and the grid of this
    pair holds the returned levels and keeps its performance record. *)
Theorem rebalance_grid_all_or_nothing (trading_pair : string)
    (current_price : Q) (market_conditions : Conditions)
    (m m' : manager RiskMetrics Performance) (r : res (list grid_level)) :
  rebalance trading_pair current_price market_conditions m = (r, m') ->
  match r with
  | Raise e =>
      active_grids m' = active_grids m
      /\ rebalance_events RiskMetrics Performance m'
         = rebalance_events RiskMetrics Performance m
      /\ rebalance_failures RiskMetrics Performance m'
         = (rebalance_failures RiskMetrics Performance m + 1)%Z
  | Ok new_levels =>
      rebalance_failures RiskMetrics Performance m'
      = rebalance_failures RiskMetrics Performance m
      /\ rebalance_events RiskMetrics Performance m'
         = (rebalance_events RiskMetrics Performance m
            ++ [ {| event_pair := trading_pair;
                    event_price := current_price |} ])%list
      /\ (forall p, p <> trading_pair ->
            active_grids m' !! p = active_grids m !! p)
      /\ exists old new,
           active_grids m !! trading_pair = Some old
           /\ active_grids m' !! trading_pair = Some new
           /\ levels new = new_levels
           /\ performance RiskMetrics Performance new
              = performance RiskMetrics Performance old
  end.
Proof.
  unfold rebalance_grid, rebalance_grid_body. st_unfold.
  destruct (active_grids m !! trading_pair) as [grid | ] eqn:Hgrid;
    [ | intros H; injection H as <- <-; repeat split ].
  destruct (get_market_data trading_pair) as [data | e];
    [ | intros H; injection H as <- <-; repeat split ].
  destruct (optimize_grid_parameters data market_conditions) as [params | e];
    [ | intros H; injection H as <- <-; repeat split ].
  destruct (validate_trade trading_pair _ current_price) as [valid metrics].
  cbn [fst snd]. destruct valid; cbn [negb];
    [ | intros H; injection H as <- <-; repeat split ].
  destruct (cancel_grid_orders trading_pair) as [ [] | e];
    [ | intros H; injection H as <- <-; repeat split ].
  intros H; injection H as <- <-.
  cbn [active_grids rebalance_events rebalance_failures].
  split; [ reflexivity | ]. split; [ reflexivity | ].
  split.
  - intros p Hp. rewrite lookup_insert_ne by congruence. reflexivity.
  - eexists. eexists. split; [ reflexivity | ].
    split; [ apply lookup_insert_eq | ].
    split; reflexivity.
Qed.

End RebalanceFacts.

Section RebalanceExamples.

Import GridStrategyManager.
Local Open Scope Q_scope.

Lemma rebalance_grid_all_or_nothing_witness :
  rebalance_failures unit unit
    (rebalance_grid unit unit unit unit
       (fun _ => Raise (AttributeError "_get_market_data"))
       (fun _ _ => Ok (example_params 4 10)) (fun _ _ _ => (true, tt))
       (fun _ => Ok tt) "SOL/USDC" 101 tt
       (example_manager (example_params 4 10))).2
  = 1%Z.
Proof.
  destruct (rebalance_grid unit unit unit unit
              (fun _ => Raise (AttributeError "_get_market_data"))
              (fun _ _ => Ok (example_params 4 10)) (fun _ _ _ => (true, tt))
              (fun _ => Ok tt) "SOL/USDC" 101 tt
              (example_manager (example_params 4 10))) as [r m'] eqn:E.
  pose proof (rebalance_grid_all_or_nothing unit unit unit unit _ _ _ _ _ _ _
                _ _ _ E) as H.
  assert (Hr : exists e, r = Raise e).
  { vm_compute in E. injection E as <- _. eexists. reflexivity. }
  destruct Hr as [e ->]. destruct H as (_ & _ & H).
  cbn [snd]. rewrite H. reflexivity.
Defined.

End RebalanceExamples.

(** ** Grid spacing *)

Section GridSpacingFacts.

Import GridSpacing.
Local Open Scope Q_scope.

Lemma py_max_not_nan (t : Q) (x : float) : py_max (Fin t) x <> NaN.
Proof.
  unfold py_max. destruct x as [q | | | ]; simpl;
    try destruct (PyFloat.Qlt_bool t q); discriminate.
Qed.

Lemma py_max_ge (t : Q) (x : float) (q : Q) :
  py_max (Fin t) x = Fin q -> t <= q.
Proof.
  unfold py_max. destruct x as [y | | | ]; simpl.
  - destruct (PyFloat.Qlt_bool t y) eqn:E; intros H; injection H as <-.
    + apply Qlt_bool_true in E. apply Qlt_le_weak, E.
    + apply Qle_refl.
  - discriminate.
  - intros H; injection H as <-. apply Qle_refl.
  - intros H; injection H as <-. apply Qle_refl.
Qed.

(** X21.  The grid spacing is always a number within
    [MIN_GRID_SPACING, MAX_GRID_SPACING] = [0.001, 0.05], whatever the
    volatility and the volume profile are, infinities and NaN included
    (a NaN loses against the target profit in [max]); and it is never
    below the target profit clipped to that range. *)
Theorem calculate_grid_spacing_bounds (sqrt_window : Q)
    (volatility : float) (target_profit : Q) (volume_profile : float) :
  exists spacing,
    calculate_grid_spacing sqrt_window volatility target_profit volume_profile
    = Fin spacing
    /\ 0.001 <= spacing <= 0.05
    /\ Qmin (Qmax target_profit 0.001) 0.05 <= spacing.
Proof.
  unfold calculate_grid_spacing.
  set (adjusted := Np.mul _ _).
  pose proof (py_max_not_nan target_profit adjusted) as Hnan.
  destruct (py_max (Fin target_profit) adjusted) as [q | | | ] eqn:E;
    [ | | | congruence ].
  - apply py_max_ge in E. simpl. eexists. split; [ reflexivity | ].
    split.
    + split.
      * apply Q.min_glb; [ apply Q.le_max_r | unfold Qle; simpl; lia ].
      * apply Q.le_min_r.
    + apply Q.min_le_compat_r. apply Q.max_le_compat_r. exact E.
  - simpl. eexists. split; [ reflexivity | ].
    split; [ split; unfold Qle; simpl; lia | apply Q.le_min_r ].
  - exfalso. unfold py_max in E.
    destruct adjusted as [y | | | ]; simpl in E; try discriminate.
    destruct (PyFloat.Qlt_bool target_profit y); discriminate.
Qed.

End GridSpacingFacts.

(** ** RiskManager: drawdown and history *)

Section RiskMonitoringFacts.

Import RiskMonitoring.
Local Open Scope Q_scope.





Variable Value : Type.

Lemma update_risk_history_lookup (history : gmap string (list Value))
    (risk_metrics : gmap string Value) (k : string) :
  update_risk_history Value history risk_metrics !! k
  = (fun entries => match risk_metrics !! k with
                    | Some v => (entries ++ [v])%list
                    | None => entries
                    end) <$> history !! k.
Proof.
  unfold update_risk_history. rewrite map_lookup_imap.
  destruct (history !! k); reflexivity.
Qed.

(** X23.  With the four history keys of [__init__], the record that
    [handle_risk_breach] hands to [_update_risk_history] changes nothing
    (no breach is ever recorded, ['alerts'] stays as it is), and of the
    assessment that [assess_portfolio_risk] hands to it only
    ['concentration'] is recorded: ['var'], ['drawdown'] and ['alerts']
    stay as they are. *)
Theorem update_risk_history_records (history : gmap string (list Value))
    (breach_event severity actions timestamp : Value)
    (var_metrics correlation_matrix concentration stress_test_results
     risk_adjusted_metrics current_drawdown liquidity_risk correlation_risk
     emergency_stop : Value) :
  dom history = dom (initial_history Value) ->
  update_risk_history Value history
    (breach_record Value breach_event severity actions timestamp)
  = history
  /\ let assessed :=
       update_risk_history Value history
         (comprehensive_risk Value var_metrics correlation_matrix
            concentration stress_test_results risk_adjusted_metrics
            current_drawdown liquidity_risk correlation_risk emergency_stop
            timestamp) in
     assessed !! "var" = history !! "var"
     /\ assessed !! "drawdown" = history !! "drawdown"
     /\ assessed !! "alerts" = history !! "alerts"
     /\ assessed !! "concentration"
        = (fun entries => (entries ++ [concentration])%list)
            <$> history !! "concentration".
Proof.
  intros Hdom. split.
  - apply map_eq. intros k. rewrite update_risk_history_lookup.
    destruct (history !! k) as [entries | ] eqn:Hk; [ | reflexivity ].
    assert (Hin : k ∈ dom (initial_history Value)).
    { rewrite <- Hdom. apply elem_of_dom. eauto. }
    apply elem_of_dom in Hin as [x Hx]. unfold initial_history in Hx.
    repeat (apply lookup_insert_Some in Hx as [[<- _] | [_ Hx]];
            [ reflexivity | ]).
    apply lookup_singleton_Some in Hx as [<- _]. reflexivity.
  - cbv zeta. rewrite !update_risk_history_lookup.
    repeat split.
    + destruct (history !! "var"); reflexivity.
    + destruct (history !! "drawdown"); reflexivity.
    + destruct (history !! "alerts"); reflexivity.
Qed.

End RiskMonitoringFacts.

Section RiskMonitoringExamples.

Import RiskMonitoring.
Local Open Scope Q_scope.

Lemma update_risk_history_records_witness :
  update_risk_history Q (initial_history Q) (breach_record Q 1 0.95 2 3)
  = initial_history Q.
Proof.
  exact (proj1 (update_risk_history_records Q (initial_history Q)
                  1 0.95 2 3 0 0 0 0 0 0 0 0 0 eq_refl)).
Defined.

End RiskMonitoringExamples.

(** ** RiskManager: approvals and breaches *)

Section ManagerApproval.

Import RiskManager.

Variable DataFrame : Type.
Variable Scenarios : Type.
Variable ReturnStats : Type.
Variable pct_change_dropna : DataFrame -> res DataFrame.
Variable corr_values : DataFrame -> res (list (list Q)).
Variable return_statistics : DataFrame -> Scenarios -> res ReturnStats.
Variable normal_and_stress : Scenarios.
Variable TimingRisk : Type.
Variable MarketImpact : Type.
Variable assess_timing_risk :
  RiskCalculator.trade_params -> St.M (world DataFrame) TimingRisk.
Variable calculate_market_impact :
  RiskCalculator.trade_params -> St.M (world DataFrame) MarketImpact.

Local Abbreviation validate_trade :=
  (RiskManager.validate_trade DataFrame Scenarios ReturnStats pct_change_dropna
     corr_values return_statistics normal_and_stress TimingRisk MarketImpact
     assess_timing_risk calculate_market_impact).

Local Abbreviation calculator_validate_trade :=
  (RiskManager.calculator_validate_trade DataFrame Scenarios ReturnStats
     pct_change_dropna corr_values return_statistics normal_and_stress).

(** X24.  With the emergency stop off, the manager's [validate_trade]
    rejects the trade whenever [_assess_timing_risk] raises, or returns
    and [_calculate_market_impact] raises, whatever the risk calculator
    decided: it returns [False] with the exception's text as ['error']
    and logs "Trade validation error: ..." (the calculator's changes to
    its own state stay).  The class defines neither helper, so as it
    stands the first call is an [AttributeError]. *)
Theorem validate_trade_rejects_when_helper_raises
    (t : RiskCalculator.trade_params) (w w' : world DataFrame) (e : exn) :
  emergency_stop (this w) = false ->
  (assess_timing_risk t (calculator_validate_trade t w).2 = (Raise e, w')
   \/ exists timing w2,
        assess_timing_risk t (calculator_validate_trade t w).2
        = (Ok timing, w2)
        /\ calculate_market_impact t w2 = (Raise e, w')) ->
  validate_trade t w
  = ((false, ErrorDetail (str_of_exn e)),
     logger DataFrame "ERROR" ("Trade validation error: " ++ str_of_exn e) w').
Proof.
  intros Hstop Hraise.
  unfold RiskManager.validate_trade. rewrite Hstop.
  unfold St.bind, St.ret.
  destruct (RiskManager.calculator_validate_trade _ _ _ _ _ _ _ t w)
    as [[r | e0] w1] eqn:Hcalc.
  - cbn [snd] in Hraise.
    destruct Hraise as [Htiming | (timing & w2 & Htiming & Himpact)].
    + rewrite Htiming. reflexivity.
    + rewrite Htiming, Himpact. reflexivity.
  - unfold RiskManager.calculator_validate_trade in Hcalc. discriminate Hcalc.
Qed.

End ManagerApproval.

Section ManagerApprovalExamples.

Import RiskManager.

(** The class as it stands: [_assess_timing_risk] is not defined.  A
    trade of 1000 at 100 on the held pair is rejected with the text of
    the [AttributeError]. *)
Lemma validate_trade_rejects_when_helper_raises_witness :
  let w := example_manager false in
  let t := {| RiskCalculator.pair := Some "SOL/USDC";
              RiskCalculator.size := 1000%Q;
              RiskCalculator.price := 100%Q |} in
  let out := RiskManager.validate_trade unit unit unit (fun d => Ok d)
               (fun _ => Ok []) (fun _ _ => Ok tt) tt unit unit
               (fun _ => St.raise (AttributeError "_assess_timing_risk"))
               (fun _ => St.raise (AttributeError "_calculate_market_impact"))
               t w in
  out.1 = (false,
           ErrorDetail (str_of_exn (AttributeError "_assess_timing_risk")))
  /\ log out.2
     = [("ERROR",
         "Trade validation error: "
         ++ str_of_exn (AttributeError "_assess_timing_risk"))].
Proof.
  cbv zeta.
  rewrite (validate_trade_rejects_when_helper_raises unit unit unit
             (fun d => Ok d) (fun _ => Ok []) (fun _ _ => Ok tt) tt unit unit
             (fun _ => St.raise (AttributeError "_assess_timing_risk"))
             (fun _ => St.raise (AttributeError "_calculate_market_impact"))
             _ (example_manager false) _
             (AttributeError "_assess_timing_risk") eq_refl
             (or_introl eq_refl)).
  split; reflexivity.
Defined.

End ManagerApprovalExamples.

Section BreachFacts.

Import RiskManager RiskMonitoring.
Local Open Scope Q_scope.

Variable DataFrame : Type.
Variable Event : Type.
Variable Trigger : Type.
Variable Diagnostics : Type.
Variable Value : Type.
Variable repr_trigger : Trigger -> string.
Variable show_severity : Q -> string.
Variable breach_trigger : Q -> Event -> Trigger.
Variable event_value : Event -> Value.
Variable severity_value : Q -> Value.
Variable actions_value : list string -> Value.
Variable timestamp_value : Value.
Variable assess_breach_severity :
  Event -> world DataFrame -> outcome (world DataFrame) Q.
Variable reduce_risk_exposure :
  world DataFrame -> outcome (world DataFrame) unit.
Variable cancel_all_orders : world DataFrame -> outcome (world DataFrame) unit.
Variable secure_portfolio_state :
  world DataFrame -> outcome (world DataFrame) unit.
Variable send_emergency_notifications :
  Trigger -> world DataFrame -> outcome (world DataFrame) unit.
Variable run_system_diagnostics :
  world DataFrame -> outcome (world DataFrame) Diagnostics.

Local Abbreviation handle :=
  (handle_risk_breach DataFrame Event Trigger Diagnostics Value repr_trigger
     show_severity breach_trigger event_value severity_value actions_value
     timestamp_value assess_breach_severity reduce_risk_exposure
     cancel_all_orders secure_portfolio_state send_emergency_notifications
     run_system_diagnostics).

Lemma breach_record_not_recorded (history : gmap string (list Value))
    (a b c d : Value) :
  dom history = dom (initial_history Value) ->
  update_risk_history Value history (breach_record Value a b c d) = history.
Proof.
  intros Hdom. apply map_eq. intros k. rewrite update_risk_history_lookup.
  destruct (history !! k) as [entries | ] eqn:Hk; [ | reflexivity ].
  assert (Hin : k ∈ dom (initial_history Value)).
  { rewrite <- Hdom. apply elem_of_dom. eauto. }
  apply elem_of_dom in Hin as [x Hx]. unfold initial_history in Hx.
  repeat (apply lookup_insert_Some in Hx as [[<- _] | [_ Hx]];
          [ reflexivity | ]).
  apply lookup_singleton_Some in Hx as [<- _]. reflexivity.
Qed.

(** X25.  A breach of critical severity (0.9 or more) always closes the
    trading gate: whether [handle_risk_breach] returns or never does,
    it raises nothing, [emergency_stop] is set afterwards and the
    risk-metrics history is as before.  When it returns, it reports the
    breach as handled with the action ['emergency_shutdown'], whatever
    [emergency_shutdown] itself returned. *)
Theorem handle_risk_breach_critical (risk_event : Event)
    (s : state DataFrame Value) (severity : Q) (w1 : world DataFrame) :
  keeps_emergency_stop cancel_all_orders ->
  keeps_emergency_stop secure_portfolio_state ->
  assess_breach_severity risk_event (mgr DataFrame Value s)
  = Returned severity w1 ->
  CRITICAL <= severity ->
  dom (history DataFrame Value s) = dom (initial_history Value) ->
  let out := handle risk_event s in
  raises out = false
  /\ emergency_stop (this (mgr DataFrame Value (world_of out))) = true
  /\ history DataFrame Value (world_of out) = history DataFrame Value s
  /\ forall response s', out = Returned response s' ->
       response = Handled severity ["emergency_shutdown"].
Proof.
  intros Hcancel Hsecure Hassess Hcrit Hdom. cbv zeta.
  apply Qle_bool_iff in Hcrit.
  destruct (emergency_shutdown_sets_stop DataFrame Trigger Diagnostics
              repr_trigger cancel_all_orders secure_portfolio_state
              send_emergency_notifications run_system_diagnostics
              Hcancel Hsecure (breach_trigger severity risk_event) w1)
    as [Hraise Hstop].
  assert (Hout :
    handle risk_event s
    = match emergency_shutdown DataFrame Trigger Diagnostics repr_trigger
              cancel_all_orders secure_portfolio_state
              send_emergency_notifications run_system_diagnostics
              (breach_trigger severity risk_event) w1 with
      | Returned _ w2 =>
          Returned (Handled severity ["emergency_shutdown"])
            {| mgr := logger DataFrame "WARNING"
                        ("Risk breach handled - Severity: "
                         ++ show_severity severity) w2;
               history :=
                 update_risk_history Value (history DataFrame Value s)
                   (breach_record Value (event_value risk_event)
                      (severity_value severity)
                      (actions_value ["emergency_shutdown"])
                      timestamp_value) |}
      | Raised e w2 =>
          Returned (BreachError (str_of_exn e))
            {| mgr := logger DataFrame "ERROR"
                        ("Error handling risk breach: " ++ str_of_exn e) w2;
               history := history DataFrame Value s |}
      | Hangs w2 => Hangs {| mgr := w2; history := history DataFrame Value s |}
      end).
  { unfold handle_risk_breach, otry, obind, on_manager.
    rewrite Hassess. cbn [mgr history].
    unfold respond. rewrite Hcrit. unfold obind.
    destruct (emergency_shutdown _ _ _ _ _ _ _ _ _ w1); reflexivity. }
  rewrite Hout. clear Hout.
  destruct (emergency_shutdown _ _ _ _ _ _ _ _ _ w1) as [b w2 | e w2 | w2];
    cbn [raises world_of mgr history] in *.
  - rewrite breach_record_not_recorded by exact Hdom.
    repeat split; try assumption.
    intros response s' H. injection H as <- _. reflexivity.
  - discriminate Hraise.
  - repeat split; try assumption. intros response s' H. discriminate H.
Qed.

End BreachFacts.

Section BreachExamples.

Import RiskManager RiskMonitoring.
Local Open Scope Q_scope.

Lemma handle_risk_breach_critical_witness :
  let s := {| mgr := example_manager false;
              history := initial_history Q |} in
  let out :=
    handle_risk_breach unit string string unit Q (fun t => t)
      (fun _ => "0.95") (fun _ ev => ev) (fun _ => 0) (fun q => q)
      (fun _ => 0) 0
      (fun _ w => Returned 0.95 w)
      (undefined_method "_reduce_risk_exposure")
      (undefined_method "_cancel_all_orders")
      (undefined_method "_secure_portfolio_state")
      (fun _ => undefined_method "_send_emergency_notifications")
      (undefined_method "_run_system_diagnostics")
      "drawdown" s in
  raises out = false
  /\ emergency_stop (this (mgr unit Q (world_of out))) = true.
Proof.
  cbv zeta.
  destruct (handle_risk_breach_critical unit string string unit Q (fun t => t)
              (fun _ => "0.95") (fun _ ev => ev) (fun _ => 0) (fun q => q)
              (fun _ => 0) 0
              (fun _ w => Returned 0.95 w)
              (undefined_method "_reduce_risk_exposure")
              (undefined_method "_cancel_all_orders")
              (undefined_method "_secure_portfolio_state")
              (fun _ => undefined_method "_send_emergency_notifications")
              (undefined_method "_run_system_diagnostics")
              "drawdown"
              {| mgr := example_manager false; history := initial_history Q |}
              0.95 (example_manager false))
    as (Hraise & Hstop & _).
  - intros w. reflexivity.
  - intros w. reflexivity.
  - reflexivity.
  - unfold CRITICAL, Qle. simpl. lia.
  - reflexivity.
  - split; [ exact Hraise | exact Hstop ].
Defined.

End BreachExamples.

(** ** ArbitrageExecutor: the trade placeholder *)


Section PlaceholderFacts.

Import ArbitrageExecutor TradePlaceholder.
Local Open Scope Q_scope.

Variable Metrics : Type.
Variable show_metrics : Metrics -> string.
Variable validate_execution : opportunity -> bool * Metrics.
Variable calculate_execution_path : opportunity -> list step.
Variable base_validate_trade : string -> step -> bool * Metrics.
Variable elapsed_ms : Q.

Lemma sum_zeros {A : Type} (l : list A) : Np.sum (map (fun _ => 0) l) == 0.
Proof.
  induction l as [ | x l IH ]; [ reflexivity | ].
  cbn [map]. rewrite sum_cons, IH. ring.
Qed.

(** A bundle that is built holds the steps of the path, in order. *)
Lemma build_bundle_steps (p : string) (path : list step) :
  forall acc bundle,
    build_bundle Metrics base_validate_trade p path acc = inr bundle ->
    map fst bundle = (map fst acc ++ path)%list.
Proof.
  induction path as [ | s path IH ]; intros acc bundle H.
  - cbn [build_bundle] in H. injection H as <-. rewrite app_nil_r. reflexivity.
  - cbn [build_bundle] in H.
    destruct (base_validate_trade p s).1; [ | discriminate H ].
    rewrite (IH _ _ H), map_app, <- app_assoc. reflexivity.
Qed.

(** X26.  With [_execute_trade] as it is written, a placeholder that
    reports success with zero profit, every call of
    [execute_opportunity] that reaches the submission stage (and whose
    legs complete within the timeout) succeeds at the first attempt,
    with no error and exactly one successful trade per step of the
    execution path; the profit and the MEV saving it reports are zero,
    and the totals in the statistics do not move. *)
Theorem execute_opportunity_with_placeholder (opp : opportunity)
    (st : execution_stats) :
  reaches_submission Metrics validate_execution calculate_execution_path
    base_validate_trade opp = true ->
  let out := execute_opportunity Metrics show_metrics validate_execution
               calculate_execution_path base_validate_trade gather elapsed_ms
               opp st in
  success out.1 = true
  /\ errors out.1 = []
  /\ trades out.1
     = map (fun _ => {| trade_success := true; realized_profit := 0;
                        trade_mev_savings := 0 |})
         (calculate_execution_path opp)
  /\ length (trades out.1) = length (calculate_execution_path opp)
  /\ Forall (fun tr => trade_success tr = true /\ realized_profit tr = 0)
       (trades out.1)
  /\ profit_usdc out.1 == 0
  /\ mev_savings out.1 == 0
  /\ successful_executions out.2 = (successful_executions st + 1)%Z
  /\ total_profit_usdc out.2 == total_profit_usdc st
  /\ mev_optimization_savings out.2 == mev_optimization_savings st.
Proof.
  unfold reaches_submission, execute_opportunity. cbv zeta.
  destruct (validate_execution opp) as [valid metrics]. cbn [fst snd].
  destruct valid; cbn [negb andb]; [ | discriminate ].
  destruct (calculate_execution_path opp) as [ | s path ]; [ discriminate | ].
  destruct (build_bundle _ _ _ _ _) as [ rejected | bundle ] eqn:Hbundle;
    [ discriminate | ].
  intros _.
  apply build_bundle_steps in Hbundle. cbn [map app] in Hbundle.
  assert (Htrades :
    map (@execute_trade Metrics) bundle
    = map (fun _ => {| trade_success := true; realized_profit := 0;
                       trade_mev_savings := 0 |}) (s :: path)).
  { rewrite <- Hbundle, map_map. reflexivity. }
  assert (Hall : forallb trade_success (map (@execute_trade Metrics) bundle) = true).
  { apply forallb_forall. intros tr Htr. apply in_map_iff in Htr.
    destruct Htr as [leg [<- _]]. reflexivity. }
  assert (Hretry :
    retry Metrics gather (seq 0 MAX_EXECUTION_ATTEMPTS) bundle
      {| success := false; trades := []; profit_usdc := 0; mev_savings := 0;
         errors := [] |}
    = {| success := true;
         trades := map (@execute_trade Metrics) bundle;
         profit_usdc :=
           Np.sum (map realized_profit (map (@execute_trade Metrics) bundle));
         mev_savings :=
           Np.sum (map trade_mev_savings (map (@execute_trade Metrics) bundle));
         errors := [] |}).
  { unfold MAX_EXECUTION_ATTEMPTS. cbn [seq retry]. unfold gather.
    rewrite Hall. reflexivity. }
  rewrite Hretry. unfold update_execution_stats.
  cbn [fst snd success errors trades profit_usdc mev_savings
       successful_executions total_profit_usdc mev_optimization_savings].
  assert (Hp : Np.sum (map realized_profit (map (@execute_trade Metrics) bundle)) == 0).
  { rewrite map_map. apply sum_zeros. }
  assert (Hm : Np.sum (map trade_mev_savings (map (@execute_trade Metrics) bundle)) == 0).
  { rewrite map_map. apply sum_zeros. }
  split; [ reflexivity | ]. split; [ reflexivity | ].
  split; [ exact Htrades | ].
  split; [ rewrite Htrades, length_map; reflexivity | ].
  split.
  { apply List.Forall_forall. intros tr Htr. apply in_map_iff in Htr.
    destruct Htr as [leg [<- _]]. split; reflexivity. }
  split; [ exact Hp | ]. split; [ exact Hm | ].
  split; [ reflexivity | ].
  split; [ rewrite Hp; ring | rewrite Hm; ring ].
Qed.

End PlaceholderFacts.

Section PlaceholderExamples.

Import ArbitrageExecutor TradePlaceholder.
Local Open Scope Q_scope.

(** The path of the example has a buy and a sell: two trades are
    reported, each a success with no profit. *)
Lemma execute_opportunity_with_placeholder_witness :
  let path := Executor.calculate_execution_path Executor.example_market
                Executor.example_opportunity in
  let out := execute_opportunity unit (fun _ => "{}")
               (fun _ => (true, tt)) (fun _ => path) (fun _ _ => (true, tt))
               gather 1 Executor.example_opportunity initial_stats in
  success out.1 = true /\ errors out.1 = []
  /\ trades out.1
     = [ {| trade_success := true; realized_profit := 0;
            trade_mev_savings := 0 |};
         {| trade_success := true; realized_profit := 0;
            trade_mev_savings := 0 |} ].
Proof.
  cbv zeta.
  destruct (execute_opportunity_with_placeholder unit (fun _ => "{}")
              (fun _ => (true, tt))
              (fun _ => Executor.calculate_execution_path
                          Executor.example_market Executor.example_opportunity)
              (fun _ _ => (true, tt)) 1 Executor.example_opportunity
              initial_stats)
    as (Hs & He & Ht & _).
  - vm_compute. reflexivity.
  - split; [ exact Hs | ]. split; [ exact He | ].
    rewrite Ht. vm_compute. reflexivity.
Defined.

End PlaceholderExamples.

(** ** ArbitrageDetector: market data updates and price differences *)

Section DetectorDataFacts.

Import DetectorData.
Local Open Scope Q_scope.

Variable DataFrame : Type.
Variable has_columns : DataFrame -> bool.
Variable latency_ms : DataFrame -> res Q.

Local Abbreviation update :=
  (update_market_data DataFrame has_columns latency_ms).

Lemma last_n_length {A : Type} (n : nat) (l : list A) :
  length (last_n n l) = Nat.min n (length l).
Proof. unfold last_n. rewrite length_skipn. lia. Qed.

(** X27.  [update_market_data] takes over every frame that has the
    required columns, also when it then answers [False] because the
    frame is older than 100 ms or its age cannot be computed; a frame
    without the columns changes nothing.  The latency list never grows
    beyond 1000 entries, and a computed latency is its newest entry. *)
Theorem update_market_data_takes_over (new_data : DataFrame)
    (d : detector DataFrame) :
  (length (detection_latency d) <= 1000)%nat ->
  let out := update new_data d in
  (length (detection_latency out.2) <= 1000)%nat
  /\ (has_columns new_data = false -> out = (false, d))
  /\ (has_columns new_data = true ->
      market_data out.2 = new_data
      /\ match latency_ms new_data with
         | Ok latency =>
             out.1 = Qle_bool latency MAX_DETECTION_LATENCY_MS
             /\ List.last (detection_latency out.2) 0 = latency
         | Raise _ =>
             out.1 = false
             /\ detection_latency out.2 = detection_latency d
         end).
Proof.
  intros Hlen. cbv zeta. unfold update_market_data.
  destruct (has_columns new_data); cbn [negb].
  - destruct (latency_ms new_data) as [latency | e]; cbn [fst snd].
    + cbn [detection_latency market_data].
      set (appended := (detection_latency d ++ [latency])%list).
      assert (Happ : length appended = S (length (detection_latency d))).
      { unfold appended. rewrite length_app. simpl. lia. }
      split; [ | split; [ discriminate | ] ].
      * destruct (1000 <? length appended)%nat eqn:E.
        -- rewrite last_n_length. lia.
        -- apply Nat.ltb_ge in E. exact E.
      * intros _. split; [ reflexivity | ]. split; [ reflexivity | ].
        destruct (1000 <? length appended)%nat eqn:E.
        -- unfold last_n. rewrite Happ.
           apply Nat.ltb_lt in E. rewrite Happ in E.
           assert (Hd : length (detection_latency d) = 1000%nat) by lia.
           rewrite Hd. change (1001 - 1000)%nat with 1%nat.
           unfold appended.
           destruct (detection_latency d) as [ | x l ]; [ discriminate | ].
           cbn [app skipn]. apply List.last_last.
        -- unfold appended. apply List.last_last.
    + split; [ exact Hlen | ]. split; [ discriminate | ].
      intros _. repeat split.
  - split; [ exact Hlen | ]. split; [ reflexivity | discriminate ].
Qed.

End DetectorDataFacts.

Section DetectorDataExamples.

Import DetectorData.
Local Open Scope Q_scope.

Lemma update_market_data_takes_over_witness :
  let out := update_market_data nat (fun _ => true) (fun _ => Ok 250)
               7%nat {| market_data := 3%nat; detection_latency := [20] |} in
  market_data out.2 = 7%nat /\ out.1 = false.
Proof.
  cbv zeta.
  destruct (update_market_data_takes_over nat (fun _ => true)
              (fun _ => Ok 250) 7%nat
              {| market_data := 3%nat; detection_latency := [20] |})
    as (_ & _ & H).
  - simpl. lia.
  - destruct (H eq_refl) as (Hmd & Hret & _). split; [ exact Hmd | exact Hret ].
Defined.

End DetectorDataExamples.

Section PriceDifferenceRange.

Import ArbitrageDetector.
Local Open Scope Q_scope.

Lemma rint_choice (x : Q) :
  Np.rint x = Qfloor x \/ Np.rint x = (Qfloor x + 1)%Z.
Proof.
  unfold Np.rint. destruct (Qcompare _ _); [ | left | right ]; try reflexivity.
  destruct (Z.even (Qfloor x)); [ left | right ]; reflexivity.
Qed.

Lemma rint_lower (x : Q) (n : Z) : inject_Z n <= x -> (n <= Np.rint x)%Z.
Proof.
  intros H. assert (Hf : (n <= Qfloor x)%Z).
  { rewrite <- (Qfloor_Z n). apply Qfloor_resp_le. exact H. }
  destruct (rint_choice x) as [-> | ->]; lia.
Qed.

Lemma rint_upper (x : Q) (n : Z) : x <= inject_Z n -> (Np.rint x <= n)%Z.
Proof.
  intros H. assert (Hf : (Qfloor x <= n)%Z).
  { rewrite <- (Qfloor_Z n). apply Qfloor_resp_le. exact H. }
  destruct (Z.eq_dec (Qfloor x) n) as [E | Hne].
  - assert (Hx : x == inject_Z n).
    { apply Qle_antisym; [ exact H | ]. rewrite <- E. apply Qfloor_le. }
    unfold Np.rint. rewrite E.
    assert (Hc : Qcompare (x - inject_Z n) (1 # 2) = Lt).
    { apply (proj1 (Qlt_alt _ _)).
      assert (Hd : x - inject_Z n == 0) by (rewrite Hx; ring).
      rewrite Hd. reflexivity. }
    rewrite Hc. lia.
  - destruct (rint_choice x) as [-> | ->]; lia.
Qed.

(** X28.  For strictly positive prices [calculate_price_difference]
    returns a value between 0 and 20000 basis points, and 0 for equal
    prices; with a price that is zero or negative it raises a
    [ValueError]. *)
Theorem price_difference_range (price_a price_b : Q) :
  (0 < price_a /\ 0 < price_b ->
   exists bps,
     calculate_price_difference price_a price_b = Ok bps
     /\ 0 <= bps <= 20000
     /\ (price_a == price_b -> bps == 0))
  /\ (price_a <= 0 \/ price_b <= 0 ->
      calculate_price_difference price_a price_b
      = Raise (ValueError "Invalid price values")).
Proof.
  split.
  - intros [Ha Hb]. unfold calculate_price_difference.
    rewrite (Qle_bool_false_lt _ _ Ha), (Qle_bool_false_lt _ _ Hb).
    cbn [orb nth].
    set (x := Qabs (price_b - price_a) / Np.mean [price_a; price_b] * 10000).
    assert (Hmean : Np.mean [price_a; price_b] == (price_a + price_b) / 2).
    { unfold Np.mean, Np.sum. simpl. field. }
    set (m := (price_a + price_b) / 2) in *.
    assert (Hpos : 0 < m).
    { unfold m. apply Qlt_shift_div_l; [ reflexivity | ]. lra. }
    assert (Hm2 : 2 * m == price_a + price_b) by (unfold m; field).
    assert (Habs0 : 0 <= Qabs (price_b - price_a)) by apply Qabs_nonneg.
    assert (Habs1 : Qabs (price_b - price_a) <= price_a + price_b).
    { apply Qabs_Qle_condition. lra. }
    assert (Hq0 : 0 <= Qabs (price_b - price_a) / m).
    { apply Qle_shift_div_l; [ exact Hpos | ]. rewrite Qmult_0_l. exact Habs0. }
    assert (Hq2 : Qabs (price_b - price_a) / m <= 2).
    { apply Qle_shift_div_r; [ exact Hpos | ]. rewrite Hm2. exact Habs1. }
    assert (Hx0 : 0 <= x) by (unfold x; rewrite Hmean; lra).
    assert (Hx1 : x <= 20000) by (unfold x; rewrite Hmean; lra).
    eexists. split; [ reflexivity | ]. unfold Np.round.
    change (inject_Z (10 ^ Z.of_nat 2)) with 100.
    split; [ split | ].
    + apply Qle_shift_div_l; [ reflexivity | ].
      rewrite Qmult_0_l. rewrite <- (Zle_Qle 0).
      apply rint_lower. change (inject_Z 0) with 0. lra.
    + apply Qle_shift_div_r; [ reflexivity | ].
      change (20000 * 100) with (inject_Z 2000000). rewrite <- Zle_Qle.
      apply rint_upper. change (inject_Z 2000000) with 2000000. lra.
    + intros Heq.
      assert (Hz : x * 100 == 0).
      { unfold x. assert (E : price_b - price_a == 0) by lra.
        rewrite E, Hmean. change (Qabs 0) with 0. field. lra. }
      rewrite (rint_comp _ _ Hz). reflexivity.
  - intros H. unfold calculate_price_difference.
    assert (Hor : Qle_bool price_a 0 || Qle_bool price_b 0 = true).
    { apply orb_true_iff. destruct H as [H | H]; [ left | right ];
        apply Qle_bool_iff; exact H. }
    rewrite Hor. reflexivity.
Qed.

End PriceDifferenceRange.

(** ** ArbitrageExecutor: slippage on a book with several levels *)

Section SlippageDepth.

Import ArbitrageExecutor.
Local Open Scope Q_scope.

(** When every cumulative volume covers the trade size, each level
    counts with the full size: the weighted sum is the size times the
    sum of all level prices. *)
Lemma weighted_sum_full_size (s : Q) (rows : list (Q * Q)) :
  forall acc,
    s <= acc ->
    Forall (fun row => 0 <= row.2) rows ->
    Np.sum (zip_with Qmult (map fst rows)
              (map (Qmin s) (Np.cumsum_from acc (map snd rows))))
    == s * Np.sum (map fst rows).
Proof.
  induction rows as [ | [p v] rows IH ]; intros acc Hacc Hpos.
  - unfold Np.sum. simpl. ring.
  - inversion Hpos as [ | ? ? Hv Hrest ]; subst. cbn [snd] in Hv.
    cbn [map fst snd Np.cumsum_from zip_with].
    assert (Hacc' : s <= acc + v) by lra.
    rewrite !sum_cons, (IH (acc + v) Hacc' Hrest).
    rewrite (Q.min_l s (acc + v) Hacc'). ring.
Qed.


End SlippageDepth.

Section SlippageDepthExamples.

Import ArbitrageExecutor.
Local Open Scope Q_scope.


End SlippageDepthExamples.

(** ** GridCalculator and GridStrategyManager: no parameters, no new
    levels *)

Section GridEngineFacts.

Import Heap RiskCalculator GridCalculator GridStrategyManager.
Local Open Scope Q_scope.

Variable DataFrame : Type.
Variable Scenarios : Type.
Variable ReturnStats : Type.
Variable pct_change_dropna : DataFrame -> res DataFrame.
Variable corr_values : DataFrame -> res (list (list Q)).
Variable return_statistics : DataFrame -> Scenarios -> res ReturnStats.
Variable base_scenario : Scenarios.
Variable last_price : DataFrame -> Q.
Variable validate_market_data : DataFrame -> bool.
Variable returns_std : DataFrame -> res Q.
Variable calculate_grid_spacing : DataFrame -> res Q.
Variable recommended_size : DataFrame -> Q -> res Q.

Local Abbreviation optimize :=
  (GridEngine.optimize_grid_parameters DataFrame Scenarios ReturnStats
     pct_change_dropna corr_values return_statistics base_scenario last_price
     validate_market_data returns_std calculate_grid_spacing recommended_size).

(** Every call ends in the [ValueError] of the handler: the body raises
    at the risk validation at the latest. *)
Lemma optimize_grid_parameters_raises (w : world) (md : DataFrame)
    (history : list Q) :
  exists msg,
    (optimize w md history).1
    = Raise (ValueError ("Error optimizing grid parameters: " ++ msg)).
Proof.
  unfold GridEngine.optimize_grid_parameters, optimize_grid_parameters,
    optimize_grid_parameters_body.
  st_unfold.
  destruct (validate_market_data md); cbn [negb];
    [ | eexists; reflexivity ].
  destruct (returns_std md) as [c | e]; [ | eexists; reflexivity ].
  destruct (update_volatility_history history c) as [h | e];
    [ | eexists; reflexivity ].
  destruct (calculate_grid_spacing md) as [spacing | e];
    [ | eexists; reflexivity ].
  destruct (grid_levels_of h c) as [levels | e]; [ | eexists; reflexivity ].
  destruct (recommended_size md c) as [total | e]; [ | eexists; reflexivity ].
  destruct (levels =? 0)%Z; [ eexists; reflexivity | ].
  unfold GridEngine.risk_validate. rewrite risk_validation_rejects.
  cbn [negb]. eexists; reflexivity.
Qed.

(** C10.  [optimize_grid_parameters] returns no [grid_levels]: for every
    market data, every volatility buffer and every state of the risk
    calculator the call raises a [ValueError], so the number of levels
    computed on the way is delivered to no caller, whatever the current
    volatility is. *)
Theorem optimize_grid_parameters_returns_no_grid_levels (w : world)
    (md : DataFrame) (history : list Q) :
  let out := optimize w md history in
  (exists msg,
     out.1 = Raise (ValueError ("Error optimizing grid parameters: " ++ msg)))
  /\ (forall p : grid_params, out.1 <> Ok p).
Proof.
  cbv zeta.
  destruct (optimize_grid_parameters_raises w md history) as [msg H].
  split; [ exists msg; exact H | ].
  intros p Hp. rewrite H in Hp. discriminate Hp.
Qed.

Variable Conditions : Type.
Variable RiskMetrics : Type.
Variable Performance : Type.
Variable get_market_data : string -> res DataFrame.
Variable validate_trade : string -> Q -> Q -> bool * RiskMetrics.
Variable cancel_grid_orders : string -> res unit.

Local Abbreviation rebalance :=
  (GridEngine.rebalance_grid DataFrame Scenarios ReturnStats
     pct_change_dropna corr_values return_statistics base_scenario last_price
     validate_market_data returns_std calculate_grid_spacing recommended_size
     Conditions RiskMetrics Performance get_market_data validate_trade
     cancel_grid_orders).


End GridEngineFacts.

Section GridEngineExamples.

Import GridCalculator GridStrategyManager.
Local Open Scope Q_scope.

(** Scenario 6: the buffer holds volatilities of 0.02 and the current
    volatility is 0.01.  The formula of the specification gives 20
    levels on the updated buffer (11 when the current volatility is the
    average); the call raises. *)
Lemma optimize_grid_parameters_returns_no_grid_levels_witness :
  let history := repeat 0.02 VOLATILITY_WINDOW in
  spec_grid_levels (repeat 0.02 23 ++ [0.01]) 0.01 = 20%Z
  /\ spec_grid_levels history 0.02 = 11%Z
  /\ (GridEngine.example_optimize_grid_parameters history).1
     = Raise (ValueError
         "Error optimizing grid parameters: Grid setup failed risk validation")
  /\ forall p, (GridEngine.example_optimize_grid_parameters history).1 <> Ok p.
Proof.
  cbv zeta.
  split; [ vm_compute; reflexivity | ].
  split; [ vm_compute; reflexivity | ].
  split; [ vm_compute; reflexivity | ].
  unfold GridEngine.example_optimize_grid_parameters.
  apply (optimize_grid_parameters_returns_no_grid_levels unit unit unit).
Defined.


End GridEngineExamples.

(** ** ArbitrageExecutor: slippage against the volume-weighted average *)

Section SlippageSpecFacts.

Import ArbitrageExecutor SpecSlippage.
Local Open Scope Q_scope.

(** Once the trade is filled, the deeper levels give nothing. *)
Lemma spec_fills_exhausted (levels : list (Q * Q)) :
  forall remaining,
    remaining == 0 ->
    Forall (fun level => 0 <= level.2) levels ->
    Np.sum (map (fun f => f.1 * f.2) (spec_fills remaining levels)) == 0
    /\ Np.sum (map snd (spec_fills remaining levels)) == 0.
Proof.
  induction levels as [ | [p v] levels IH ]; intros r Hr Hpos.
  - split; reflexivity.
  - inversion Hpos as [ | ? ? Hv Hrest ]; subst. cbn [snd] in Hv.
    assert (Ht : Qmin r v == 0).
    { rewrite Q.min_l; [ exact Hr | rewrite Hr; exact Hv ]. }
    destruct (IH (r - Qmin r v)) as [H1 H2];
      [ rewrite Ht, Hr; ring | exact Hrest | ].
    cbn [spec_fills map fst snd]. rewrite !sum_cons, H1, H2. cbn [fst snd].
    rewrite Ht. split; ring.
Qed.

(** C7.  [_calculate_slippage] does not return the volume-weighted
    average execution price against the best ask: on a book with two or
    more ask levels in ascending positive prices and a trade that the
    best level alone fills, the volume-weighted average over the
    consumed levels is the best ask itself, a slippage of 0 basis
    points, and the code returns 10000 basis points or more (every level
    counts with the full trade size, whether the trade reaches it or
    not). *)
Theorem calculate_slippage_is_not_volume_weighted (market_data : list tick)
    (execution_params : opportunity) (row : tick) (rest : list tick)
    (p1 v1 p2 v2 : Q) (deeper : list (Q * Q)) (trade_size : Q) :
  select market_data (dex_buy execution_params) (opp_pair execution_params)
  = row :: rest ->
  asks (book row) = (p1, v1) :: (p2, v2) :: deeper ->
  opp_size execution_params = Some trade_size ->
  0 < trade_size <= v1 ->
  0 < p1 <= p2 ->
  0 <= v2 ->
  Forall (fun level => 0 <= level.1 /\ 0 <= level.2) deeper ->
  exists spec_bps code_bps,
    spec_slippage (asks (book row)) trade_size = Fin spec_bps
    /\ spec_bps == 0
    /\ calculate_slippage market_data execution_params = Fin code_bps
    /\ 10000 <= code_bps
    /\ calculate_slippage market_data execution_params
       <> spec_slippage (asks (book row)) trade_size.
Proof.
  intros Hrows Hasks Hsize [Hs0 Hs1] [Hp1 Hp2] Hv2 Hdeep.
  assert (Hpos : Forall (fun r : Q * Q => 0 <= r.2) ((p2, v2) :: deeper)).
  { constructor; [ exact Hv2 | ].
    eapply List.Forall_impl; [ | exact Hdeep ]. intros a [_ H]. exact H. }
  (* the specification *)
  assert (Hspec : exists spec_bps,
            spec_slippage (asks (book row)) trade_size = Fin spec_bps
            /\ spec_bps == 0).
  { unfold spec_slippage. rewrite (Qle_bool_false_lt _ _ Hs0), Hasks.
    eexists. split; [ reflexivity | ].
    unfold spec_execution_price. cbn [spec_fills map fst snd].
    assert (Ht : Qmin trade_size v1 == trade_size) by (apply Q.min_l; exact Hs1).
    destruct (spec_fills_exhausted ((p2, v2) :: deeper)
                (trade_size - Qmin trade_size v1)) as [H1 H2];
      [ rewrite Ht; ring | exact Hpos | ].
    cbn [spec_fills map fst snd] in H1, H2.
    rewrite !sum_cons. cbn [fst snd]. rewrite !sum_cons in H1, H2.
    cbn [fst snd] in H1, H2. rewrite H1, H2, Ht.
    field. split; lra. }
  (* the code *)
  assert (Hcode : exists code_bps,
            calculate_slippage market_data execution_params = Fin code_bps
            /\ 10000 <= code_bps).
  { unfold calculate_slippage. rewrite Hrows, Hsize.
    change (default 0 (Some trade_size)) with trade_size.
    rewrite (Qle_bool_false_lt _ _ Hs0), Hasks.
    cbn [map fst snd]. unfold Np.div, Np.mul.
    destruct (Qeq_bool p1 0) eqn:Ez.
    { apply Qeq_bool_iff in Ez. lra. }
    eexists. split; [ reflexivity | ].
    assert (Hsum : Np.sum (zip_with Qmult (p1 :: p2 :: map fst deeper)
                             (map (Qmin trade_size)
                                (Np.cumsum (v1 :: v2 :: map snd deeper))))
                   == trade_size * (p1 + (p2 + Np.sum (map fst deeper)))).
    { unfold Np.cumsum. cbn [Np.cumsum_from map zip_with].
      rewrite sum_cons.
      pose proof (weighted_sum_full_size trade_size ((p2, v2) :: deeper)
                    (0 + v1) ltac:(lra) Hpos) as H.
      cbn [map fst snd Np.cumsum_from zip_with] in H. rewrite H.
      rewrite sum_cons.
      rewrite (Q.min_l trade_size (0 + v1)) by lra. ring. }
    assert (Hdeeper : 0 <= Np.sum (map fst deeper)).
    { unfold Np.sum. apply sum_from_nonneg; [ | apply Qle_refl ].
      apply List.Forall_forall. intros x Hx. apply in_map_iff in Hx.
      destruct Hx as [level [<- Hl]].
      rewrite List.Forall_forall in Hdeep. apply (Hdeep level Hl). }
    rewrite Hsum.
    assert (E : (trade_size * (p1 + (p2 + Np.sum (map fst deeper)))
                 / trade_size - p1) / p1 * 10000
                == (p2 + Np.sum (map fst deeper)) / p1 * 10000)
      by (field; split; lra).
    rewrite E.
    assert (Hq : 1 <= (p2 + Np.sum (map fst deeper)) / p1).
    { apply Qle_shift_div_l; [ exact Hp1 | ]. lra. }
    lra. }
  destruct Hspec as (spec_bps & Hspec & Hzero).
  destruct Hcode as (code_bps & Hcode & Hbig).
  exists spec_bps, code_bps.
  repeat split; try assumption.
  rewrite Hspec, Hcode. intros E. injection E as E.
  rewrite E in Hbig. rewrite Hzero in Hbig.
  revert Hbig. unfold Qle. simpl. lia.
Qed.

End SlippageSpecFacts.

Section SlippageSpecExamples.

Import ArbitrageExecutor SpecSlippage.
Local Open Scope Q_scope.

(** The two-level book of the tests and a trade of 500, which the best
    level (1000 at 101) fills: the volume-weighted average is 101 and
    the slippage 0; the code returns 1020000 / 101, about 10099 basis
    points. *)
Lemma calculate_slippage_is_not_volume_weighted_witness :
  let asks_side := [(101, 1000); (102, 2000)] in
  let market_data :=
    [ {| dex := "jupiter"; pair := "SOL/USDC"; price := 100;
         book := {| bids := [(99, 1000); (98, 2000)];
                    asks := asks_side |} |} ] in
  let execution_params :=
    {| opp_pair := "SOL/USDC"; dex_buy := "jupiter"; dex_sell := "pump_fun";
       price_difference := 25; opp_size := Some 500 |} in
  exists spec_bps code_bps,
    spec_slippage asks_side 500 = Fin spec_bps
    /\ spec_bps == 0
    /\ calculate_slippage market_data execution_params = Fin code_bps
    /\ code_bps == 1020000 / 101.
Proof.
  cbv zeta.
  destruct (calculate_slippage_is_not_volume_weighted
              [ {| dex := "jupiter"; pair := "SOL/USDC"; price := 100;
                   book := {| bids := [(99, 1000); (98, 2000)];
                              asks := [(101, 1000); (102, 2000)] |} |} ]
              {| opp_pair := "SOL/USDC"; dex_buy := "jupiter";
                 dex_sell := "pump_fun"; price_difference := 25;
                 opp_size := Some 500 |}
              {| dex := "jupiter"; pair := "SOL/USDC"; price := 100;
                 book := {| bids := [(99, 1000); (98, 2000)];
                            asks := [(101, 1000); (102, 2000)] |} |}
              [] 101 1000 102 2000 [] 500)
    as (spec_bps & code_bps & Hspec & Hzero & Hcode & _).
  - vm_compute. reflexivity.
  - reflexivity.
  - reflexivity.
  - split; [ reflexivity | unfold Qle; simpl; lia ].
  - split; [ reflexivity | unfold Qle; simpl; lia ].
  - unfold Qle; simpl; lia.
  - apply List.Forall_nil.
  - exists spec_bps, code_bps. cbn [asks book] in Hspec.
    repeat split; try assumption.
    pose proof Hcode as Hc. vm_compute in Hc. injection Hc as <-.
    reflexivity.
Defined.

End SlippageSpecExamples.
